(** * dev-server.py: a no-cache static file server

    A shallow embedding of [dev-server.py].  The script consists of a
    subclass [NoCacheHTTPRequestHandler] of the Python standard library's
    [http.server.SimpleHTTPRequestHandler], overriding [end_headers] and
    [log_message], and of a [__main__] block that serves it from a
    [socketserver.TCPServer] on port 8080.

    The two overrides and the [__main__] block are embedded from
    [dev-server.py].  What the script inherits or calls is embedded from
    the CPython 3.11 standard library ([Lib/http/server.py],
    [Lib/socketserver.py]); each such definition names the library
    function it follows.  Methods that call [self.end_headers] or
    [self.log_message] take the class of [self] as a parameter, so that the
    inherited code runs the overrides, as it does in Python.

    Whatever the library obtains from the operating system or from helper
    modules outside [http.server] (the clock, the file system, MIME type
    guessing, [repr], [int], ...) is an operation of the [Platform]
    interface. *)

From Stdlib Require Import ZArith List Ascii String Lia Bool.
From stdpp Require Import base option list gmap strings pretty.

Local Open Scope string_scope.
Local Open Scope Z_scope.
Local Open Scope list_scope.

(** ** Characters and strings *)

Module Str.

Definition CR : string := String (ascii_of_nat 13) "".
Definition LF : string := String (ascii_of_nat 10) "".
Definition CRLF : string := CR +:+ LF.
(** The double quote character, as a one-character string. *)
Definition DQ : string := String (ascii_of_nat 34) "".

Definition ascii_eqb (a b : ascii) : bool := Ascii.eqb a b.

(** [str.startswith] *)
Definition startswith (s p : string) : bool := String.prefix p s.

Fixpoint rev_acc (s acc : string) : string :=
  match s with
  | EmptyString => acc
  | String c s' => rev_acc s' (String c acc)
  end.

Definition rev (s : string) : string := rev_acc s "".

(** [str.endswith] *)
Definition endswith (s p : string) : bool := String.prefix (rev p) (rev s).

(** [str.lower], on the ASCII letters. *)
Definition lower_char (c : ascii) : ascii :=
  let n := nat_of_ascii c in
  if ((65 <=? n)%nat && (n <=? 90)%nat)%bool then ascii_of_nat (n + 32) else c.

Fixpoint lower (s : string) : string :=
  match s with
  | EmptyString => EmptyString
  | String c s' => String (lower_char c) (lower s')
  end.

(** [str.lstrip(chars)]: drop the leading characters that satisfy [p]. *)
Fixpoint lstrip (p : ascii -> bool) (s : string) : string :=
  match s with
  | EmptyString => EmptyString
  | String c s' => if p c then lstrip p s' else s
  end.

(** [str.rstrip(chars)] *)
Definition rstrip (p : ascii -> bool) (s : string) : string :=
  rev (lstrip p (rev s)).

Definition is_crlf (c : ascii) : bool :=
  let n := nat_of_ascii c in ((n =? 13)%nat || (n =? 10)%nat)%bool.

Definition is_slash (c : ascii) : bool := (nat_of_ascii c =? 47)%nat.

(** [str.isspace] on the code points below 256, which is all that a
    request line decoded as iso-8859-1 can hold. *)
Definition isspace (c : ascii) : bool :=
  let n := nat_of_ascii c in
  (((9 <=? n)%nat && (n <=? 13)%nat) || ((28 <=? n)%nat && (n <=? 32)%nat)
   || (n =? 133)%nat || (n =? 160)%nat)%bool.

(** [str.split()] without a separator: the maximal runs of characters
    that are not white space.  [cur] is the run being read, reversed. *)
Fixpoint split_ws_go (s cur : string) : list string :=
  match s with
  | EmptyString =>
      match cur with EmptyString => [] | _ => [rev cur] end
  | String c s' =>
      if isspace c
      then match cur with
           | EmptyString => split_ws_go s' ""
           | _ => rev cur :: split_ws_go s' ""
           end
      else split_ws_go s' (String c cur)
  end.

Definition split_ws (s : string) : list string := split_ws_go s "".

(** [str.split(sep)] for a one-character separator: always at least one
    piece. *)
Fixpoint split_on_go (sep : ascii) (s cur : string) : list string :=
  match s with
  | EmptyString => [rev cur]
  | String c s' =>
      if ascii_eqb c sep
      then rev cur :: split_on_go sep s' ""
      else split_on_go sep s' (String c cur)
  end.

Definition split_on (sep : ascii) (s : string) : list string :=
  split_on_go sep s "".

(** [str.split(sep, 1)]: cut at the first separator, if there is one. *)
Fixpoint split_once_go (sep : ascii) (s cur : string) : list string :=
  match s with
  | EmptyString => [rev cur]
  | String c s' =>
      if ascii_eqb c sep then [rev cur; s']
      else split_once_go sep s' (String c cur)
  end.

Definition split_once (sep : ascii) (s : string) : list string :=
  split_once_go sep s "".

(** [b"".join(chunks)] and ["".join(chunks)] *)
Definition join (chunks : list string) : string :=
  foldr String.append "" chunks.

(** [s.split("\n")]: the lines of a text. *)
Definition lines (s : string) : list string := split_on (ascii_of_nat 10) s.

(** The lines of a text each of whose lines ends in a newline: the
    empty piece after the last newline is not a line. *)
Definition text_lines (s : string) : list string :=
  match List.rev (lines s) with
  | EmptyString :: pieces => List.rev pieces
  | _ => lines s
  end.

End Str.

(** ** Python values, exceptions and the [%] operator *)

(** The values that reach a format string in this program. *)
Inductive pyval :=
| VStr (s : string)
| VInt (n : Z).

Inductive exn :=
| NameError (name : string)
| AttributeError (attr : string)
| TypeError (msg : string)
| ValueError (msg : string)
| UnicodeEncodeError (msg : string)
| OSError (errno : Z)
| KeyboardInterrupt
| SystemExit (code : Z).

(** [ValueError] and its subclass [UnicodeEncodeError]. *)
Definition value_error (e : exn) : Prop :=
  exists msg, e = ValueError msg \/ e = UnicodeEncodeError msg.

(** [str(v)] *)
Definition py_str (v : pyval) : string :=
  match v with
  | VStr s => s
  | VInt n => pretty n
  end.

(** [format % args] for the conversions [%s], [%d] and [%%], which are the
    ones the handler's log calls use.  At any other conversion the rest of
    the format and of the arguments goes to [other], the platform's
    formatter. *)
Fixpoint percent_format (other : string -> list pyval -> exn + string)
    (fmt : string) (args : list pyval) : exn + string :=
  match fmt with
  | EmptyString =>
      match args with
      | [] => inr ""
      | _ => inl (TypeError "not all arguments converted during string formatting")
      end
  | String c rest =>
      if Str.ascii_eqb c "%"%char then
        match rest with
        | EmptyString => inl (ValueError "incomplete format")
        | String d rest' =>
            if Str.ascii_eqb d "%"%char then
              match percent_format other rest' args with
              | inr s => inr (String "%"%char s)
              | inl e => inl e
              end
            else if Str.ascii_eqb d "s"%char then
              match args with
              | [] => inl (TypeError "not enough arguments for format string")
              | v :: args' =>
                  match percent_format other rest' args' with
                  | inr s => inr (py_str v +:+ s)
                  | inl e => inl e
                  end
              end
            else if Str.ascii_eqb d "d"%char then
              match args with
              | [] => inl (TypeError "not enough arguments for format string")
              | VInt n :: args' =>
                  match percent_format other rest' args' with
                  | inr s => inr (pretty n +:+ s)
                  | inl e => inl e
                  end
              | VStr _ :: _ => inl (TypeError "%d format: a real number is required, not str")
              end
            else other fmt args
        end
      else
        match percent_format other rest args with
        | inr s => inr (String c s)
        | inl e => inl e
        end
  end.

(** ** The platform *)

(** [time.struct_time], as far as [log_date_time_string] reads it.  The
    month is one of the twelve, which is what [time.localtime] returns. *)
Inductive month :=
| Jan | Feb | Mar | Apr | May | Jun | Jul | Aug | Sep | Oct | Nov | Dec.

Record struct_time := mkTime {
  tm_year : N; tm_mon : month; tm_mday : N;
  tm_hour : N; tm_min : N; tm_sec : N
}.

(** What [open(path, 'rb')] and [os.fstat] give for a file: its bytes, its
    [st_size] and its [st_mtime] in whole seconds. *)
Record file := mkFile {
  f_bytes : string;
  f_size : Z;
  f_mtime : Z
}.

(** How [open(path, 'rb')] fails: with [OSError], which [send_head]
    catches, or with an exception that [except OSError] does not catch:
    [ValueError] for a path with an embedded null byte, and
    [UnicodeEncodeError] for a path that the file system encoding cannot
    encode. *)
Inductive open_error :=
| OpenOSError
| OpenValueError (msg : string)
| OpenUnicodeEncodeError (msg : string).

(** What [str.encode] makes of a text: the bytes, or
    [UnicodeEncodeError] with its message. *)
Inductive encoded :=
| Encoded (bytes : string)
| EncodeError (msg : string).

(** The operating system and the helper modules behind [http.server]. *)
Class Platform := {
  (** [time.localtime(time.time())] at the n-th reading of the clock *)
  localtime : nat -> struct_time;
  (** [email.utils.formatdate(time.time(), usegmt=True)] at the n-th reading *)
  formatdate_now : nat -> string;
  (** [email.utils.formatdate(timestamp, usegmt=True)] *)
  formatdate : Z -> string;
  (** ["Python/" + sys.version.split()[0]] *)
  sys_version : string;
  (** [format % args] from a conversion other than [%s], [%d], [%%] on *)
  format_other : string -> list pyval -> exn + string;
  (** [repr] of a string *)
  py_repr : string -> string;
  (** [int] of a string; [None] stands for [ValueError] *)
  py_int : string -> option Z;
  (** the error page: [error_message_format % {...}], encoded as UTF-8,
      from the code, the message and the explanation *)
  error_page : Z -> string -> string -> string;
  (** [SimpleHTTPRequestHandler.translate_path], which depends on the
      working directory *)
  translate_path : string -> string;
  (** [os.path.isdir], [os.path.isfile] *)
  isdir : string -> bool;
  isfile : string -> bool;
  (** [open(path, 'rb')]; [None] stands for an exception, the one that
      [open_failure] names *)
  open_rb : string -> option file;
  (** the exception that [open(path, 'rb')] raises, when it raises *)
  open_failure : string -> open_error;
  (** [os.listdir]; [None] stands for [OSError] *)
  listdir : string -> option (list string);
  (** the directory listing page that [list_directory] builds from the
      directory, the request path and the entries, and encodes with
      [.encode(enc, 'surrogateescape')]: the request path goes into the
      page through [unquote(..., errors='surrogatepass')], and a lone
      surrogate in it cannot be encoded *)
  listing_page : string -> string -> list string -> encoded;
  (** [sys.getfilesystemencoding()] *)
  fs_encoding : string;
  (** [SimpleHTTPRequestHandler.guess_type] *)
  guess_type : string -> string;
  (** [urllib.parse.urlsplit(path).path] *)
  urlsplit_path : string -> string;
  (** [urlunsplit] of the parts of [path], with ["/"] added to the path part *)
  redirect_url : string -> string;
  (** [email.utils.parsedate_to_datetime] on an [If-Modified-Since] value:
      the time in seconds when the value is well formed and either carries
      no time zone or is in UTC, [None] otherwise *)
  ims_utc : string -> option Z;
  (** [traceback.format_exc()] for an exception *)
  format_exc : exn -> string
}.

(** ** Module globals *)

(** What a global name of the module is bound to. *)
Inductive pyobj :=
| ObjModule (name : string)
| ObjClass (name : string)
| ObjInt (n : Z).

(** ** The state of a request handler and of the process *)

(** The attributes of a [BaseHTTPRequestHandler] instance.  [wfile] is
    unbuffered ([wbufsize = 0]): it is the list of the chunks written to
    the connection, one per [write]. *)
Record handler := mkHandler {
  client_address : string * Z;
  requestline : string;
  request_version : string;
  command : option string;
  path : string;
  headers : list (string * string);
  _headers_buffer : option (list string);
  close_connection : bool;
  wfile : list string
}.

(** The calls the server makes on its listening socket. *)
Inductive syscall :=
| SysSocket (family type : string)
| SysBind (host : string) (port : Z)
| SysListen (backlog : Z)
| SysAccept (client : string * Z)
| SysClose.

(** The process: the handler of the request being served, the module
    globals, the two output streams, the number of clock readings so far
    and the calls made on the listening socket. *)
Record world := mkWorld {
  self : handler;
  globals : gmap string pyobj;
  stdout : string;
  stderr : string;
  clock : nat;
  syscalls : list syscall
}.

Definition set_self (h : handler) (w : world) : world :=
  mkWorld h (globals w) (stdout w) (stderr w) (clock w) (syscalls w).

Definition set_stdout (s : string) (w : world) : world :=
  mkWorld (self w) (globals w) s (stderr w) (clock w) (syscalls w).

Definition set_stderr (s : string) (w : world) : world :=
  mkWorld (self w) (globals w) (stdout w) s (clock w) (syscalls w).

Definition set_clock (n : nat) (w : world) : world :=
  mkWorld (self w) (globals w) (stdout w) (stderr w) n (syscalls w).

Definition set_syscalls (l : list syscall) (w : world) : world :=
  mkWorld (self w) (globals w) (stdout w) (stderr w) (clock w) l.

Definition set_headers_buffer (b : option (list string)) (h : handler) : handler :=
  mkHandler (client_address h) (requestline h) (request_version h) (command h)
    (path h) (headers h) b (close_connection h) (wfile h).

Definition set_close_connection (b : bool) (h : handler) : handler :=
  mkHandler (client_address h) (requestline h) (request_version h) (command h)
    (path h) (headers h) (_headers_buffer h) b (wfile h).

Definition set_wfile (f : list string) (h : handler) : handler :=
  mkHandler (client_address h) (requestline h) (request_version h) (command h)
    (path h) (headers h) (_headers_buffer h) (close_connection h) f.

Definition set_requestline (s : string) (h : handler) : handler :=
  mkHandler (client_address h) s (request_version h) (command h)
    (path h) (headers h) (_headers_buffer h) (close_connection h) (wfile h).

Definition set_request_version (s : string) (h : handler) : handler :=
  mkHandler (client_address h) (requestline h) s (command h)
    (path h) (headers h) (_headers_buffer h) (close_connection h) (wfile h).

Definition set_command (c : option string) (h : handler) : handler :=
  mkHandler (client_address h) (requestline h) (request_version h) c
    (path h) (headers h) (_headers_buffer h) (close_connection h) (wfile h).

Definition set_path (p : string) (h : handler) : handler :=
  mkHandler (client_address h) (requestline h) (request_version h) (command h)
    p (headers h) (_headers_buffer h) (close_connection h) (wfile h).

Definition set_headers (hs : list (string * string)) (h : handler) : handler :=
  mkHandler (client_address h) (requestline h) (request_version h) (command h)
    (path h) hs (_headers_buffer h) (close_connection h) (wfile h).

(** ** Computations that read and write the state and may raise *)

(** A computation returns, raises, or is left waiting for an event that
    does not come ([Blocked]: the process is still running). *)
Inductive outcome (A : Type) :=
| Ok (a : A) (w : world)
| Raise (e : exn) (w : world)
| Blocked (w : world).
Arguments Ok {A} a w.
Arguments Raise {A} e w.
Arguments Blocked {A} w.

Definition M (A : Type) : Type := world -> outcome A.

Global Instance M_ret : MRet M := fun A a w => Ok a w.

Global Instance M_bind : MBind M := fun A B f m w =>
  match m w with
  | Ok a w' => f a w'
  | Raise e w' => Raise e w'
  | Blocked w' => Blocked w'
  end.

Definition raise {A} (e : exn) : M A := fun w => Raise e w.

Definition get_self : M handler := fun w => Ok (self w) w.

Definition modify_self (f : handler -> handler) : M unit :=
  fun w => Ok tt (set_self (f (self w)) w).

(** One reading of the clock. *)
Definition time_time : M nat := fun w => Ok (clock w) (set_clock (S (clock w)) w).

(** [self.wfile.write(data)] *)
Definition wfile_write (data : string) : M unit :=
  modify_self (fun h => set_wfile (wfile h ++ [data]) h).

(** The state in which a computation ends, however it ends. *)
Definition final {A} (o : outcome A) : world :=
  match o with Ok _ w => w | Raise _ w => w | Blocked w => w end.

(** ** The class of a handler: the methods a subclass may override *)

(** The inherited methods call [self.end_headers()] and
    [self.log_message(...)]; which code runs depends on the class of
    [self].  These are the two methods [dev-server.py] overrides. *)
Record handler_class := mkClass {
  cls_end_headers : M unit;
  cls_log_message : string -> list pyval -> M unit
}.

(** ** [http.server.BaseHTTPRequestHandler] *)

Module BaseHTTPRequestHandler.
Section Methods.
Context `{Platform}.

(** [protocol_version = "HTTP/1.0"] *)
Definition protocol_version : string := "HTTP/1.0".

(** [default_request_version = "HTTP/0.9"] *)
Definition default_request_version : string := "HTTP/0.9".

(** [server_version], as [SimpleHTTPRequestHandler] sets it. *)
Definition server_version : string := "SimpleHTTP/0.6".

(** [error_content_type] *)
Definition error_content_type : string := "text/html;charset=utf-8".

(** [responses]: phrase and description of a status code, for the codes
    that the handler sends. *)
Definition responses (code : Z) : option (string * string) :=
  if code =? 100 then Some ("Continue", "Request received, please continue")
  else if code =? 200 then Some ("OK", "Request fulfilled, document follows")
  else if code =? 301 then
    Some ("Moved Permanently", "Object moved permanently -- see URI list")
  else if code =? 304 then
    Some ("Not Modified", "Document has not changed since given time")
  else if code =? 400 then
    Some ("Bad Request", "Bad request syntax or unsupported method")
  else if code =? 404 then Some ("Not Found", "Nothing matches the given URI")
  else if code =? 414 then Some ("Request-URI Too Long", "URI is too long")
  else if code =? 431 then
    Some ("Request Header Fields Too Large",
          "The server is unwilling to process the request because its header "
          +:+ "fields are too large")
  else if code =? 501 then
    Some ("Not Implemented", "Server does not support this operation")
  else if code =? 505 then
    Some ("HTTP Version Not Supported", "Cannot fulfill request")
  else None.

(** [("%s %d %s\r\n" % (protocol_version, code, message))] *)
Definition status_line (code : Z) (message : string) : string :=
  protocol_version +:+ " " +:+ pretty code +:+ " " +:+ message +:+ Str.CRLF.

(** [("%s: %s\r\n" % (keyword, value))] *)
Definition header_line (keyword value : string) : string :=
  keyword +:+ ": " +:+ value +:+ Str.CRLF.

(** The buffer after [if not hasattr(self, '_headers_buffer'):
    self._headers_buffer = []] and [self._headers_buffer.append(line)]. *)
Definition buffer_append (line : string) (h : handler) : handler :=
  set_headers_buffer (Some (default [] (_headers_buffer h) ++ [line])) h.

(** [send_response_only(code, message=None)] *)
Definition send_response_only (code : Z) (message : option string) : M unit :=
  h ← get_self;
  if String.eqb (request_version h) "HTTP/0.9" then mret tt
  else
    let message :=
      match message with
      | Some m => m
      | None => match responses code with Some (m, _) => m | None => "" end
      end in
    modify_self (buffer_append (status_line code message)).

(** [send_header(keyword, value)] *)
Definition send_header (keyword value : string) : M unit :=
  h ← get_self;
  (if String.eqb (request_version h) "HTTP/0.9" then mret tt
   else modify_self (buffer_append (header_line keyword value)));;
  if String.eqb (Str.lower keyword) "connection" then
    if String.eqb (Str.lower value) "close" then
      modify_self (set_close_connection true)
    else if String.eqb (Str.lower value) "keep-alive" then
      modify_self (set_close_connection false)
    else mret tt
  else mret tt.

(** [flush_headers()] *)
Definition flush_headers : M unit :=
  h ← get_self;
  match _headers_buffer h with
  | Some buf =>
      wfile_write (Str.join buf);;
      modify_self (set_headers_buffer (Some []))
  | None => mret tt
  end.

(** [end_headers()], the method [dev-server.py] overrides and calls
    through [super()]. *)
Definition end_headers : M unit :=
  h ← get_self;
  if String.eqb (request_version h) "HTTP/0.9" then mret tt
  else
    match _headers_buffer h with
    | Some buf =>
        modify_self (set_headers_buffer (Some (buf ++ [Str.CRLF])));;
        flush_headers
    | None => raise (AttributeError "_headers_buffer")
    end.

(** [address_string()] *)
Definition address_string : M string :=
  h ← get_self; mret (fst (client_address h)).

(** [monthname] *)
Definition monthname (m : month) : string :=
  match m with
  | Jan => "Jan" | Feb => "Feb" | Mar => "Mar" | Apr => "Apr"
  | May => "May" | Jun => "Jun" | Jul => "Jul" | Aug => "Aug"
  | Sep => "Sep" | Oct => "Oct" | Nov => "Nov" | Dec => "Dec"
  end.

(** ["%0<width>d" % n] for a natural number. *)
Definition zero_pad (width : nat) (n : N) : string :=
  let s := pretty n in
  Str.join (replicate (width - String.length s) "0") +:+ s.

(** [log_date_time_string()]:
    ["%02d/%3s/%04d %02d:%02d:%02d" % (day, monthname[month], year, hh, mm, ss)] *)
Definition log_date_time_string : M string :=
  now ← time_time;
  let t := localtime now in
  mret (zero_pad 2 (tm_mday t) +:+ "/" +:+ monthname (tm_mon t) +:+ "/"
        +:+ zero_pad 4 (tm_year t) +:+ " " +:+ zero_pad 2 (tm_hour t) +:+ ":"
        +:+ zero_pad 2 (tm_min t) +:+ ":" +:+ zero_pad 2 (tm_sec t)).

(** [date_time_string()] with no argument *)
Definition date_time_string : M string :=
  now ← time_time; mret (formatdate_now now).

(** [version_string()] *)
Definition version_string : string := server_version +:+ " " +:+ sys_version.

Section Dispatch.
Variable cls : handler_class.

(** [log_request(code='-', size='-')], called with a code only *)
Definition log_request (code : Z) : M unit :=
  h ← get_self;
  cls_log_message cls (Str.DQ +:+ "%s" +:+ Str.DQ +:+ " %s %s")
    [VStr (requestline h); VStr (pretty code); VStr "-"].

(** [log_error(format, *args)] *)
Definition log_error (format : string) (args : list pyval) : M unit :=
  cls_log_message cls format args.

(** [send_response(code, message=None)] *)
Definition send_response (code : Z) (message : option string) : M unit :=
  log_request code;;
  send_response_only code message;;
  send_header "Server" version_string;;
  d ← date_time_string;
  send_header "Date" d.

(** [send_error(code, message=None, explain=None)]; no caller in the
    handler passes an explanation that is read before the page is
    built, so [explain] goes to the page as it is. *)
Definition send_error (code : Z) (message explain : option string) : M unit :=
  let '(shortmsg, longmsg) := default ("???", "???") (responses code) in
  let message := default shortmsg message in
  let explain := default longmsg explain in
  log_error "code %d, message %s" [VInt code; VStr message];;
  send_response code (Some message);;
  send_header "Connection" "close";;
  body ←
    (if ((200 <=? code) && negb ((code =? 204) || (code =? 205) || (code =? 304)))%bool
     then
       let body := error_page code message explain in
       send_header "Content-Type" error_content_type;;
       send_header "Content-Length" (pretty (Z.of_nat (String.length body)));;
       mret (Some body)
     else mret None);
  cls_end_headers cls;;
  h ← get_self;
  match body with
  | Some b =>
      if (negb (bool_decide (command h = Some "HEAD")) && negb (String.eqb b ""))%bool
      then wfile_write b else mret tt
  | None => mret tt
  end.

(** [handle_expect_100()] *)
Definition handle_expect_100 : M bool :=
  send_response_only 100 None;;
  cls_end_headers cls;;
  mret true.

End Dispatch.
End Methods.
End BaseHTTPRequestHandler.

(** ** [http.server.SimpleHTTPRequestHandler] *)

Module SimpleHTTPRequestHandler.
Section Methods.
Context `{Platform}.
Variable cls : handler_class.

Import BaseHTTPRequestHandler.

(** [name in self.headers]: header names compare without case. *)
Definition has_header (name : string) (hs : list (string * string)) : bool :=
  existsb (fun kv => String.eqb (Str.lower (fst kv)) (Str.lower name)) hs.

(** [self.headers.get(name, "")]: the first header of that name. *)
Definition get_header (name : string) (hs : list (string * string)) : string :=
  match List.find (fun kv => String.eqb (Str.lower (fst kv)) (Str.lower name)) hs with
  | Some kv => snd kv
  | None => ""
  end.

(** [os.path.join(a, b)] on POSIX *)
Definition os_path_join (a b : string) : string :=
  if Str.startswith b "/" then b
  else if (String.eqb a "" || Str.endswith a "/")%bool then a +:+ b
  else a +:+ "/" +:+ b.

(** [list_directory(path)]: the listing to send, or [None] after an
    error response. *)
Definition list_directory (fs_path : string) : M (option string) :=
  match listdir fs_path with
  | None =>
      send_error cls 404 (Some "No permission to list directory") None;;
      mret None
  | Some entries =>
      h ← get_self;
      match listing_page fs_path (path h) entries with
      | EncodeError msg => raise (UnicodeEncodeError msg)
      | Encoded encoded =>
          send_response cls 200 None;;
          send_header "Content-type" ("text/html; charset=" +:+ fs_encoding);;
          send_header "Content-Length" (pretty (Z.of_nat (String.length encoded)));;
          cls_end_headers cls;;
          mret (Some encoded)
      end
  end.

(** The test on [If-Modified-Since] in [send_head]: the header is there,
    [If-None-Match] is not, the date is well formed and in UTC, and the
    file was last written at or before it. *)
Definition not_modified (f : file) (hs : list (string * string)) : bool :=
  if (has_header "If-Modified-Since" hs && negb (has_header "If-None-Match" hs))%bool
  then match ims_utc (get_header "If-Modified-Since" hs) with
       | Some ims => f_mtime f <=? ims
       | None => false
       end
  else false.

(** The second half of [send_head], from [ctype = self.guess_type(path)]
    on; [fs_path] is the local [path] of the Python code.  [open] is
    inside [try: ... except OSError:], which lets its other exceptions
    through. *)
Definition send_file_head (fs_path : string) : M (option string) :=
  let ctype := guess_type fs_path in
  if Str.endswith fs_path "/" then
    send_error cls 404 (Some "File not found") None;;
    mret None
  else
    match open_rb fs_path with
    | None =>
        match open_failure fs_path with
        | OpenOSError =>
            send_error cls 404 (Some "File not found") None;;
            mret None
        | OpenValueError msg => raise (ValueError msg)
        | OpenUnicodeEncodeError msg => raise (UnicodeEncodeError msg)
        end
    | Some f =>
        h ← get_self;
        if not_modified f (headers h) then
          send_response cls 304 None;;
          cls_end_headers cls;;
          mret None
        else
          send_response cls 200 None;;
          send_header "Content-type" ctype;;
          send_header "Content-Length" (pretty (f_size f));;
          send_header "Last-Modified" (formatdate (f_mtime f));;
          cls_end_headers cls;;
          mret (Some (f_bytes f))
    end.

(** [send_head()]: the bytes to copy to the connection, or [None] when
    the caller has nothing further to do. *)
Definition send_head : M (option string) :=
  h ← get_self;
  let fs_path := translate_path (path h) in
  if isdir fs_path then
    if negb (Str.endswith (urlsplit_path (path h)) "/") then
      send_response cls 301 None;;
      send_header "Location" (redirect_url (path h));;
      send_header "Content-Length" "0";;
      cls_end_headers cls;;
      mret None
    else
      match List.find (fun index => isfile (os_path_join fs_path index))
              ["index.html"; "index.htm"] with
      | Some index => send_file_head (os_path_join fs_path index)
      | None => list_directory fs_path
      end
  else send_file_head fs_path.

(** [copyfile(source, outputfile)]: the blocks that [shutil.copyfileobj]
    writes one after the other are one chunk here; an empty source is
    never written. *)
Definition copyfile (source : string) : M unit :=
  if String.eqb source "" then mret tt else wfile_write source.

(** [do_GET()] *)
Definition do_GET : M unit :=
  f ← send_head;
  match f with
  | Some source => copyfile source
  | None => mret tt
  end.

(** [do_HEAD()] *)
Definition do_HEAD : M unit :=
  f ← send_head;
  mret tt.

End Methods.
End SimpleHTTPRequestHandler.

(** ** Reading and dispatching a request *)

(** What [http.client.parse_headers] makes of the header block. *)
Inductive header_parse :=
| HeadersOk (hs : list (string * string))
| LineTooLong (err : string)
| TooManyHeaders (err : string).

(** A request as it arrives on the connection: the first line, as
    [rfile.readline(65537)] returns it, and the header block. *)
Record request_data := mkRequest {
  raw_requestline : string;
  header_block : header_parse
}.

Module RequestHandling.
Section Methods.
Context `{Platform}.
Variable cls : handler_class.

Import BaseHTTPRequestHandler.

(** The [try] block of [parse_request] that reads the version off the
    last word: the text after ["HTTP/"] and the two numbers, or [None]
    for [ValueError] and [IndexError]. *)
Definition parse_version (version : string) : option (string * (Z * Z)) :=
  if negb (Str.startswith version "HTTP/") then None
  else
    match Str.split_once "/" version with
    | [_; base_version_number] =>
        match Str.split_on "." base_version_number with
        | [major; minor] =>
            match py_int major, py_int minor with
            | Some a, Some b => Some (base_version_number, (a, b))
            | _, _ => None
            end
        | _ => None
        end
    | _ => None
    end.

(** [version_number >= (a, b)] on pairs of integers *)
Definition version_ge (v : Z * Z) (a b : Z) : bool :=
  ((a <? fst v) || ((fst v =? a) && (b <=? snd v)))%bool.

(** [self.protocol_version >= "HTTP/1.1"] *)
Definition protocol_1_1 : bool := String.leb "HTTP/1.1" protocol_version.

(** The end of [parse_request], from the header block on. *)
Definition parse_request_headers (r : request_data) : M bool :=
  match header_block r with
  | LineTooLong err =>
      send_error cls 431 (Some "Line too long") (Some err);;
      mret false
  | TooManyHeaders err =>
      send_error cls 431 (Some "Too many headers") (Some err);;
      mret false
  | HeadersOk hs =>
      modify_self (set_headers hs);;
      let conntype := SimpleHTTPRequestHandler.get_header "Connection" hs in
      (if String.eqb (Str.lower conntype) "close" then
         modify_self (set_close_connection true)
       else if (String.eqb (Str.lower conntype) "keep-alive" && protocol_1_1)%bool then
         modify_self (set_close_connection false)
       else mret tt);;
      let expect := SimpleHTTPRequestHandler.get_header "Expect" hs in
      h ← get_self;
      if (String.eqb (Str.lower expect) "100-continue" && protocol_1_1
          && String.leb "HTTP/1.1" (request_version h))%bool
      then
        ok ← handle_expect_100 cls;
        mret ok
      else mret true
  end.

(** [if self.path.startswith('//'): self.path = '/' + self.path.lstrip('/')] *)
Definition single_slash (path : string) : string :=
  if Str.startswith path "//" then "/" +:+ Str.lstrip Str.is_slash path else path.

(** The middle of [parse_request], from [if not 2 <= len(words) <= 3]
    on. *)
Definition parse_request_words (r : request_data) (requestline : string)
    (words : list string) : M bool :=
  match words with
  | command :: path :: rest =>
      if (1 <? length rest)%nat then
        send_error cls 400
          (Some ("Bad request syntax (" +:+ py_repr requestline +:+ ")")) None;;
        mret false
      else
        bad ←
          (match rest with
           | [] =>
               modify_self (set_close_connection true);;
               if negb (String.eqb command "GET") then
                 send_error cls 400
                   (Some ("Bad HTTP/0.9 request type (" +:+ py_repr command +:+ ")"))
                   None;;
                 mret true
               else mret false
           | _ => mret false
           end);
        if bad : bool then mret false
        else
          modify_self (set_command (Some command));;
          modify_self (set_path (single_slash path));;
          parse_request_headers r
  | _ =>
      send_error cls 400
        (Some ("Bad request syntax (" +:+ py_repr requestline +:+ ")")) None;;
      mret false
  end.

(** [parse_request()] *)
Definition parse_request (r : request_data) : M bool :=
  modify_self (set_command None);;
  modify_self (set_request_version default_request_version);;
  modify_self (set_close_connection true);;
  let requestline := Str.rstrip Str.is_crlf (raw_requestline r) in
  modify_self (set_requestline requestline);;
  let words := Str.split_ws requestline in
  match words with
  | [] => mret false
  | _ =>
      if (3 <=? length words)%nat then
        let version := List.last words "" in
        match parse_version version with
        | None =>
            send_error cls 400
              (Some ("Bad request version (" +:+ py_repr version +:+ ")")) None;;
            mret false
        | Some (base_version_number, version_number) =>
            (if (version_ge version_number 1 1 && protocol_1_1)%bool
             then modify_self (set_close_connection false) else mret tt);;
            if version_ge version_number 2 0 then
              send_error cls 505
                (Some ("Invalid HTTP version (" +:+ base_version_number +:+ ")")) None;;
              mret false
            else
              modify_self (set_request_version version);;
              parse_request_words r requestline words
        end
      else parse_request_words r requestline words
  end.

(** [handle_one_request()].  The handler has no timeout, so the
    [TimeoutError] branch is not reached.  The methods found by
    [hasattr(self, 'do_' + self.command)] are [do_GET] and [do_HEAD]. *)
Definition handle_one_request (r : request_data) : M unit :=
  if 65536 <? Z.of_nat (String.length (raw_requestline r)) then
    modify_self (set_requestline "");;
    modify_self (set_request_version "");;
    modify_self (set_command (Some ""));;
    send_error cls 414 None None
  else if String.eqb (raw_requestline r) "" then
    modify_self (set_close_connection true)
  else
    ok ← parse_request r;
    if ok : bool then
      h ← get_self;
      match command h with
      | Some c =>
          if String.eqb c "GET" then SimpleHTTPRequestHandler.do_GET cls
          else if String.eqb c "HEAD" then SimpleHTTPRequestHandler.do_HEAD cls
          else
            send_error cls 501
              (Some ("Unsupported method (" +:+ py_repr c +:+ ")")) None
      | None => raise (TypeError "can only concatenate str (not NoneType) to str")
      end
    else mret tt.

(** The end of input on a connection: [readline] returns nothing. *)
Definition end_of_input : request_data := mkRequest "" (HeadersOk []).

(** [handle()]: requests are read off the connection until
    [close_connection] is set. *)
Fixpoint handle_loop (requests : list request_data) : M unit :=
  match requests with
  | [] => handle_one_request end_of_input
  | r :: rest =>
      handle_one_request r;;
      h ← get_self;
      if close_connection h then mret tt else handle_loop rest
  end.

Definition handle (requests : list request_data) : M unit :=
  modify_self (set_close_connection true);;
  handle_loop requests.

End Methods.
End RequestHandling.

(** ** [dev-server.py]: the module and its handler class *)

(** [PORT = 8080] *)
Definition PORT : Z := 8080.

(** The global names bound when the module body has run with [__name__]
    set to [name]: the three imports, [PORT], the class, and [sys], which is
    imported inside [if __name__ == '__main__':] only. *)
Definition module_globals (name : string) : gmap string pyobj :=
  let g : gmap string pyobj :=
    <["NoCacheHTTPRequestHandler" := ObjClass "NoCacheHTTPRequestHandler"]>
    (<["PORT" := ObjInt PORT]>
    (<["datetime" := ObjClass "datetime"]>
    (<["socketserver" := ObjModule "socketserver"]>
    (<["http" := ObjModule "http"]> ∅)))) in
  if String.eqb name "__main__" then <["sys" := ObjModule "sys"]> g else g.

(** Reading a global name of the module; [sys] is not a builtin, so a
    global that is not bound is a [NameError]. *)
Definition load_global (name : string) : M pyobj := fun w =>
  match globals w !! name with
  | Some o => Ok o w
  | None => Raise (NameError name) w
  end.

(** [sys.stderr.write(text)], once [sys] is at hand *)
Definition stderr_write (text : string) : M unit :=
  fun w => Ok tt (set_stderr (stderr w +:+ text) w).

(** [print(text)]: the text and a newline on standard output.
    [encode_error] tells what the encoding of standard output makes of a
    text: nothing to complain about, or the message of the
    [UnicodeEncodeError] with which the write fails, nothing written. *)
Definition print (encode_error : string -> option string) (text : string) : M unit :=
  fun w =>
    match encode_error text with
    | Some msg => Raise (UnicodeEncodeError msg) w
    | None => Ok tt (set_stdout (stdout w +:+ text +:+ Str.LF) w)
    end.

(** A standard output that encodes every text, as one in UTF-8 does. *)
Definition utf8 : string -> option string := fun _ => None.

Module NoCacheHTTPRequestHandler.
Section Methods.
Context `{Platform}.

(** [end_headers]: three [send_header] calls, then the inherited
    [end_headers]. *)
Definition end_headers : M unit :=
  BaseHTTPRequestHandler.send_header "Cache-Control"
    "no-store, no-cache, must-revalidate, max-age=0";;
  BaseHTTPRequestHandler.send_header "Pragma" "no-cache";;
  BaseHTTPRequestHandler.send_header "Expires" "0";;
  BaseHTTPRequestHandler.end_headers.

(** [log_message]: [sys.stderr.write] is evaluated first, then the three
    elements of the tuple from left to right, then the format. *)
Definition log_message (format : string) (args : list pyval) : M unit :=
  _ ← load_global "sys";
  a ← BaseHTTPRequestHandler.address_string;
  d ← BaseHTTPRequestHandler.log_date_time_string;
  match percent_format format_other format args with
  | inl e => raise e
  | inr message =>
      match percent_format format_other ("%s - - [%s] %s" +:+ Str.LF)
              [VStr a; VStr d; VStr message] with
      | inl e => raise e
      | inr text => stderr_write text
      end
  end.

(** The class: both overridden methods. *)
Definition class : handler_class := mkClass end_headers log_message.

End Methods.
End NoCacheHTTPRequestHandler.

(** The lines that [end_headers] adds. *)
Definition cache_control_line : string :=
  "Cache-Control: no-store, no-cache, must-revalidate, max-age=0" +:+ Str.CRLF.
Definition pragma_line : string := "Pragma: no-cache" +:+ Str.CRLF.
Definition expires_line : string := "Expires: 0" +:+ Str.CRLF.

Definition no_cache_lines : list string :=
  [cache_control_line; pragma_line; expires_line].

(** ** [socketserver.TCPServer] *)

(** What happens while the server is in [serve_forever]: a client connects
    and sends requests, or the interrupt signal arrives, which Python
    turns into [KeyboardInterrupt] in the main thread.  The signal is taken
    between two connections; raised while a request is being handled, the
    exception leaves [serve_forever] in the same way, through the
    [except: ... raise] of [_handle_request_noblock]. *)
Inductive event :=
| Connection (client : string * Z) (requests : list request_data)
| Interrupt.

(** The surroundings of one run of the script: the command line, the
    error number with which the operating system refuses to bind an
    address, if it does, and the events that arrive while serving. *)
Record environment := mkEnv {
  argv : list string;
  bind_error : string -> Z -> option Z;
  events : list event
}.

(** [errno.EADDRINUSE] *)
Definition EADDRINUSE : Z := 98.

Definition syscall_do (c : syscall) : M unit :=
  fun w => Ok tt (set_syscalls (syscalls w ++ [c]) w).

(** [try: body / except: handler(e)], for every exception *)
Definition try_except {A} (body : M A) (handler : exn -> M A) : M A :=
  fun w =>
    match body w with
    | Raise e w' => handler e w'
    | o => o
    end.

(** [try: body / finally: cleanup], and a [with] block whose [__exit__] is
    [cleanup] *)
Definition try_finally {A} (body : M A) (cleanup : M unit) : M A :=
  fun w =>
    match body w with
    | Ok a w' => (cleanup;; mret a) w'
    | Raise e w' => (cleanup;; raise e) w'
    | Blocked w' => Blocked w'
    end.

(** Whether an exception is caught by [except Exception]. *)
Definition is_Exception (e : exn) : bool :=
  match e with
  | KeyboardInterrupt | SystemExit _ => false
  | _ => true
  end.

Module TCPServer.
Section Methods.
Context `{Platform}.
Variable cls : handler_class.
Variable env : environment.

(** [address_family], [socket_type], [request_queue_size] *)
Definition address_family : string := "AF_INET".
Definition socket_type : string := "SOCK_STREAM".
Definition request_queue_size : Z := 5.

(** [socket.getsockname()] after binding an IPv4 socket to a port other
    than 0: the empty host is the wildcard address. *)
Definition getsockname (host : string) (port : Z) : string * Z :=
  (if String.eqb host "" then "0.0.0.0" else host, port).

(** [server_close()] *)
Definition server_close : M unit := syscall_do SysClose.

(** [server_bind()]; [allow_reuse_address] and [allow_reuse_port] are
    [False].  Returns the new [server_address]. *)
Definition server_bind (host : string) (port : Z) : M (string * Z) :=
  syscall_do (SysBind host port);;
  match bind_error env host port with
  | Some errno => raise (OSError errno)
  | None => mret (getsockname host port)
  end.

(** [server_activate()] *)
Definition server_activate : M unit := syscall_do (SysListen request_queue_size).

(** [TCPServer(server_address, RequestHandlerClass)]; the result is the
    [server_address] of the new server. *)
Definition init (host : string) (port : Z) : M (string * Z) :=
  syscall_do (SysSocket address_family socket_type);;
  try_except
    (a ← server_bind host port; server_activate;; mret a)
    (fun e => server_close;; raise e).

(** A new handler instance, as [BaseRequestHandler.__init__] and
    [StreamRequestHandler.setup] leave it. *)
Definition new_handler (client : string * Z) : handler :=
  mkHandler client "" "" None "" [] None true [].

(** [handle_error(request, client_address)] *)
Definition handle_error (client : string * Z) (e : exn) : M unit :=
  let dashes := Str.join (replicate 40 "-") in
  stderr_write (dashes +:+ Str.LF);;
  stderr_write ("Exception occurred during processing of request from "
                +:+ "(" +:+ py_repr (fst client) +:+ ", " +:+ pretty (snd client)
                +:+ ")" +:+ Str.LF);;
  stderr_write (format_exc e);;
  stderr_write (dashes +:+ Str.LF).

(** [finish_request]: the handler is made and runs [handle()]. *)
Definition finish_request (client : string * Z) (requests : list request_data)
    : M unit :=
  modify_self (fun _ => new_handler client);;
  RequestHandling.handle cls requests.

(** [_handle_request_noblock()] for a connection that is there to be
    accepted; [shutdown_request] leaves no mark on the state. *)
Definition _handle_request_noblock (client : string * Z)
    (requests : list request_data) : M unit :=
  syscall_do (SysAccept client);;
  try_except (finish_request client requests)
    (fun e => if is_Exception e then handle_error client e else raise e).

(** [serve_forever()]: the loop ends only by an exception; when no
    further event comes the server waits in [select]. *)
Fixpoint serve_forever (evs : list event) : M unit :=
  match evs with
  | [] => fun w => Blocked w
  | Connection client requests :: rest =>
      _handle_request_noblock client requests;;
      serve_forever rest
  | Interrupt :: _ => raise KeyboardInterrupt
  end.

End Methods.
End TCPServer.

(** ** [dev-server.py]: the [__main__] block *)

Section Script.
Context `{Platform}.

(** [sys.exit(code)] *)
Definition sys_exit (code : Z) : M unit :=
  _ ← load_global "sys";
  raise (SystemExit code).

(** [str] of a [server_address] pair *)
Definition str_address (a : string * Z) : string :=
  "(" +:+ py_repr (fst a) +:+ ", " +:+ pretty (snd a) +:+ ")".

(** The body of [if __name__ == '__main__':], after [import sys], on a
    standard output whose encoding is [encode_error]. *)
Definition main (encode_error : string -> option string) (env : environment)
    : M unit :=
  let print := print encode_error in
  server_address ← TCPServer.init env "" PORT;
  try_finally
    (print ("🚀 Dev server running at http://localhost:" +:+ pretty PORT);;
     print ("📁 Serving from: " +:+ str_address server_address);;
     print "⚡ No-cache headers enabled - images/CSS will always reload fresh";;
     print ("Press Ctrl+C to stop" +:+ Str.LF);;
     try_except
       (TCPServer.serve_forever NoCacheHTTPRequestHandler.class (events env))
       (fun e =>
          match e with
          | KeyboardInterrupt =>
              print (Str.LF +:+ Str.LF +:+ "✅ Server stopped");;
              sys_exit 0
          | _ => raise e
          end))
    TCPServer.server_close.

(** The state when the module starts to run under the name [name]. *)
Definition initial_world (name : string) : world :=
  mkWorld (TCPServer.new_handler ("", 0)) (module_globals name) "" "" 0 [].

(** How a run of the interpreter stands: still running, ended with an
    exit status, or ended by the interrupt signal. *)
Inductive termination :=
| Running
| Exited (status : Z)
| Interrupted.

(** [python dev-server.py] on a standard output whose encoding is
    [encode_error]: the module runs as [__main__].  An exception that
    reaches the top level ends the process: [SystemExit] with its code and
    no message, any other with a traceback on standard error, and then
    status 1, or the interrupt signal for [KeyboardInterrupt]. *)
Definition run_script_on (encode_error : string -> option string)
    (env : environment) : termination * world :=
  match main encode_error env (initial_world "__main__") with
  | Ok _ w => (Exited 0, w)
  | Blocked w => (Running, w)
  | Raise (SystemExit code) w => (Exited code, w)
  | Raise KeyboardInterrupt w =>
      (Interrupted, set_stderr (stderr w +:+ format_exc KeyboardInterrupt) w)
  | Raise e w => (Exited 1, set_stderr (stderr w +:+ format_exc e) w)
  end.

(** [python dev-server.py] on a standard output in UTF-8. *)
Definition run_script (env : environment) : termination * world :=
  run_script_on utf8 env.

End Script.

(** ** A platform for the examples *)

(** A server started in [/srv/site], which holds the one file
    [index.html]; the clock stands at 21 October 2015, 07:28:00 UTC, the
    time at which the file was last written.  Each operation agrees with
    Python on the arguments that the examples below reach: request paths
    that are plain names, strings without quotes or escapes, numbers
    written in decimal digits. *)
Module Example.

Definition site : string := "/srv/site".

Definition index_html : file :=
  mkFile "<h1>hello</h1>" 14 1445412480.

Definition http_date : string := "Wed, 21 Oct 2015 07:28:00 GMT".

Definition is_digit (c : ascii) : bool :=
  let n := nat_of_ascii c in ((48 <=? n)%nat && (n <=? 57)%nat)%bool.

Fixpoint digits_value (s : string) (acc : Z) : option Z :=
  match s with
  | EmptyString => Some acc
  | String c s' =>
      if is_digit c
      then digits_value s' (10 * acc + Z.of_nat (nat_of_ascii c) - 48)
      else None
  end.

Definition int_of_digits (s : string) : option Z :=
  match s with
  | EmptyString => None
  | _ => digits_value s 0
  end.

Definition html_error_page (code : Z) (message explain : string) : string :=
  Str.join
    [ "<!DOCTYPE HTML>"; Str.LF;
      "<html lang=" +:+ Str.DQ +:+ "en" +:+ Str.DQ +:+ ">"; Str.LF;
      "    <head>"; Str.LF;
      "        <meta charset=" +:+ Str.DQ +:+ "utf-8" +:+ Str.DQ +:+ ">"; Str.LF;
      "        <title>Error response</title>"; Str.LF;
      "    </head>"; Str.LF;
      "    <body>"; Str.LF;
      "        <h1>Error response</h1>"; Str.LF;
      "        <p>Error code: " +:+ pretty code +:+ "</p>"; Str.LF;
      "        <p>Message: " +:+ message +:+ ".</p>"; Str.LF;
      "        <p>Error code explanation: " +:+ pretty code +:+ " - " +:+ explain
        +:+ ".</p>"; Str.LF;
      "    </body>"; Str.LF;
      "</html>"; Str.LF ].

(** Whether a path holds a null byte. *)
Fixpoint has_null (p : string) : bool :=
  match p with
  | EmptyString => false
  | String c rest => ((nat_of_ascii c =? 0)%nat || has_null rest)%bool
  end.

Definition exn_name (e : exn) : string :=
  match e with
  | NameError n => "NameError: name '" +:+ n +:+ "' is not defined"
  | AttributeError a => "AttributeError: " +:+ a
  | TypeError m => "TypeError: " +:+ m
  | ValueError m => "ValueError: " +:+ m
  | UnicodeEncodeError m => "UnicodeEncodeError: " +:+ m
  | OSError n => "OSError: [Errno " +:+ pretty n +:+ "]"
  | KeyboardInterrupt => "KeyboardInterrupt"
  | SystemExit c => "SystemExit: " +:+ pretty c
  end.

Definition platform : Platform := {|
  localtime := fun _ => mkTime 2015 Oct 21 7 28 0;
  formatdate_now := fun _ => http_date;
  formatdate := fun _ => http_date;
  sys_version := "Python/3.11.2";
  format_other := fun _ _ => inl (ValueError "unsupported format character");
  py_repr := fun s => "'" +:+ s +:+ "'";
  py_int := int_of_digits;
  error_page := html_error_page;
  translate_path := fun p => site +:+ p;
  isdir := fun p => (String.eqb p site || String.eqb p (site +:+ "/"))%bool;
  isfile := fun p => String.eqb p (site +:+ "/index.html");
  open_rb := fun p =>
    if String.eqb p (site +:+ "/index.html") then Some index_html else None;
  open_failure := fun p =>
    if has_null p then OpenValueError "embedded null byte" else OpenOSError;
  listdir := fun p =>
    if (String.eqb p site || String.eqb p (site +:+ "/"))%bool
    then Some ["index.html"] else None;
  listing_page := fun _ _ entries => Encoded (Str.join entries);
  fs_encoding := "utf-8";
  guess_type := fun p =>
    if Str.endswith p ".html" then "text/html"
    else if Str.endswith p ".png" then "image/png"
    else "application/octet-stream";
  urlsplit_path := fun p => p;
  redirect_url := fun p => p +:+ "/";
  ims_utc := fun v => if String.eqb v http_date then Some 1445412480 else None;
  format_exc := fun e =>
    "Traceback (most recent call last):" +:+ Str.LF +:+ exn_name e +:+ Str.LF
|}.

(** A client at [127.0.0.1], port 50000, and the handler made for its
    connection, in the running script. *)
Definition client : string * Z := ("127.0.0.1", 50000).

Definition start (name : string) : world :=
  set_self (TCPServer.new_handler client) (initial_world name).

(** The class of the script's handler on this platform. *)
Definition class : handler_class := @NoCacheHTTPRequestHandler.class platform.

(** The request with first line [line] and header block [hs]. *)
Definition request (line : string) (hs : list (string * string)) : request_data :=
  mkRequest (line +:+ Str.CRLF) (HeadersOk hs).

(** The handler of the script serving one request. *)
Definition serve (r : request_data) : outcome unit :=
  @RequestHandling.handle_one_request platform class r (start "__main__").

(** No address is refused, and [evs] are the events while serving. *)
Definition env (evs : list event) : environment :=
  mkEnv [] (fun _ _ => None) evs.

(** Port 8080 is in use. *)
Definition env_port_taken (evs : list event) : environment :=
  mkEnv [] (fun _ port => if port =? 8080 then Some EADDRINUSE else None) evs.

(** One run of the script. *)
Definition run (e : environment) : termination * world := @run_script platform e.

End Example.


(** ** The state after a log line and after a response *)

(** What the methods leave behind when nothing raises, as functions on
    the state; the lemmas of the next part show that the methods compute
    them. *)

(** A log line: [address - - [date] message] and a newline. *)
Definition log_line (address date message : string) : string :=
  address +:+ " - - [" +:+ date +:+ "] " +:+ message +:+ Str.LF.

(** The message of [log_request(code)]. *)
Definition request_summary (requestline : string) (code : Z) : string :=
  Str.DQ +:+ requestline +:+ Str.DQ +:+ " " +:+ pretty code +:+ " -".

(** The message of the [log_error] call in [send_error]. *)
Definition error_summary (code : Z) (message : string) : string :=
  "code " +:+ pretty code +:+ ", message " +:+ message.

(** The header block that the handler of the script transmits for the
    prepared lines [lines]. *)
Definition response_head (lines : list string) : string :=
  Str.join (lines ++ no_cache_lines ++ [Str.CRLF]).

Section After.
Context `{Platform}.

(** The date that [log_date_time_string] gives at the n-th clock reading. *)
Definition log_date (n : nat) : string :=
  let t := localtime n in
  BaseHTTPRequestHandler.zero_pad 2 (tm_mday t) +:+ "/"
  +:+ BaseHTTPRequestHandler.monthname (tm_mon t) +:+ "/"
  +:+ BaseHTTPRequestHandler.zero_pad 4 (tm_year t) +:+ " "
  +:+ BaseHTTPRequestHandler.zero_pad 2 (tm_hour t) +:+ ":"
  +:+ BaseHTTPRequestHandler.zero_pad 2 (tm_min t) +:+ ":"
  +:+ BaseHTTPRequestHandler.zero_pad 2 (tm_sec t).

(** After [log_message] with a format that gives [message]. *)
Definition logged (message : string) (w : world) : world :=
  set_stderr
    (stderr w +:+ log_line (fst (client_address (self w))) (log_date (clock w)) message)
    (set_clock (S (clock w)) w).

(** After a line is put in the header buffer: nothing happens for an
    HTTP/0.9 request. *)
Definition add_line (line : string) (h : handler) : handler :=
  if String.eqb (request_version h) "HTTP/0.9" then h
  else BaseHTTPRequestHandler.buffer_append line h.

(** After [send_header(keyword, value)]. *)
Definition after_header (keyword value : string) (h : handler) : handler :=
  let h' := add_line (BaseHTTPRequestHandler.header_line keyword value) h in
  if String.eqb (Str.lower keyword) "connection" then
    if String.eqb (Str.lower value) "close" then set_close_connection true h'
    else if String.eqb (Str.lower value) "keep-alive" then set_close_connection false h'
    else h'
  else h'.

(** After the [end_headers] of the script. *)
Definition after_end_headers (h : handler) : handler :=
  if String.eqb (request_version h) "HTTP/0.9" then h
  else
    set_headers_buffer (Some [])
      (set_wfile (wfile h ++ [response_head (default [] (_headers_buffer h))]) h).

(** The reason phrase on the status line: the message given, or the
    phrase of the code. *)
Definition reason (code : Z) (message : option string) : string :=
  match message with
  | Some m => m
  | None =>
      match BaseHTTPRequestHandler.responses code with
      | Some (m, _) => m
      | None => ""
      end
  end.

(** The message and the explanation of [send_error], with their
    defaults. *)
Definition error_message (code : Z) (message : option string) : string :=
  default (fst (default ("???", "???") (BaseHTTPRequestHandler.responses code))) message.

Definition error_explain (code : Z) (explain : option string) : string :=
  default (snd (default ("???", "???") (BaseHTTPRequestHandler.responses code))) explain.

(** After [send_response(code, message)] in the handler of the script. *)
Definition responded (code : Z) (message : string) (w : world) : world :=
  let w1 := logged (request_summary (requestline (self w)) code) w in
  set_clock (S (clock w1))
    (set_self
       (after_header "Date" (formatdate_now (clock w1))
          (after_header "Server" BaseHTTPRequestHandler.version_string
             (add_line (BaseHTTPRequestHandler.status_line code message) (self w1))))
       w1).

(** After [send_response(code, message)], the [send_header] calls for
    [hdrs] and [end_headers()]. *)
Definition answered (code : Z) (message : string) (hdrs : list (string * string))
    (w : world) : world :=
  let w1 := responded code message w in
  set_self
    (after_end_headers
       (fold_left (fun h kv => after_header (fst kv) (snd kv) h) hdrs (self w1)))
    w1.

(** After [self.wfile.write(data)]. *)
Definition written (data : string) (w : world) : world :=
  set_self (set_wfile (wfile (self w) ++ [data]) (self w)) w.

(** Whether [send_error] makes an error page for the code. *)
Definition has_error_page (code : Z) : bool :=
  ((200 <=? code) && negb ((code =? 204) || (code =? 205) || (code =? 304)))%bool.

(** The headers that [send_error] sends. *)
Definition error_headers (code : Z) (message explain : string)
    : list (string * string) :=
  ("Connection", "close") ::
  (if has_error_page code then
     [("Content-Type", BaseHTTPRequestHandler.error_content_type);
      ("Content-Length",
       pretty (Z.of_nat (String.length (error_page code message explain))))]
   else []).

(** After [send_error(code, message, explain)] in the handler of the
    script. *)
Definition errored (code : Z) (message explain : string) (w : world) : world :=
  let w1 :=
    answered code message (error_headers code message explain)
      (logged (error_summary code message) w) in
  if (has_error_page code
      && negb (bool_decide (command (self w1) = Some "HEAD"))
      && negb (String.eqb (error_page code message explain) ""))%bool
  then written (error_page code message explain) w1
  else w1.

(** What the inherited handler prepares for a response: the status line,
    [Server], [Date], and the headers sent after them. *)
Definition head_lines (code : Z) (message date : string)
    (hdrs : list (string * string)) : list string :=
  BaseHTTPRequestHandler.status_line code message
  :: BaseHTTPRequestHandler.header_line "Server" BaseHTTPRequestHandler.version_string
  :: BaseHTTPRequestHandler.header_line "Date" date
  :: map (fun kv => BaseHTTPRequestHandler.header_line (fst kv) (snd kv)) hdrs.

(** The headers of a file served with status 200. *)
Definition file_headers (fs_path : string) (f : file) : list (string * string) :=
  [("Content-type", guess_type fs_path);
   ("Content-Length", pretty (f_size f));
   ("Last-Modified", formatdate (f_mtime f))].

(** The headers of a directory listing. *)
Definition listing_headers (page : string) : list (string * string) :=
  [("Content-type", "text/html; charset=" +:+ fs_encoding);
   ("Content-Length", pretty (Z.of_nat (String.length page)))].

(** The headers of the redirection to a directory. *)
Definition redirect_headers (request_path : string) : list (string * string) :=
  [("Location", redirect_url request_path); ("Content-Length", "0")].

(** A header name that is none of the three of [end_headers]; the names
    of headers compare without case. *)
Definition foreign (keyword : string) : bool :=
  negb (existsb (String.eqb (Str.lower keyword)) ["cache-control"; "pragma"; "expires"]).

(** [w'] is [w] after one response: an error response, or a status line
    with headers of the inherited handler. *)
Inductive response (w : world) : world -> Prop :=
| response_error (code : Z) (message explain : string) :
    response w (errored code message explain w)
| response_plain (code : Z) (message : string) (hdrs : list (string * string)) :
    forallb (fun kv => foreign (fst kv)) hdrs = true ->
    response w (answered code message hdrs w).

(** [w1] is [w] after the request line and the headers have been read:
    nothing is written or logged yet. *)
Definition prepared (w w1 : world) : Prop :=
  globals w1 = globals w /\ stdout w1 = stdout w /\ stderr w1 = stderr w
  /\ clock w1 = clock w /\ syscalls w1 = syscalls w
  /\ client_address (self w1) = client_address (self w)
  /\ _headers_buffer (self w1) = _headers_buffer (self w)
  /\ wfile (self w1) = wfile (self w).

(** [w'] is [w] after one request: nothing was sent, or a response was,
    with or without a body after the header block. *)
Inductive served (w : world) : world -> Prop :=
| served_nothing (w1 : world) :
    prepared w w1 -> served w w1
| served_head (w1 w' : world) :
    prepared w w1 -> response w1 w' -> served w w'
| served_body (w1 w' : world) (body : string) :
    prepared w w1 -> response w1 w' -> served w (written body w').

(** The outcome of a part of [parse_request]: [true] with nothing sent,
    or [false] after an error response or after nothing at all. *)
Definition parsed (keep_command : bool) (w : world) (o : outcome bool) : Prop :=
  exists b w', o = Ok b w'
    /\ (b = true -> prepared w w'
          /\ if keep_command then command (self w') = command (self w)
             else is_Some (command (self w')))
    /\ (b = false -> served w w').

(** The fields of the handler that no [send_header] touches. *)
Definition same_request (h h' : handler) : Prop :=
  client_address h' = client_address h /\ requestline h' = requestline h
  /\ request_version h' = request_version h /\ command h' = command h
  /\ path h' = path h /\ headers h' = headers h /\ wfile h' = wfile h.

End After.

(** ** What the script promises about a response *)

Section Promises.
Context `{Platform}.


(** [end_headers] has transmitted what was prepared, followed by its
    three lines and the empty line. *)
Definition appended_no_cache_lines (w w' : world) : Prop :=
  wfile (self w')
  = wfile (self w)
    ++ [Str.join (default [] (_headers_buffer (self w))
                  ++ [cache_control_line; pragma_line; expires_line] ++ [Str.CRLF])].

(** Standard error has grown by exactly one log line, which carries the
    summary of the request. *)
Definition one_log_line (w w' : world) : Prop :=
  exists n code,
    stderr w'
    = stderr w +:+ log_line (fst (client_address (self w))) (log_date n)
                     (request_summary (requestline (self w')) code).

(** Standard error has grown by two log lines: the error, then the
    summary of the request. *)
Definition two_log_lines (w w' : world) : Prop :=
  exists n code message,
    stderr w'
    = (stderr w +:+ log_line (fst (client_address (self w))) (log_date n)
                      (error_summary code message))
      +:+ log_line (fst (client_address (self w))) (log_date (S n))
            (request_summary (requestline (self w')) code).

(** The request reads as a request line of three words, with a version
    below 2.0 that [parse_request] accepts, and a header block that
    parses to [hs]. *)
Definition reads_as (r : request_data) (command path version : string)
    (hs : list (string * string)) : Prop :=
  Z.of_nat (String.length (raw_requestline r)) <= 65536
  /\ Str.split_ws (Str.rstrip Str.is_crlf (raw_requestline r)) = [command; path; version]
  /\ (exists base number,
        RequestHandling.parse_version version = Some (base, number)
        /\ RequestHandling.version_ge number 2 0 = false)
  /\ header_block r = HeadersOk hs.

(** The handler once such a request has been read. *)
Definition read_handler (r : request_data) (command path version : string)
    (hs : list (string * string)) (h : handler) : handler :=
  mkHandler (client_address h) (Str.rstrip Str.is_crlf (raw_requestline r)) version
    (Some command) (RequestHandling.single_slash path) hs (_headers_buffer h) true (wfile h).

(** The chunks of a response with status 200 that carries the file: the
    content type is the one guessed from the path, and the body is the
    bytes of the file. *)
Definition serves_file (fs_path : string) (f : file) (chunks : list string) : Prop :=
  exists date body,
    chunks = response_head (head_lines 200 "OK" date (file_headers fs_path f)) :: body
    /\ Str.join body = f_bytes f.


(** The first, third and fourth line that the script prints when it
    starts, and the line it prints when it stops. *)
Definition url_line : string := "🚀 Dev server running at http://localhost:8080".
Definition no_cache_line : string :=
  "⚡ No-cache headers enabled - images/CSS will always reload fresh".
Definition stop_hint_line : string := "Press Ctrl+C to stop".
Definition stopped_line : string := "✅ Server stopped".

(** Standard output once the script has started: four lines, of which
    the second begins with [Serving from:], and an empty line. *)
Definition banner (stdout : string) : Prop :=
  exists served_from,
    stdout = url_line +:+ Str.LF +:+ "📁 Serving from: " +:+ served_from +:+ Str.LF
             +:+ no_cache_line +:+ Str.LF +:+ stop_hint_line +:+ Str.LF +:+ Str.LF.

(** Standard output once the script has been interrupted: the banner, two
    empty lines and the line that says the server has stopped. *)
Definition banner_and_farewell (stdout : string) : Prop :=
  exists served_from,
    stdout = url_line +:+ Str.LF +:+ "📁 Serving from: " +:+ served_from +:+ Str.LF
             +:+ no_cache_line +:+ Str.LF +:+ stop_hint_line +:+ Str.LF +:+ Str.LF
             +:+ Str.LF +:+ Str.LF +:+ stopped_line +:+ Str.LF.

(** The arguments of the four [print] calls at the start, for the
    address that [getsockname] gives, and of the one at the end. *)
Definition banner_args : list string :=
  [url_line; "📁 Serving from: " +:+ str_address ("0.0.0.0", 8080); no_cache_line;
   stop_hint_line +:+ Str.LF].

Definition farewell_arg : string := Str.LF +:+ Str.LF +:+ stopped_line.

(** Standard output once the four calls at the start have returned. *)
Definition banner_out : string :=
  url_line +:+ Str.LF +:+ "📁 Serving from: " +:+ str_address ("0.0.0.0", 8080)
  +:+ Str.LF +:+ no_cache_line +:+ Str.LF +:+ stop_hint_line +:+ Str.LF +:+ Str.LF.

(** Standard output takes each of the texts. *)
Definition can_print (encode_error : string -> option string) (texts : list string)
    : bool :=
  forallb (fun t => match encode_error t with None => true | Some _ => false end) texts.




(** The clients whose connections arrive before the first interrupt. *)
Fixpoint served_clients (evs : list event) : list (string * Z) :=
  match evs with
  | Connection client _ :: rest => client :: served_clients rest
  | _ => []
  end.


(** The calls on the listening socket of a server that has started and
    has accepted the connections of [clients]. *)
Definition listening (clients : list (string * Z)) : list syscall :=
  [SysSocket "AF_INET" "SOCK_STREAM"; SysBind "" 8080; SysListen 5]
  ++ map SysAccept clients.

(** The running script, about to serve a new connection from [client]. *)
Definition serving (client : string * Z) (w : world) : Prop :=
  globals w = module_globals "__main__" /\ self w = TCPServer.new_handler client.

End Promises.

(** ** The [log_message] that the script overrides *)

(** [BaseHTTPRequestHandler.log_message], which the handler of the script
    would inherit if it did not define its own.  Its [sys] is the one of
    [http.server], which is always bound. *)
Module Inherited.
Section Methods.
Context `{Platform}.

(** The characters that [_control_char_table] replaces by [\xNN]: the
    code points below 0x20 and from 0x7f to 0x9f. *)
Definition is_control (c : ascii) : bool :=
  let n := nat_of_ascii c in
  ((n <? 32)%nat || ((127 <=? n)%nat && (n <? 160)%nat))%bool.

Definition is_backslash (c : ascii) : bool := (nat_of_ascii c =? 92)%nat.

Definition backslash : ascii := ascii_of_nat 92.

(** One digit of [{c:02x}] *)
Definition hex_digit (n : nat) : ascii :=
  if (n <? 10)%nat then ascii_of_nat (48 + n) else ascii_of_nat (87 + n).

(** What [_control_char_table] gives for a character. *)
Definition translate_char (c : ascii) : string :=
  if is_control c then
    String backslash
      (String "x"%char
         (String (hex_digit (nat_of_ascii c / 16))
            (String (hex_digit (nat_of_ascii c mod 16)) "")))
  else if is_backslash c then String backslash (String backslash "")
  else String c "".

(** [message.translate(self._control_char_table)] *)
Fixpoint translate (message : string) : string :=
  match message with
  | EmptyString => EmptyString
  | String c rest => translate_char c +:+ translate rest
  end.

(** [log_message(format, *args)]: the message is formatted first. *)
Definition log_message (format : string) (args : list pyval) : M unit :=
  match percent_format format_other format args with
  | inl e => raise e
  | inr message =>
      a ← BaseHTTPRequestHandler.address_string;
      d ← BaseHTTPRequestHandler.log_date_time_string;
      match percent_format format_other ("%s - - [%s] %s" +:+ Str.LF)
              [VStr a; VStr d; VStr (translate message)] with
      | inl e => raise e
      | inr text => stderr_write text
      end
  end.

End Methods.
End Inherited.

(** ** What a request leaves behind, whatever the class of the handler *)

Section Shapes.
Context `{Platform}.

(** A text without control characters and without backslash. *)
Fixpoint plain_text (s : string) : bool :=
  match s with
  | EmptyString => true
  | String c rest =>
      (negb (Inherited.is_control c) && negb (Inherited.is_backslash c)
       && plain_text rest)%bool
  end.

(** The words of the first line of a request. *)
Definition request_words (r : request_data) : list string :=
  Str.split_ws (Str.rstrip Str.is_crlf (raw_requestline r)).

(** A request without a word in its first line: the end of the input, an
    empty line, or white space. *)
Definition blank (r : request_data) : bool :=
  (negb (65536 <? Z.of_nat (String.length (raw_requestline r)))
   && match request_words r with [] => true | _ => false end)%bool.


(** [w1] is [w] after reading: nothing is written or logged, and the
    connection is to be closed after the request. *)
Definition reading (w w1 : world) : Prop :=
  prepared w w1 /\ close_connection (self w1) = true.

(** How [parse_request] ends for a handler of class [cls]: the request is
    accepted and has a command; or it has no word and is dropped without
    an answer; or an error is sent, and that is all the class has a say
    in. *)
Inductive parse_outcome (cls : handler_class) (r : request_data) (w : world)
    : outcome bool -> Prop :=
| parse_accepts (w1 : world) :
    reading w w1 -> is_Some (command (self w1)) -> request_words r <> [] ->
    parse_outcome cls r w (Ok true w1)
| parse_drops (w1 : world) :
    reading w w1 -> request_words r = [] ->
    parse_outcome cls r w (Ok false w1)
| parse_rejects (w1 : world) (code : Z) (message explain : option string) :
    reading w w1 -> request_words r <> [] ->
    parse_outcome cls r w
      ((BaseHTTPRequestHandler.send_error cls code message explain;; mret false) w1).

(** The request reads as the two words [GET] and [path], which makes it
    an HTTP/0.9 request, with a header block that parses to [hs]. *)
Definition reads_as_simple (r : request_data) (path : string)
    (hs : list (string * string)) : Prop :=
  Z.of_nat (String.length (raw_requestline r)) <= 65536
  /\ request_words r = ["GET"; path]
  /\ header_block r = HeadersOk hs.

(** The error with which [parse_request] turns down the version of a
    request line, if it does: status and message. *)
Definition version_error (version : string) : option (Z * string) :=
  match RequestHandling.parse_version version with
  | None => Some (400, "Bad request version (" +:+ py_repr version +:+ ")")
  | Some (base, number) =>
      if RequestHandling.version_ge number 2 0
      then Some (505, "Invalid HTTP version (" +:+ base +:+ ")")
      else None
  end.

(** The chunks of a body: [copyfile] writes nothing for an empty source. *)
Definition bare (body : string) : list string :=
  if String.eqb body "" then [] else [body].

(** What follows the header block once [send_head] has returned
    [source]: [do_GET] copies the source, [do_HEAD] does not. *)
Definition sent_body (method : string) (source : option string) : list string :=
  match source with
  | Some bytes => if String.eqb method "HEAD" then [] else bare bytes
  | None => []
  end.

(** What follows the header block of an error response: the error page,
    unless the code has none, the command is [HEAD] or the page is empty. *)
Definition error_body (cmd : option string) (code : Z) (message explain : string)
    : list string :=
  if (has_error_page code && negb (bool_decide (cmd = Some "HEAD"))
      && negb (String.eqb (error_page code message explain) ""))%bool
  then [error_page code message explain]
  else [].


(** What [handle_error] writes on standard error. *)
Definition error_report (client : string * Z) (e : exn) : string :=
  Str.join (replicate 40 "-") +:+ Str.LF
  +:+ "Exception occurred during processing of request from "
  +:+ "(" +:+ py_repr (fst client) +:+ ", " +:+ pretty (snd client) +:+ ")" +:+ Str.LF
  +:+ format_exc e
  +:+ Str.join (replicate 40 "-") +:+ Str.LF.

(** The error with which [parse_request] turns down a request line of one
    or two words, if it does: a single word, or two words of which the
    first is not [GET]. *)
Definition short_request_error (r : request_data) : option string :=
  match request_words r with
  | [_] =>
      Some ("Bad request syntax ("
            +:+ py_repr (Str.rstrip Str.is_crlf (raw_requestline r)) +:+ ")")
  | [method; _] =>
      if String.eqb method "GET" then None
      else Some ("Bad HTTP/0.9 request type (" +:+ py_repr method +:+ ")")
  | _ => None
  end.

End Shapes.

(** ** A second platform for the examples: directories *)

(** The site of the first platform with two directories beside
    [index.html]: [docs], which holds [a.txt] and no index file, and
    [secret], which cannot be listed. *)
Module Docs.

Definition docs : string := "/srv/site/docs".
Definition secret : string := "/srv/site/secret".

(** [p] is one of [dirs], with or without a slash at its end. *)
Definition is_one_of (dirs : list string) (p : string) : bool :=
  existsb (fun d => (String.eqb p d || String.eqb p (d +:+ "/"))%bool) dirs.

Definition platform : Platform := {|
  localtime := @localtime Example.platform;
  formatdate_now := @formatdate_now Example.platform;
  formatdate := @formatdate Example.platform;
  sys_version := @sys_version Example.platform;
  format_other := @format_other Example.platform;
  py_repr := @py_repr Example.platform;
  py_int := @py_int Example.platform;
  error_page := @error_page Example.platform;
  translate_path := @translate_path Example.platform;
  isdir := is_one_of [Example.site; docs; secret];
  isfile := @isfile Example.platform;
  open_rb := @open_rb Example.platform;
  open_failure := @open_failure Example.platform;
  listdir := fun p =>
    if is_one_of [Example.site] p then Some ["docs"; "index.html"; "secret"]
    else if is_one_of [docs] p then Some ["a.txt"]
    else None;
  listing_page := @listing_page Example.platform;
  fs_encoding := @fs_encoding Example.platform;
  guess_type := @guess_type Example.platform;
  urlsplit_path := @urlsplit_path Example.platform;
  redirect_url := @redirect_url Example.platform;
  ims_utc := @ims_utc Example.platform;
  format_exc := @format_exc Example.platform
|}.

(** The handler of the script on this platform serving one request. *)
Definition serve (r : request_data) : outcome unit :=
  @RequestHandling.handle_one_request platform
    (@NoCacheHTTPRequestHandler.class platform) r (Example.start "__main__").

End Docs.

(** ** A third platform for the examples: query strings *)

(** The site of the second platform, with request paths that may carry a
    query: [translate_path] and [urlsplit] drop it, and [list_directory]
    cannot encode its page when the request path holds the escape of the
    lone surrogate U+D800. *)
Module Queries.

(** The request path without its query. *)
Fixpoint before_query (p : string) : string :=
  match p with
  | EmptyString => EmptyString
  | String c rest =>
      if (nat_of_ascii c =? 63)%nat then EmptyString else String c (before_query rest)
  end.

(** Whether [%ED%A0%80] occurs in the text. *)
Fixpoint has_surrogate (p : string) : bool :=
  match p with
  | EmptyString => false
  | String _ rest => (String.prefix "%ED%A0%80" p || has_surrogate rest)%bool
  end.

Definition platform : Platform := {|
  localtime := @localtime Docs.platform;
  formatdate_now := @formatdate_now Docs.platform;
  formatdate := @formatdate Docs.platform;
  sys_version := @sys_version Docs.platform;
  format_other := @format_other Docs.platform;
  py_repr := @py_repr Docs.platform;
  py_int := @py_int Docs.platform;
  error_page := @error_page Docs.platform;
  translate_path := fun p => @translate_path Docs.platform (before_query p);
  isdir := @isdir Docs.platform;
  isfile := @isfile Docs.platform;
  open_rb := @open_rb Docs.platform;
  open_failure := @open_failure Docs.platform;
  listdir := @listdir Docs.platform;
  listing_page := fun _ p entries =>
    if has_surrogate p then EncodeError "surrogates not allowed"
    else Encoded (Str.join entries);
  fs_encoding := @fs_encoding Docs.platform;
  guess_type := @guess_type Docs.platform;
  urlsplit_path := before_query;
  redirect_url := @redirect_url Docs.platform;
  ims_utc := @ims_utc Docs.platform;
  format_exc := @format_exc Docs.platform
|}.

End Queries.

(** * Properties *)

(** ** Running a computation step by step *)

Lemma run_bind {A B} (m : M A) (f : A -> M B) (w : world) :
  (m ≫= f) w =
  match m w with
  | Ok a w' => f a w'
  | Raise e w' => Raise e w'
  | Blocked w' => Blocked w'
  end.
Proof. reflexivity. Qed.

Lemma run_bind_ok {A B} (m : M A) (f : A -> M B) (w w' : world) (a : A) :
  m w = Ok a w' -> (m ≫= f) w = f a w'.
Proof. intros E. rewrite run_bind, E. reflexivity. Qed.

Lemma run_bind_raise {A B} (m : M A) (f : A -> M B) (w w' : world) (e : exn) :
  m w = Raise e w' -> (m ≫= f) w = Raise e w'.
Proof. intros E. rewrite run_bind, E. reflexivity. Qed.

Lemma run_get_self {B} (f : handler -> M B) (w : world) :
  (get_self ≫= f) w = f (self w) w.
Proof. reflexivity. Qed.

Lemma run_modify_self {B} (g : handler -> handler) (f : unit -> M B) (w : world) :
  (modify_self g ≫= f) w = f tt (set_self (g (self w)) w).
Proof. reflexivity. Qed.

Lemma self_set_self (h : handler) (w : world) : self (set_self h w) = h.
Proof. reflexivity. Qed.

Lemma set_self_twice (h h' : handler) (w : world) :
  set_self h (set_self h' w) = set_self h w.
Proof. reflexivity. Qed.

Lemma globals_set_self (h : handler) (w : world) : globals (set_self h w) = globals w.
Proof. reflexivity. Qed.

Lemma self_set_clock (n : nat) (w : world) : self (set_clock n w) = self w.
Proof. reflexivity. Qed.


(** One step of a computation whose first part is known to return. *)
Ltac step L :=
  rewrite (run_bind_ok _ _ _ _ _ L); rewrite ?self_set_self, ?set_self_twice.

(** Simplifying the fields of a state that is written out. *)
Ltac fields :=
  repeat
    (progress
       (cbv beta delta
          [set_self set_stdout set_stderr set_clock set_syscalls
           set_headers_buffer set_close_connection set_wfile set_requestline
           set_request_version set_command set_path set_headers
           add_line BaseHTTPRequestHandler.buffer_append id];
        cbn [self globals stdout stderr clock syscalls
             client_address requestline request_version command path headers
             _headers_buffer close_connection wfile default fst snd])).

Section Run.
Context `{Platform}.

Lemma outer_format (a d m : string) :
  percent_format format_other ("%s - - [%s] %s" +:+ Str.LF) [VStr a; VStr d; VStr m]
  = inr (log_line a d m).
Proof. reflexivity. Qed.

Lemma log_message_run (fmt : string) (args : list pyval) (message : string)
    (o : pyobj) (w : world) :
  globals w !! "sys" = Some o ->
  percent_format format_other fmt args = inr message ->
  NoCacheHTTPRequestHandler.log_message fmt args w = Ok tt (logged message w).
Proof.
  intros Hsys Hfmt.
  cbv [NoCacheHTTPRequestHandler.log_message mbind M_bind mret M_ret load_global
       BaseHTTPRequestHandler.address_string get_self
       BaseHTTPRequestHandler.log_date_time_string time_time raise stderr_write].
  rewrite Hsys. cbn [self clock set_clock]. rewrite Hfmt, outer_format.
  reflexivity.
Qed.

Lemma after_header_plain (keyword value : string) (h : handler) :
  String.eqb (Str.lower keyword) "connection" = false ->
  after_header keyword value h
  = add_line (BaseHTTPRequestHandler.header_line keyword value) h.
Proof. intros E. unfold after_header. rewrite E. reflexivity. Qed.

Lemma send_header_run (keyword value : string) (w : world) :
  BaseHTTPRequestHandler.send_header keyword value w
  = Ok tt (set_self (after_header keyword value (self w)) w).
Proof.
  destruct w as [h g so se c sc].
  cbv [BaseHTTPRequestHandler.send_header mbind M_bind mret M_ret get_self
       modify_self after_header add_line set_self self].
  destruct (String.eqb (request_version h) "HTTP/0.9");
    destruct (String.eqb (Str.lower keyword) "connection");
    destruct (String.eqb (Str.lower value) "close");
    destruct (String.eqb (Str.lower value) "keep-alive"); reflexivity.
Qed.

Lemma send_response_only_run (code : Z) (message : string) (w : world) :
  BaseHTTPRequestHandler.send_response_only code (Some message) w
  = Ok tt (set_self (add_line (BaseHTTPRequestHandler.status_line code message) (self w)) w).
Proof.
  destruct w as [h g so se c sc].
  cbv [BaseHTTPRequestHandler.send_response_only mbind M_bind mret M_ret get_self
       modify_self add_line set_self self].
  destruct (String.eqb (request_version h) "HTTP/0.9"); reflexivity.
Qed.

(** The inherited [end_headers] on a buffer that exists. *)
Lemma base_end_headers_run (w : world) (buf : list string) :
  String.eqb (request_version (self w)) "HTTP/0.9" = false ->
  _headers_buffer (self w) = Some buf ->
  BaseHTTPRequestHandler.end_headers w
  = Ok tt (set_self
             (set_headers_buffer (Some [])
                (set_wfile (wfile (self w) ++ [Str.join (buf ++ [Str.CRLF])]) (self w)))
             w).
Proof.
  intros E B. destruct w as [h g so se c sc].
  destruct h as [ca rl rv cmd p hs b cc wf]. cbn in E, B. subst b.
  cbv [BaseHTTPRequestHandler.end_headers BaseHTTPRequestHandler.flush_headers
       mbind M_bind mret M_ret get_self modify_self wfile_write].
  fields. rewrite E. reflexivity.
Qed.

Lemma base_end_headers_09 (w : world) :
  String.eqb (request_version (self w)) "HTTP/0.9" = true ->
  BaseHTTPRequestHandler.end_headers w = Ok tt w.
Proof.
  intros E.
  cbv [BaseHTTPRequestHandler.end_headers mbind M_bind mret M_ret get_self].
  rewrite E. reflexivity.
Qed.

Lemma end_headers_run (w : world) :
  NoCacheHTTPRequestHandler.end_headers w
  = Ok tt (set_self (after_end_headers (self w)) w).
Proof.
  unfold NoCacheHTTPRequestHandler.end_headers.
  rewrite (run_bind_ok _ _ _ _ _ (send_header_run _ _ _)).
  rewrite (run_bind_ok _ _ _ _ _ (send_header_run _ _ _)).
  rewrite (run_bind_ok _ _ _ _ _ (send_header_run _ _ _)).
  rewrite !after_header_plain by reflexivity.
  destruct w as [h g so se c sc]. destruct h as [ca rl rv cmd p hs buf cc wf].
  unfold after_end_headers. fields.
  destruct (String.eqb rv "HTTP/0.9") eqn:E; fields; rewrite ?E; fields; rewrite ?E;
    fields.
  - apply base_end_headers_09. exact E.
  - erewrite base_end_headers_run; [|exact E|reflexivity].
    fields. unfold response_head, no_cache_lines.
    rewrite <- !app_assoc. reflexivity.
Qed.

Lemma append_empty_r (s : string) : s +:+ "" = s.
Proof.
  induction s as [|c s IH]; [reflexivity|].
  change (String c (s +:+ "") = String c s). f_equal. exact IH.
Qed.

Lemma append_assoc (a b c : string) : (a +:+ b) +:+ c = a +:+ (b +:+ c).
Proof.
  induction a as [|x a IH]; [reflexivity|].
  change (String x ((a +:+ b) +:+ c) = String x (a +:+ (b +:+ c))). f_equal. exact IH.
Qed.

Lemma request_format (rl : string) (code : Z) :
  percent_format format_other (Str.DQ +:+ "%s" +:+ Str.DQ +:+ " %s %s")
    [VStr rl; VStr (pretty code); VStr "-"]
  = inr (request_summary rl code).
Proof. reflexivity. Qed.

Lemma error_format (code : Z) (message : string) :
  percent_format format_other "code %d, message %s" [VInt code; VStr message]
  = inr (error_summary code message).
Proof.
  unfold error_summary. rewrite <- (append_empty_r message) at 2. reflexivity.
Qed.

Lemma date_time_string_run (w : world) :
  BaseHTTPRequestHandler.date_time_string w
  = Ok (formatdate_now (clock w)) (set_clock (S (clock w)) w).
Proof. reflexivity. Qed.

Lemma send_response_run (code : Z) (message : option string) (o : pyobj) (w : world) :
  globals w !! "sys" = Some o ->
  BaseHTTPRequestHandler.send_response NoCacheHTTPRequestHandler.class code message w
  = Ok tt (responded code (reason code message) w).
Proof.
  intros Hsys. unfold BaseHTTPRequestHandler.send_response.
  assert (L : BaseHTTPRequestHandler.log_request NoCacheHTTPRequestHandler.class code w
              = Ok tt (logged (request_summary (requestline (self w)) code) w)).
  { unfold BaseHTTPRequestHandler.log_request.
    rewrite (run_bind_ok _ _ w w (self w)) by reflexivity.
    cbn [cls_log_message NoCacheHTTPRequestHandler.class].
    apply (log_message_run _ _ _ o); [exact Hsys|apply request_format]. }
  rewrite (run_bind_ok _ _ _ _ _ L).
  assert (R : forall w', BaseHTTPRequestHandler.send_response_only code message w'
                = Ok tt (set_self (add_line
                    (BaseHTTPRequestHandler.status_line code (reason code message))
                    (self w')) w')).
  { intros w'. destruct message as [m|]; [apply send_response_only_run|].
    destruct w' as [h g so se c sc].
    cbv [BaseHTTPRequestHandler.send_response_only mbind M_bind mret M_ret get_self
         modify_self add_line set_self self reason].
    destruct (String.eqb (request_version h) "HTTP/0.9"); [reflexivity|].
    destruct (BaseHTTPRequestHandler.responses code) as [[m d]|]; reflexivity. }
  rewrite (run_bind_ok _ _ _ _ _ (R _)).
  rewrite (run_bind_ok _ _ _ _ _ (send_header_run _ _ _)).
  rewrite (run_bind_ok _ _ _ _ _ (date_time_string_run _)).
  rewrite send_header_run.
  unfold responded. destruct w as [h g so se c sc]. reflexivity.
Qed.

Lemma send_error_run (code : Z) (message explain : option string) (o : pyobj)
    (w : world) :
  globals w !! "sys" = Some o ->
  BaseHTTPRequestHandler.send_error NoCacheHTTPRequestHandler.class code message explain w
  = Ok tt (errored code (error_message code message) (error_explain code explain) w).
Proof.
  intros Hsys. unfold BaseHTTPRequestHandler.send_error, error_message, error_explain.
  destruct (default ("???", "???") (BaseHTTPRequestHandler.responses code))
    as [shortmsg longmsg].
  cbn [fst snd].
  set (m := default shortmsg message). set (e := default longmsg explain).
  assert (L : BaseHTTPRequestHandler.log_error NoCacheHTTPRequestHandler.class
                "code %d, message %s" [VInt code; VStr m] w
              = Ok tt (logged (error_summary code m) w)).
  { apply (log_message_run _ _ _ o); [exact Hsys|apply error_format]. }
  rewrite (run_bind_ok _ _ _ _ _ L).
  rewrite (run_bind_ok _ _ _ _ _
             (send_response_run code (Some m) o (logged (error_summary code m) w) Hsys)).
  step (send_header_run "Connection" "close" (responded code m (logged (error_summary code m) w))).
  cbn [cls_end_headers NoCacheHTTPRequestHandler.class reason].
  unfold errored, error_headers, answered.
  change ((200 <=? code) && negb ((code =? 204) || (code =? 205) || (code =? 304)))%bool
    with (has_error_page code).
  destruct (has_error_page code).
  - rewrite run_bind.
    step (send_header_run "Content-Type" BaseHTTPRequestHandler.error_content_type
            (set_self (after_header "Connection" "close"
               (self (responded code m (logged (error_summary code m) w))))
               (responded code m (logged (error_summary code m) w)))).
    rewrite (run_bind_ok _ _ _ _ _ (send_header_run _ _ _)).
    rewrite ?self_set_self, ?set_self_twice.
    cbv [mret M_ret].
    rewrite (run_bind_ok _ _ _ _ _ (end_headers_run _)).
    rewrite ?self_set_self, ?set_self_twice.
    cbn [fold_left fst snd andb].
    rewrite run_get_self. rewrite ?self_set_self.
    match goal with
    | |- context [bool_decide (command ?h = Some "HEAD")] =>
        destruct (bool_decide (command h = Some "HEAD"))
    end; cbn [negb andb]; [reflexivity|].
    destruct (String.eqb (error_page code m e) ""); reflexivity.
  - rewrite run_bind. cbv [mret M_ret].
    rewrite (run_bind_ok _ _ _ _ _ (end_headers_run _)).
    rewrite ?self_set_self, ?set_self_twice.
    cbn [fold_left fst snd andb]. reflexivity.
Qed.

(** *** The paths through [send_head] *)

Section Paths.
Variable o : pyobj.
Variable w : world.
Hypothesis Hsys : globals w !! "sys" = Some o.

Let class := NoCacheHTTPRequestHandler.class.

Lemma send_file_head_missing (fs_path : string) :
  Str.endswith fs_path "/" = true
  \/ (open_rb fs_path = None /\ open_failure fs_path = OpenOSError) ->
  SimpleHTTPRequestHandler.send_file_head class fs_path w
  = Ok None (errored 404 "File not found" (error_explain 404 None) w).
Proof.
  intros Hmiss. unfold SimpleHTTPRequestHandler.send_file_head.
  assert (E := send_error_run 404 (Some "File not found") None o w Hsys).
  destruct (Str.endswith fs_path "/").
  - step E. reflexivity.
  - destruct Hmiss as [Hs|[Hopen Hfail]]; [discriminate|]. rewrite Hopen, Hfail.
    step E. reflexivity.
Qed.

(** An exception of [open] that is not an [OSError] leaves [send_head]
    before anything is sent or logged. *)
Lemma send_file_head_raises (fs_path : string) :
  Str.endswith fs_path "/" = false ->
  open_rb fs_path = None ->
  open_failure fs_path <> OpenOSError ->
  exists e,
    value_error e
    /\ SimpleHTTPRequestHandler.send_file_head class fs_path w = Raise e w.
Proof.
  intros Hs Hopen Hfail. unfold SimpleHTTPRequestHandler.send_file_head.
  rewrite Hs, Hopen.
  destruct (open_failure fs_path) as [|msg|msg]; [destruct (Hfail eq_refl)| |].
  - exists (ValueError msg). split; [exists msg; left|]; reflexivity.
  - exists (UnicodeEncodeError msg). split; [exists msg; right|]; reflexivity.
Qed.

Lemma send_file_head_not_modified (fs_path : string) (f : file) :
  Str.endswith fs_path "/" = false ->
  open_rb fs_path = Some f ->
  SimpleHTTPRequestHandler.not_modified f (headers (self w)) = true ->
  SimpleHTTPRequestHandler.send_file_head class fs_path w
  = Ok None (answered 304 "Not Modified" [] w).
Proof.
  intros Hs Hopen Hnm. unfold SimpleHTTPRequestHandler.send_file_head.
  rewrite Hs, Hopen, run_get_self, Hnm.
  step (send_response_run 304 None o w Hsys).
  cbn [cls_end_headers class NoCacheHTTPRequestHandler.class].
  step (end_headers_run (responded 304 (reason 304 None) w)).
  reflexivity.
Qed.

Lemma send_file_head_ok (fs_path : string) (f : file) :
  Str.endswith fs_path "/" = false ->
  open_rb fs_path = Some f ->
  SimpleHTTPRequestHandler.not_modified f (headers (self w)) = false ->
  SimpleHTTPRequestHandler.send_file_head class fs_path w
  = Ok (Some (f_bytes f)) (answered 200 "OK" (file_headers fs_path f) w).
Proof.
  intros Hs Hopen Hnm. unfold SimpleHTTPRequestHandler.send_file_head.
  rewrite Hs, Hopen, run_get_self, Hnm.
  step (send_response_run 200 None o w Hsys).
  step (send_header_run "Content-type" (guess_type fs_path) (responded 200 (reason 200 None) w)).
  rewrite (run_bind_ok _ _ _ _ _ (send_header_run _ _ _)).
  rewrite ?self_set_self, ?set_self_twice.
  rewrite (run_bind_ok _ _ _ _ _ (send_header_run _ _ _)).
  rewrite ?self_set_self, ?set_self_twice.
  cbn [cls_end_headers class NoCacheHTTPRequestHandler.class].
  rewrite (run_bind_ok _ _ _ _ _ (end_headers_run _)).
  rewrite ?self_set_self, ?set_self_twice.
  reflexivity.
Qed.

Lemma list_directory_denied (fs_path : string) :
  listdir fs_path = None ->
  SimpleHTTPRequestHandler.list_directory class fs_path w
  = Ok None (errored 404 "No permission to list directory" (error_explain 404 None) w).
Proof.
  intros Hl. unfold SimpleHTTPRequestHandler.list_directory. rewrite Hl.
  step (send_error_run 404 (Some "No permission to list directory") None o w Hsys).
  reflexivity.
Qed.

Lemma list_directory_ok (fs_path : string) (entries : list string) (page : string) :
  listdir fs_path = Some entries ->
  listing_page fs_path (path (self w)) entries = Encoded page ->
  SimpleHTTPRequestHandler.list_directory class fs_path w
  = Ok (Some page) (answered 200 "OK" (listing_headers page) w).
Proof.
  intros Hl Hp. unfold SimpleHTTPRequestHandler.list_directory. rewrite Hl.
  rewrite run_get_self, Hp.
  step (send_response_run 200 None o w Hsys).
  step (send_header_run "Content-type" ("text/html; charset=" +:+ fs_encoding)
          (responded 200 (reason 200 None) w)).
  rewrite (run_bind_ok _ _ _ _ _ (send_header_run _ _ _)).
  rewrite ?self_set_self, ?set_self_twice.
  cbn [cls_end_headers class NoCacheHTTPRequestHandler.class].
  rewrite (run_bind_ok _ _ _ _ _ (end_headers_run _)).
  rewrite ?self_set_self, ?set_self_twice.
  reflexivity.
Qed.

(** A listing that cannot be encoded leaves [list_directory] before
    anything is sent or logged. *)
Lemma list_directory_raises (fs_path : string) (entries : list string) (msg : string) :
  listdir fs_path = Some entries ->
  listing_page fs_path (path (self w)) entries = EncodeError msg ->
  SimpleHTTPRequestHandler.list_directory class fs_path w
  = Raise (UnicodeEncodeError msg) w.
Proof.
  intros Hl Hp. unfold SimpleHTTPRequestHandler.list_directory. rewrite Hl.
  rewrite run_get_self, Hp. reflexivity.
Qed.

Lemma send_head_redirect :
  isdir (translate_path (path (self w))) = true ->
  Str.endswith (urlsplit_path (path (self w))) "/" = false ->
  SimpleHTTPRequestHandler.send_head class w
  = Ok None (answered 301 "Moved Permanently" (redirect_headers (path (self w))) w).
Proof.
  intros Hd Hs. unfold SimpleHTTPRequestHandler.send_head.
  rewrite run_get_self, Hd, Hs. cbn [negb].
  step (send_response_run 301 None o w Hsys).
  step (send_header_run "Location" (redirect_url (path (self w)))
          (responded 301 (reason 301 None) w)).
  rewrite (run_bind_ok _ _ _ _ _ (send_header_run _ _ _)).
  rewrite ?self_set_self, ?set_self_twice.
  cbn [cls_end_headers class NoCacheHTTPRequestHandler.class].
  rewrite (run_bind_ok _ _ _ _ _ (end_headers_run _)).
  rewrite ?self_set_self, ?set_self_twice.
  reflexivity.
Qed.

Lemma send_head_file :
  isdir (translate_path (path (self w))) = false ->
  SimpleHTTPRequestHandler.send_head class w
  = SimpleHTTPRequestHandler.send_file_head class (translate_path (path (self w))) w.
Proof.
  intros Hd. unfold SimpleHTTPRequestHandler.send_head.
  rewrite run_get_self, Hd. reflexivity.
Qed.

(** Whatever the file system holds, [send_head] returns and leaves one
    response behind, or it raises the [ValueError] of [open] or of the
    encoding of the listing, and then it has changed nothing. *)
Lemma send_head_response :
  (exists r w',
     SimpleHTTPRequestHandler.send_head class w = Ok r w' /\ response w w')
  \/ (exists e,
        value_error e /\ SimpleHTTPRequestHandler.send_head class w = Raise e w).
Proof.
  assert (F : forall fs_path,
             (exists r w',
                SimpleHTTPRequestHandler.send_file_head class fs_path w = Ok r w'
                /\ response w w')
             \/ (exists e,
                   value_error e
                   /\ SimpleHTTPRequestHandler.send_file_head class fs_path w
                      = Raise e w)).
  { intros fs_path.
    destruct (Str.endswith fs_path "/") eqn:Hs.
    { left. eexists _, _. split; [apply send_file_head_missing; left; exact Hs|].
      apply response_error. }
    destruct (open_rb fs_path) as [f|] eqn:Hopen.
    2:{ destruct (open_failure fs_path) as [|msg|msg] eqn:Hfail.
        - left. eexists _, _.
          split; [apply send_file_head_missing; right; split; assumption|].
          apply response_error.
        - right. apply send_file_head_raises; [assumption..|]. rewrite Hfail.
          discriminate.
        - right. apply send_file_head_raises; [assumption..|]. rewrite Hfail.
          discriminate. }
    left.
    destruct (SimpleHTTPRequestHandler.not_modified f (headers (self w))) eqn:Hnm.
    - eexists _, _. split; [apply (send_file_head_not_modified _ f); assumption|].
      apply response_plain. reflexivity.
    - eexists _, _. split; [apply (send_file_head_ok _ f); assumption|].
      apply response_plain. reflexivity. }
  destruct (isdir (translate_path (path (self w)))) eqn:Hd.
  2:{ rewrite (send_head_file Hd). apply F. }
  destruct (Str.endswith (urlsplit_path (path (self w))) "/") eqn:Hs.
  2:{ left. eexists _, _. split; [apply send_head_redirect; assumption|].
      apply response_plain. reflexivity. }
  unfold SimpleHTTPRequestHandler.send_head.
  rewrite run_get_self, Hd, Hs. cbn [negb].
  destruct (List.find _ _) as [index|]; [apply F|].
  destruct (listdir (translate_path (path (self w)))) as [entries|] eqn:Hl.
  - destruct (listing_page (translate_path (path (self w))) (path (self w)) entries)
      as [page|msg] eqn:Hp.
    + left. eexists _, _. split; [apply (list_directory_ok _ entries page Hl Hp)|].
      apply response_plain. reflexivity.
    + right. exists (UnicodeEncodeError msg).
      split; [exists msg; right; reflexivity|].
      apply (list_directory_raises _ entries msg Hl Hp).
  - left. eexists _, _. split; [apply list_directory_denied; exact Hl|].
    apply response_error.
Qed.

End Paths.

(** *** Reading the request *)

Lemma prepared_refl (w : world) : prepared w w.
Proof. repeat split. Qed.

Lemma prepared_trans (w w1 w2 : world) :
  prepared w w1 -> prepared w1 w2 -> prepared w w2.
Proof.
  unfold prepared. intros (?&?&?&?&?&?&?&?) (?&?&?&?&?&?&?&?).
  repeat split; congruence.
Qed.

Lemma served_after_prepared (w w1 w' : world) :
  prepared w w1 -> served w1 w' -> served w w'.
Proof.
  intros P S. destruct S as [w2 P2|w2 w' P2 R|w2 w' body P2 R].
  - apply served_nothing. eapply prepared_trans; eassumption.
  - eapply served_head; [eapply prepared_trans; eassumption|exact R].
  - eapply served_body; [eapply prepared_trans; eassumption|exact R].
Qed.

Lemma prepared_set_self (f : handler -> handler) (w : world) :
  client_address (f (self w)) = client_address (self w) ->
  _headers_buffer (f (self w)) = _headers_buffer (self w) ->
  wfile (f (self w)) = wfile (self w) ->
  prepared w (set_self (f (self w)) w).
Proof. intros. repeat split; assumption. Qed.

(** An error response for a request that sent nothing before. *)
Lemma send_error_served (code : Z) (message explain : option string) (o : pyobj)
    (w : world) :
  globals w !! "sys" = Some o ->
  exists w',
    BaseHTTPRequestHandler.send_error NoCacheHTTPRequestHandler.class code message explain w
    = Ok tt w' /\ served w w'.
Proof.
  intros Hsys. eexists. split; [apply (send_error_run _ _ _ o); exact Hsys|].
  eapply served_head; [apply prepared_refl|apply response_error].
Qed.

Lemma parsed_error (k : bool) (code : Z) (message explain : option string)
    (o : pyobj) (w : world) :
  globals w !! "sys" = Some o ->
  parsed k w
    ((BaseHTTPRequestHandler.send_error NoCacheHTTPRequestHandler.class code message
        explain;; mret false) w).
Proof.
  intros Hsys. destruct (send_error_served code message explain o w Hsys) as (w' & E & S).
  exists false, w'. split; [step E; reflexivity|].
  split; [discriminate|intros _; exact S].
Qed.

Lemma parsed_after_prepared (k : bool) (w w1 : world) (o : outcome bool) :
  prepared w w1 -> parsed false w1 o -> parsed false w o.
Proof.
  intros P (b & w' & E & T & F). exists b, w'. split; [exact E|]. split.
  - intros Hb. destruct (T Hb) as [P' C]. split; [|exact C].
    eapply prepared_trans; eassumption.
  - intros Hb. eapply served_after_prepared; [exact P|exact (F Hb)].
Qed.

Lemma parse_request_headers_parsed (r : request_data) (o : pyobj) (w : world) :
  globals w !! "sys" = Some o ->
  parsed true w (RequestHandling.parse_request_headers NoCacheHTTPRequestHandler.class r w).
Proof.
  intros Hsys. unfold RequestHandling.parse_request_headers.
  destruct (header_block r) as [hs|err|err].
  2,3: apply (parsed_error _ _ _ _ o); exact Hsys.
  rewrite run_modify_self.
  change RequestHandling.protocol_1_1 with false.
  rewrite !andb_false_r. cbn [andb].
  destruct (String.eqb (Str.lower (SimpleHTTPRequestHandler.get_header "Connection" hs))
              "close").
  - rewrite run_modify_self, run_get_self. rewrite ?self_set_self, ?set_self_twice.
    exists true, (set_self (set_close_connection true (set_headers hs (self w))) w).
    split; [reflexivity|]. split; [|discriminate].
    intros _. split; [repeat split|reflexivity].
  - rewrite run_bind. cbv [mret M_ret]. rewrite run_get_self.
    eexists true, _. split; [reflexivity|]. split; [|discriminate].
    intros _. split; [repeat split|reflexivity].
Qed.

Lemma parsed_headers_after (w w1 : world) (c : string) (o : outcome bool) :
  prepared w w1 -> command (self w1) = Some c -> parsed true w1 o -> parsed false w o.
Proof.
  intros P C (b & w' & E & T & F). exists b, w'. split; [exact E|]. split.
  - intros Hb. destruct (T Hb) as [P' C']. split.
    + eapply prepared_trans; eassumption.
    + rewrite C', C. eexists. reflexivity.
  - intros Hb. eapply served_after_prepared; [exact P|exact (F Hb)].
Qed.

Lemma parse_request_words_parsed (r : request_data) (requestline : string)
    (words : list string) (o : pyobj) (w : world) :
  globals w !! "sys" = Some o ->
  parsed false w
    (RequestHandling.parse_request_words NoCacheHTTPRequestHandler.class r requestline
       words w).
Proof.
  intros Hsys. unfold RequestHandling.parse_request_words.
  destruct words as [|command [|path rest]].
  1,2: apply (parsed_error _ _ _ _ o); exact Hsys.
  destruct (1 <? length rest)%nat.
  { apply (parsed_error _ _ _ _ o); exact Hsys. }
  destruct rest as [|version rest].
  - rewrite run_bind, run_modify_self.
    destruct (String.eqb command "GET"); cbn [negb].
    + cbv [mret M_ret]. rewrite !run_modify_self.
      rewrite ?self_set_self, ?set_self_twice.
      eapply parsed_headers_after;
        [| |apply (parse_request_headers_parsed r o); exact Hsys].
      * repeat split.
      * reflexivity.
    + eapply parsed_after_prepared with (k := false);
        [apply (prepared_set_self (set_close_connection true)); reflexivity|].
      destruct (send_error_served 400
                  (Some ("Bad HTTP/0.9 request type (" +:+ py_repr command +:+ ")")) None
                  o (set_self (set_close_connection true (self w)) w) Hsys)
        as (w' & E & S).
      exists false, w'. split.
      * rewrite (run_bind_ok _ _ _ _ _ E). reflexivity.
      * split; [discriminate|intros _; exact S].
  - rewrite run_bind. cbv [mret M_ret]. rewrite !run_modify_self.
    rewrite ?self_set_self, ?set_self_twice.
    eapply parsed_headers_after;
      [| |apply (parse_request_headers_parsed r o); exact Hsys].
    + repeat split.
    + reflexivity.
Qed.

Lemma parse_request_parsed (r : request_data) (o : pyobj) (w : world) :
  globals w !! "sys" = Some o ->
  parsed false w (RequestHandling.parse_request NoCacheHTTPRequestHandler.class r w).
Proof.
  intros Hsys. unfold RequestHandling.parse_request.
  rewrite !run_modify_self. rewrite ?self_set_self, ?set_self_twice.
  match goal with
  | |- parsed _ _ (_ (set_self ?h w)) =>
      assert (P : prepared w (set_self h w)) by (repeat split);
      assert (Hsys' : globals (set_self h w) !! "sys" = Some o) by exact Hsys;
      generalize dependent (set_self h w)
  end.
  intros w1 P Hsys1.
  eapply parsed_after_prepared with (k := false); [exact P|].
  destruct (Str.split_ws (Str.rstrip Str.is_crlf (raw_requestline r))) as [|wd words].
  { exists false, w1. split; [reflexivity|]. split; [discriminate|].
    intros _. apply served_nothing, prepared_refl. }
  destruct (3 <=? length (wd :: words))%nat.
  2:{ apply (parse_request_words_parsed _ _ _ o); exact Hsys1. }
  destruct (RequestHandling.parse_version (List.last (wd :: words) ""))
    as [[base_version_number version_number]|].
  2:{ apply (parsed_error _ _ _ _ o); exact Hsys1. }
  change RequestHandling.protocol_1_1 with false. rewrite andb_false_r.
  rewrite run_bind. cbv [mret M_ret].
  destruct (RequestHandling.version_ge version_number 2 0).
  { apply (parsed_error _ _ _ _ o); exact Hsys1. }
  rewrite run_modify_self.
  eapply parsed_after_prepared with (k := false);
    [apply (prepared_set_self (set_request_version (List.last (wd :: words) "")));
     reflexivity|].
  apply (parse_request_words_parsed _ _ _ o); exact Hsys1.
Qed.

(** Every request is served or fails: the handler returns, and it has
    sent nothing or one response; or it raises the [ValueError] of [open]
    or of the encoding of the listing, and then nothing is sent or
    logged. *)
Lemma handle_one_request_served (r : request_data) (o : pyobj) (w : world) :
  globals w !! "sys" = Some o ->
  (exists w',
     RequestHandling.handle_one_request NoCacheHTTPRequestHandler.class r w = Ok tt w'
     /\ served w w')
  \/ (exists e w1,
        value_error e
        /\ RequestHandling.handle_one_request NoCacheHTTPRequestHandler.class r w
           = Raise e w1
        /\ prepared w w1).
Proof.
  intros Hsys. unfold RequestHandling.handle_one_request.
  destruct (65536 <? Z.of_nat (String.length (raw_requestline r))).
  { left. rewrite !run_modify_self. rewrite ?self_set_self, ?set_self_twice.
    match goal with
    | |- exists _, _ (set_self ?h w) = _ /\ _ =>
        destruct (send_error_served 414 None None o (set_self h w) Hsys) as (w' & E & S);
        exists w'; split; [exact E|];
        eapply served_after_prepared; [|exact S]; repeat split
    end. }
  destruct (String.eqb (raw_requestline r) "").
  { left. eexists. split; [reflexivity|]. apply served_nothing. repeat split. }
  destruct (parse_request_parsed r o w Hsys) as (b & w1 & E & T & F).
  rewrite (run_bind_ok _ _ _ _ _ E).
  destruct b.
  2:{ left. exists w1. split; [reflexivity|]. apply F. reflexivity. }
  destruct (T eq_refl) as [P [c C]].
  assert (Hsys1 : globals w1 !! "sys" = Some o).
  { destruct P as (G & _). rewrite G. exact Hsys. }
  rewrite run_get_self, C.
  destruct (String.eqb c "GET").
  { unfold SimpleHTTPRequestHandler.do_GET.
    destruct (send_head_response o w1 Hsys1) as [(f & w' & E' & R)|(e & V & E')].
    2:{ right. exists e, w1. split; [exact V|].
        split; [apply (run_bind_raise _ _ _ _ _ E')|exact P]. }
    left. rewrite (run_bind_ok _ _ _ _ _ E').
    destruct f as [source|].
    - unfold SimpleHTTPRequestHandler.copyfile.
      destruct (String.eqb source "").
      + exists w'. split; [reflexivity|]. eapply served_head; eassumption.
      + exists (written source w'). split; [reflexivity|].
        eapply served_body; eassumption.
    - exists w'. split; [reflexivity|]. eapply served_head; eassumption. }
  destruct (String.eqb c "HEAD").
  { unfold SimpleHTTPRequestHandler.do_HEAD.
    destruct (send_head_response o w1 Hsys1) as [(f & w' & E' & R)|(e & V & E')].
    2:{ right. exists e, w1. split; [exact V|].
        split; [apply (run_bind_raise _ _ _ _ _ E')|exact P]. }
    left. rewrite (run_bind_ok _ _ _ _ _ E').
    exists w'. split; [reflexivity|]. eapply served_head; eassumption. }
  left.
  destruct (send_error_served 501 (Some ("Unsupported method (" +:+ py_repr c +:+ ")"))
              None o w1 Hsys1) as (w' & E' & S).
  exists w'. split; [exact E'|]. eapply served_after_prepared; eassumption.
Qed.

(** *** What a response leaves in the state *)

Lemma after_header_same (keyword value : string) (h : handler) :
  same_request h (after_header keyword value h).
Proof.
  unfold after_header, add_line.
  destruct (String.eqb (request_version h) "HTTP/0.9");
    destruct (String.eqb (Str.lower keyword) "connection");
    destruct (String.eqb (Str.lower value) "close");
    destruct (String.eqb (Str.lower value) "keep-alive"); repeat split.
Qed.

Lemma after_header_buffer (keyword value : string) (h : handler) :
  String.eqb (request_version h) "HTTP/0.9" = false ->
  _headers_buffer (after_header keyword value h)
  = Some (default [] (_headers_buffer h)
          ++ [BaseHTTPRequestHandler.header_line keyword value]).
Proof.
  intros E. unfold after_header, add_line. rewrite E.
  destruct (String.eqb (Str.lower keyword) "connection");
    destruct (String.eqb (Str.lower value) "close");
    destruct (String.eqb (Str.lower value) "keep-alive"); reflexivity.
Qed.

Lemma after_header_buffer_09 (keyword value : string) (h : handler) :
  String.eqb (request_version h) "HTTP/0.9" = true ->
  _headers_buffer (after_header keyword value h) = _headers_buffer h.
Proof.
  intros E. unfold after_header, add_line. rewrite E.
  destruct (String.eqb (Str.lower keyword) "connection");
    destruct (String.eqb (Str.lower value) "close");
    destruct (String.eqb (Str.lower value) "keep-alive"); reflexivity.
Qed.

Lemma same_request_trans (h1 h2 h3 : handler) :
  same_request h1 h2 -> same_request h2 h3 -> same_request h1 h3.
Proof.
  unfold same_request. intros (?&?&?&?&?&?&?) (?&?&?&?&?&?&?).
  repeat split; congruence.
Qed.

Lemma headers_same (hdrs : list (string * string)) (h : handler) :
  same_request h (fold_left (fun h kv => after_header (fst kv) (snd kv) h) hdrs h).
Proof.
  revert h. induction hdrs as [|[k v] hdrs IH]; intros h; cbn [fold_left fst snd].
  - repeat split.
  - eapply same_request_trans; [apply after_header_same|apply IH].
Qed.

Lemma headers_buffer (hdrs : list (string * string)) (h : handler) (buf : list string) :
  String.eqb (request_version h) "HTTP/0.9" = false ->
  _headers_buffer h = Some buf ->
  _headers_buffer (fold_left (fun h kv => after_header (fst kv) (snd kv) h) hdrs h)
  = Some (buf ++ map (fun kv => BaseHTTPRequestHandler.header_line (fst kv) (snd kv)) hdrs).
Proof.
  revert h buf. induction hdrs as [|[k v] hdrs IH]; intros h buf E B; cbn [fold_left fst snd map].
  - rewrite app_nil_r. exact B.
  - rewrite (IH _ (buf ++ [BaseHTTPRequestHandler.header_line k v])).
    + rewrite <- app_assoc. reflexivity.
    + destruct (after_header_same k v h) as (_ & _ & V & _). rewrite V. exact E.
    + rewrite after_header_buffer by exact E. rewrite B. reflexivity.
Qed.

Lemma responded_same (code : Z) (message : string) (w : world) :
  same_request (self w) (self (responded code message w)).
Proof.
  unfold responded. rewrite ?self_set_self.
  eapply same_request_trans; [|apply after_header_same].
  eapply same_request_trans; [|apply after_header_same].
  unfold add_line, logged.
  destruct (String.eqb _ "HTTP/0.9"); repeat split.
Qed.

Lemma responded_buffer (code : Z) (message : string) (w : world) :
  String.eqb (request_version (self w)) "HTTP/0.9" = false ->
  _headers_buffer (self (responded code message w))
  = Some (default [] (_headers_buffer (self w))
          ++ head_lines code message (formatdate_now (S (clock w))) []).
Proof.
  intros E. unfold responded. rewrite ?self_set_clock, ?self_set_self.
  set (h1 := add_line (BaseHTTPRequestHandler.status_line code message)
               (self (logged (request_summary (requestline (self w)) code) w))).
  assert (E1 : String.eqb (request_version h1) "HTTP/0.9" = false).
  { unfold h1, add_line, logged. fields. rewrite E. exact E. }
  assert (B1 : _headers_buffer h1
               = Some (default [] (_headers_buffer (self w))
                       ++ [BaseHTTPRequestHandler.status_line code message])).
  { unfold h1, add_line, logged. fields. rewrite E. reflexivity. }
  rewrite after_header_buffer.
  2:{ destruct (after_header_same "Server" BaseHTTPRequestHandler.version_string h1)
        as (_ & _ & V & _). rewrite V. exact E1. }
  rewrite after_header_buffer by exact E1. rewrite B1.
  cbn [default from_option id]. unfold head_lines. cbn [map].
  rewrite <- !app_assoc. reflexivity.
Qed.

Lemma answered_same (code : Z) (message : string) (hdrs : list (string * string))
    (w : world) :
  client_address (self (answered code message hdrs w)) = client_address (self w)
  /\ requestline (self (answered code message hdrs w)) = requestline (self w)
  /\ request_version (self (answered code message hdrs w)) = request_version (self w)
  /\ command (self (answered code message hdrs w)) = command (self w).
Proof.
  unfold answered. rewrite self_set_self.
  destruct (responded_same code message w) as (A & B & C & D & _).
  destruct (headers_same hdrs (self (responded code message w))) as (A' & B' & C' & D' & _).
  unfold after_end_headers.
  destruct (String.eqb _ "HTTP/0.9"); fields; repeat split; congruence.
Qed.

Lemma answered_wfile (code : Z) (message : string) (hdrs : list (string * string))
    (w : world) :
  String.eqb (request_version (self w)) "HTTP/0.9" = false ->
  wfile (self (answered code message hdrs w))
  = wfile (self w)
    ++ [response_head (default [] (_headers_buffer (self w))
                       ++ head_lines code message (formatdate_now (S (clock w))) hdrs)].
Proof.
  intros E. unfold answered. rewrite self_set_self.
  destruct (responded_same code message w) as (_ & _ & V & _ & _ & _ & W).
  destruct (headers_same hdrs (self (responded code message w)))
    as (_ & _ & V' & _ & _ & _ & W').
  unfold after_end_headers. rewrite V', V, E. fields. rewrite W', W.
  erewrite headers_buffer; [|rewrite V; exact E|apply responded_buffer; exact E].
  fields. unfold head_lines. rewrite <- app_assoc. reflexivity.
Qed.

Lemma answered_wfile_09 (code : Z) (message : string) (hdrs : list (string * string))
    (w : world) :
  String.eqb (request_version (self w)) "HTTP/0.9" = true ->
  wfile (self (answered code message hdrs w)) = wfile (self w).
Proof.
  intros E. unfold answered. rewrite self_set_self.
  destruct (responded_same code message w) as (_ & _ & V & _ & _ & _ & W).
  destruct (headers_same hdrs (self (responded code message w)))
    as (_ & _ & V' & _ & _ & _ & W').
  unfold after_end_headers. rewrite V', V, E. congruence.
Qed.

Lemma answered_stderr (code : Z) (message : string) (hdrs : list (string * string))
    (w : world) :
  stderr (answered code message hdrs w)
  = stderr w +:+ log_line (fst (client_address (self w))) (log_date (clock w))
                   (request_summary (requestline (self w)) code).
Proof. reflexivity. Qed.

Lemma error_headers_foreign (code : Z) (message explain : string) :
  forallb (fun kv => foreign (fst kv)) (error_headers code message explain) = true.
Proof. unfold error_headers. destruct (has_error_page code); reflexivity. Qed.

(** The state after [send_error]: the state after the headers, and the
    error page after them if there is one to send. *)
Lemma errored_cases (code : Z) (message explain : string) (w : world) :
  let w1 := answered code message (error_headers code message explain)
              (logged (error_summary code message) w) in
  errored code message explain w = w1
  \/ errored code message explain w = written (error_page code message explain) w1.
Proof.
  cbv zeta. unfold errored. destruct (_ && _ && _)%bool; [right|left]; reflexivity.
Qed.

(** What is seen of a response: the request fields, the globals, standard
    output and the socket are as before; with a request version other
    than HTTP/0.9 one header block has been written, and what follows it
    is the body; one or two lines have been logged. *)
Lemma response_observed (w w' : world) :
  response w w' ->
  request_version (self w') = request_version (self w)
  /\ requestline (self w') = requestline (self w)
  /\ client_address (self w') = client_address (self w)
  /\ globals w' = globals w /\ stdout w' = stdout w /\ syscalls w' = syscalls w
  /\ (String.eqb (request_version (self w)) "HTTP/0.9" = false ->
      exists code message date hdrs body,
        wfile (self w')
        = wfile (self w)
          ++ response_head (default [] (_headers_buffer (self w))
                            ++ head_lines code message date hdrs) :: body
        /\ forallb (fun kv => foreign (fst kv)) hdrs = true)
  /\ (String.eqb (request_version (self w)) "HTTP/0.9" = true ->
      exists body, wfile (self w') = wfile (self w) ++ body)
  /\ (one_log_line w w' \/ two_log_lines w w').
Proof.
  intros [code message explain|code message hdrs F].
  - set (w0 := logged (error_summary code message) w).
    set (hdrs := error_headers code message explain).
    assert (F := error_headers_foreign code message explain). fold hdrs in F.
    destruct (answered_same code message hdrs w0) as (A & B & C & D).
    assert (L : two_log_lines w (answered code message hdrs w0)).
    { exists (clock w), code, message. rewrite answered_stderr, B. reflexivity. }
    destruct (errored_cases code message explain w) as [-> | ->]; fold w0 hdrs.
    + split; [exact C|]. split; [exact B|]. split; [exact A|].
      do 3 (split; [reflexivity|]). split; [|split; [|right; exact L]].
      * intros E. exists code, message, (formatdate_now (S (clock w0))), hdrs, [].
        split; [|exact F]. apply (answered_wfile code message hdrs w0). exact E.
      * intros E. exists []. rewrite app_nil_r.
        apply (answered_wfile_09 code message hdrs w0). exact E.
    + unfold written. rewrite self_set_self. fields.
      split; [exact C|]. split; [exact B|]. split; [exact A|].
      do 3 (split; [reflexivity|]). split; [|split; [|right; exact L]].
      * intros E.
        exists code, message, (formatdate_now (S (clock w0))), hdrs,
          [error_page code message explain].
        split; [|exact F].
        rewrite (answered_wfile code message hdrs w0) by exact E.
        rewrite <- app_assoc. reflexivity.
      * intros E. exists [error_page code message explain].
        rewrite (answered_wfile_09 code message hdrs w0) by exact E. reflexivity.
  - destruct (answered_same code message hdrs w) as (A & B & C & D).
    split; [exact C|]. split; [exact B|]. split; [exact A|].
    do 3 (split; [reflexivity|]). split; [|split].
    + intros E. exists code, message, (formatdate_now (S (clock w))), hdrs, [].
      split; [|exact F]. apply answered_wfile. exact E.
    + intros E. exists []. rewrite app_nil_r. apply answered_wfile_09. exact E.
    + left. exists (clock w), code. rewrite answered_stderr, B. reflexivity.
Qed.

End Run.

Lemma main_has_sys : module_globals "__main__" !! "sys" = Some (ObjModule "sys").
Proof. reflexivity. Qed.

(** ** A request that reads well *)

Section Files.
Context `{Platform}.

Let class := NoCacheHTTPRequestHandler.class.

Lemma parse_request_reads (r : request_data) (command path version : string)
    (hs : list (string * string)) (w : world) :
  reads_as r command path version hs ->
  RequestHandling.parse_request class r w
  = Ok true (set_self (read_handler r command path version hs (self w)) w).
Proof.
  intros (_ & Hw & (base & number & Hv & Hn) & Hh).
  unfold RequestHandling.parse_request.
  rewrite !run_modify_self. rewrite ?self_set_self, ?set_self_twice.
  rewrite Hw. cbn [length Nat.leb List.last]. rewrite Hv.
  change RequestHandling.protocol_1_1 with false. rewrite andb_false_r, Hn.
  rewrite run_bind. cbv [mret M_ret]. rewrite run_modify_self.
  rewrite ?self_set_self, ?set_self_twice.
  unfold RequestHandling.parse_request_words. cbn [length Nat.ltb Nat.leb].
  rewrite run_bind. cbv [mret M_ret]. rewrite !run_modify_self.
  rewrite ?self_set_self, ?set_self_twice.
  unfold RequestHandling.parse_request_headers. rewrite Hh.
  rewrite run_modify_self. rewrite ?self_set_self, ?set_self_twice.
  change RequestHandling.protocol_1_1 with false. rewrite !andb_false_r. cbn [andb].
  destruct w as [h g so se c sc]. destruct h as [ca rl rv cmd p hs' buf cc wf].
  destruct (String.eqb _ "close"); reflexivity.
Qed.

Lemma reads_as_not_empty (r : request_data) (command path version : string)
    (hs : list (string * string)) :
  reads_as r command path version hs -> String.eqb (raw_requestline r) "" = false.
Proof.
  intros (_ & Hw & _). destruct (raw_requestline r); [discriminate Hw|reflexivity].
Qed.

(** A request that reads well reaches the method of its command. *)
Lemma handle_one_request_reads (r : request_data) (method path version : string)
    (hs : list (string * string)) (w : world) :
  reads_as r method path version hs ->
  RequestHandling.handle_one_request class r w
  = let w1 := set_self (read_handler r method path version hs (self w)) w in
    if String.eqb method "GET" then SimpleHTTPRequestHandler.do_GET class w1
    else if String.eqb method "HEAD" then SimpleHTTPRequestHandler.do_HEAD class w1
    else BaseHTTPRequestHandler.send_error class 501
           (Some ("Unsupported method (" +:+ py_repr method +:+ ")")) None w1.
Proof.
  intros R. unfold RequestHandling.handle_one_request.
  destruct R as (Hlen & R').
  assert (R : reads_as r method path version hs) by (split; assumption).
  apply Z.ltb_ge in Hlen. rewrite Hlen.
  rewrite (reads_as_not_empty _ _ _ _ _ R).
  rewrite (run_bind_ok _ _ _ _ _ (parse_request_reads _ _ _ _ _ w R)).
  rewrite run_get_self. rewrite self_set_self. cbn [command read_handler].
  cbv zeta. destruct (String.eqb method "GET"); [reflexivity|].
  destruct (String.eqb method "HEAD"); reflexivity.
Qed.

End Files.

(** ** The server loop *)

Section Loop.
Context `{Platform}.

Let class := NoCacheHTTPRequestHandler.class.

(** Serving a request changes neither the globals nor standard output
    nor the listening socket. *)
Lemma served_quiet (w w' : world) :
  served w w' ->
  globals w' = globals w /\ stdout w' = stdout w /\ syscalls w' = syscalls w.
Proof.
  assert (K : forall w1 w2, prepared w w1 -> response w1 w2 ->
                globals w2 = globals w /\ stdout w2 = stdout w
                /\ syscalls w2 = syscalls w).
  { intros w1 w2 (G & So & _ & _ & Sy & _) R.
    destruct (response_observed w1 w2 R) as (_ & _ & _ & G' & So' & Sy' & _).
    repeat split; congruence. }
  intros Sv. destruct Sv as [w1 (G & So & _ & _ & Sy & _)|w1 w2 P R|w1 w2 body P R].
  - repeat split; assumption.
  - apply (K w1 w2 P R).
  - apply (K w1 w2 P R).
Qed.

Lemma value_error_is_Exception (e : exn) : value_error e -> is_Exception e = true.
Proof. intros (msg & [-> | ->]); reflexivity. Qed.

Lemma handle_loop_quiet (requests : list request_data) (o : pyobj) (w : world) :
  globals w !! "sys" = Some o ->
  exists w',
    (RequestHandling.handle_loop class requests w = Ok tt w'
     \/ exists e, value_error e
                  /\ RequestHandling.handle_loop class requests w = Raise e w')
    /\ globals w' = globals w /\ stdout w' = stdout w /\ syscalls w' = syscalls w.
Proof.
  revert w. induction requests as [|r rest IH]; intros w Hsys; cbn [RequestHandling.handle_loop].
  - destruct (handle_one_request_served RequestHandling.end_of_input o w Hsys)
      as [(w' & E & Sv)|(e & w' & V & E & P)].
    + exists w'. split; [left; exact E|]. apply served_quiet. exact Sv.
    + exists w'. split; [right; exists e; split; assumption|].
      destruct P as (G & So & _ & _ & Sy & _). repeat split; assumption.
  - destruct (handle_one_request_served r o w Hsys)
      as [(w1 & E & Sv)|(e & w1 & V & E & P)].
    2:{ exists w1. split.
        - right. exists e. split; [exact V|]. apply (run_bind_raise _ _ _ _ _ E).
        - destruct P as (G & So & _ & _ & Sy & _). repeat split; assumption. }
    destruct (served_quiet w w1 Sv) as (G & So & Sy).
    rewrite (run_bind_ok _ _ _ _ _ E), run_get_self.
    destruct (close_connection (self w1)).
    + exists w1. split; [left; reflexivity|]. repeat split; assumption.
    + destruct (IH w1) as (w' & E' & G' & So' & Sy').
      { rewrite G. exact Hsys. }
      exists w'. split; [exact E'|]. repeat split; congruence.
Qed.

(** A connection is accepted and served, whatever it sends: an exception
    of the handler is reported on standard error and goes no further. *)
Lemma connection_quiet (client : string * Z) (requests : list request_data)
    (o : pyobj) (w : world) :
  globals w !! "sys" = Some o ->
  exists w',
    TCPServer._handle_request_noblock class client requests w = Ok tt w'
    /\ globals w' = globals w /\ stdout w' = stdout w
    /\ syscalls w' = syscalls w ++ [SysAccept client].
Proof.
  intros Hsys. unfold TCPServer._handle_request_noblock.
  rewrite run_bind. unfold syscall_do at 1.
  set (w0 := set_syscalls (syscalls w ++ [SysAccept client]) w).
  unfold try_except, TCPServer.finish_request, RequestHandling.handle.
  rewrite !run_modify_self. rewrite ?self_set_self, ?set_self_twice.
  match goal with
  | |- context [RequestHandling.handle_loop _ _ (set_self ?h w0)] =>
      destruct (handle_loop_quiet requests o (set_self h w0) Hsys)
        as (w' & [E|(e & V & E)] & G & So & Sy)
  end.
  - rewrite E. exists w'. split; [reflexivity|]. repeat split; assumption.
  - rewrite E, (value_error_is_Exception e V).
    eexists. split; [reflexivity|]. repeat split; assumption.
Qed.

(** [serve_forever] never returns: it is left waiting when no interrupt
    comes, and it raises [KeyboardInterrupt] when one comes.  Until then it
    accepts connections and touches neither the globals nor standard
    output. *)
Lemma serve_forever_outcome (evs : list event) (o : pyobj) (w : world) :
  globals w !! "sys" = Some o ->
  exists w',
    globals w' = globals w /\ stdout w' = stdout w
    /\ syscalls w' = syscalls w ++ map SysAccept (served_clients evs)
    /\ ((TCPServer.serve_forever class evs w = Blocked w' /\ ~ In Interrupt evs)
        \/ (TCPServer.serve_forever class evs w = Raise KeyboardInterrupt w'
            /\ In Interrupt evs)).
Proof.
  revert w. induction evs as [|[client requests|] evs IH]; intros w Hsys;
    cbn [TCPServer.serve_forever served_clients map].
  - exists w. rewrite app_nil_r. do 3 (split; [reflexivity|]).
    left. split; [reflexivity|]. intros [].
  - destruct (connection_quiet client requests o w Hsys) as (w1 & E & G & So & Sy).
    destruct (IH w1) as (w' & G' & So' & Sy' & Out).
    { rewrite G. exact Hsys. }
    exists w'.
    split; [congruence|]. split; [congruence|]. split.
    { rewrite Sy', Sy, <- app_assoc. reflexivity. }
    rewrite (run_bind_ok _ _ _ _ _ E).
    destruct Out as [[B N]|[R I]]; [left|right]; (split; [assumption|]).
    + intros [D|I]; [discriminate D|exact (N I)].
    + right. exact I.
  - exists w. rewrite app_nil_r. do 3 (split; [reflexivity|]).
    right. split; [reflexivity|]. left. reflexivity.
Qed.

(** *** Starting and stopping *)

Lemma init_refused (env : environment) (errno : Z) (w : world) :
  bind_error env "" PORT = Some errno ->
  TCPServer.init env "" PORT w
  = Raise (OSError errno)
      (set_syscalls
         (syscalls w ++ [SysSocket "AF_INET" "SOCK_STREAM"; SysBind "" 8080; SysClose]) w).
Proof.
  intros B. unfold PORT in *. destruct w as [h g so se c sc].
  cbv [TCPServer.init TCPServer.server_bind TCPServer.server_close try_except
       syscall_do mbind M_bind mret M_ret raise set_syscalls
       self globals stdout stderr clock syscalls].
  rewrite B. cbv beta iota. rewrite <- !app_assoc. reflexivity.
Qed.

Lemma init_bound (env : environment) (w : world) :
  bind_error env "" PORT = None ->
  TCPServer.init env "" PORT w
  = Ok ("0.0.0.0", 8080)
      (set_syscalls
         (syscalls w ++ [SysSocket "AF_INET" "SOCK_STREAM"; SysBind "" 8080; SysListen 5])
         w).
Proof.
  intros B. unfold PORT in *. destruct w as [h g so se c sc].
  cbv [TCPServer.init TCPServer.server_bind TCPServer.server_activate try_except
       syscall_do mbind M_bind mret M_ret raise set_syscalls
       self globals stdout stderr clock syscalls].
  rewrite B. cbv beta iota. rewrite <- !app_assoc. reflexivity.
Qed.

(** The script whose port is refused ends with status 1: nothing is
    printed on standard output, the traceback of the [OSError] is on
    standard error, and the socket is closed. *)
Lemma run_script_on_refused (enc : string -> option string) (env : environment)
    (errno : Z) :
  bind_error env "" PORT = Some errno ->
  run_script_on enc env
  = (Exited 1,
     mkWorld (TCPServer.new_handler ("", 0)) (module_globals "__main__") ""
       (format_exc (OSError errno)) 0
       [SysSocket "AF_INET" "SOCK_STREAM"; SysBind "" 8080; SysClose]).
Proof.
  intros B. unfold run_script_on, main. cbv zeta.
  rewrite (run_bind_raise _ _ _ _ _ (init_refused env errno _ B)).
  reflexivity.
Qed.

Lemma run_script_refused (env : environment) (errno : Z) :
  bind_error env "" PORT = Some errno ->
  run_script env
  = (Exited 1,
     mkWorld (TCPServer.new_handler ("", 0)) (module_globals "__main__") ""
       (format_exc (OSError errno)) 0
       [SysSocket "AF_INET" "SOCK_STREAM"; SysBind "" 8080; SysClose]).
Proof. apply run_script_on_refused. Qed.

Lemma print_ok {B} (enc : string -> option string) (text : string)
    (f : unit -> M B) (w : world) :
  enc text = None ->
  (print enc text ≫= f) w = f tt (set_stdout (stdout w +:+ text +:+ Str.LF) w).
Proof. intros E. rewrite run_bind. unfold print. rewrite E. reflexivity. Qed.


Lemma can_print_banner (enc : string -> option string) :
  can_print enc banner_args = true ->
  enc ("🚀 Dev server running at http://localhost:" +:+ pretty PORT) = None
  /\ enc ("📁 Serving from: " +:+ str_address ("0.0.0.0", 8080)) = None
  /\ enc "⚡ No-cache headers enabled - images/CSS will always reload fresh" = None
  /\ enc ("Press Ctrl+C to stop" +:+ Str.LF) = None.
Proof.
  unfold can_print, banner_args. cbn [forallb]. intros C.
  change url_line with ("🚀 Dev server running at http://localhost:" +:+ pretty PORT) in C.
  change no_cache_line
    with "⚡ No-cache headers enabled - images/CSS will always reload fresh" in C.
  change stop_hint_line with "Press Ctrl+C to stop" in C.
  destruct (enc ("🚀 Dev server running at http://localhost:" +:+ pretty PORT));
    [discriminate C|].
  destruct (enc ("📁 Serving from: " +:+ str_address ("0.0.0.0", 8080)));
    [discriminate C|].
  destruct (enc "⚡ No-cache headers enabled - images/CSS will always reload fresh");
    [discriminate C|].
  destruct (enc ("Press Ctrl+C to stop" +:+ Str.LF)); [discriminate C|].
  repeat split.
Qed.


(** The script whose port is free, on a standard output that takes the
    four texts of the start: it is left serving, with the banner on
    standard output, when no interrupt comes; when one comes it ends with
    status 0, the farewell printed and the socket closed, or, on a
    standard output that cannot take the farewell, with status 1 and the
    socket closed. *)
Lemma run_script_on_started (enc : string -> option string) (env : environment) :
  bind_error env "" PORT = None ->
  can_print enc banner_args = true ->
  exists w',
    globals w' = module_globals "__main__"
    /\ ((run_script_on enc env = (Running, w') /\ ~ In Interrupt (events env)
         /\ stdout w' = banner_out
         /\ syscalls w' = listening (served_clients (events env)))
        \/ (run_script_on enc env = (Exited 0, w') /\ In Interrupt (events env)
            /\ enc farewell_arg = None
            /\ stdout w' = banner_out +:+ farewell_arg +:+ Str.LF
            /\ syscalls w' = listening (served_clients (events env)) ++ [SysClose])
        \/ (run_script_on enc env = (Exited 1, w') /\ In Interrupt (events env)
            /\ enc farewell_arg <> None
            /\ stdout w' = banner_out
            /\ syscalls w' = listening (served_clients (events env)) ++ [SysClose])).
Proof.
  intros B C. destruct (can_print_banner enc C) as (E1 & E2 & E3 & E4).
  set (so := ((("" +:+ ("🚀 Dev server running at http://localhost:" +:+ pretty PORT)
                    +:+ Str.LF)
                +:+ ("📁 Serving from: " +:+ str_address ("0.0.0.0", 8080)) +:+ Str.LF)
               +:+ no_cache_line +:+ Str.LF)
              +:+ (stop_hint_line +:+ Str.LF) +:+ Str.LF).
  assert (Hso : so = banner_out).
  { unfold so, banner_out.
    change ("🚀 Dev server running at http://localhost:" +:+ pretty PORT)
      with url_line. rewrite !append_assoc. reflexivity. }
  set (w2 := mkWorld (TCPServer.new_handler ("", 0)) (module_globals "__main__")
               so "" 0 (listening [])).
  assert (Hsys : globals w2 !! "sys" = Some (ObjModule "sys")) by reflexivity.
  assert (Hmain : main enc env (initial_world "__main__")
                  = try_finally
                      (try_except (TCPServer.serve_forever class (events env))
                         (fun e =>
                            match e with
                            | KeyboardInterrupt =>
                                print enc (Str.LF +:+ Str.LF +:+ stopped_line);;
                                sys_exit 0
                            | _ => raise e
                            end))
                      TCPServer.server_close w2).
  { unfold main. cbv zeta. rewrite (run_bind_ok _ _ _ _ _ (init_bound env _ B)).
    unfold try_finally.
    rewrite (print_ok _ _ _ _ E1), (print_ok _ _ _ _ E2), (print_ok _ _ _ _ E3),
      (print_ok _ _ _ _ E4).
    reflexivity. }
  unfold run_script_on. rewrite Hmain. unfold try_finally, try_except.
  destruct (serve_forever_outcome (events env) _ w2 Hsys)
    as (w' & G & So & Sy & [[E N]|[E I]]); rewrite E.
  - exists w'. split; [rewrite G; reflexivity|]. left.
    split; [reflexivity|]. split; [exact N|]. split.
    + rewrite So. exact Hso.
    + rewrite Sy. reflexivity.
  - rewrite run_bind. unfold print.
    change (Str.LF +:+ Str.LF +:+ stopped_line) with farewell_arg.
    destruct (enc farewell_arg) as [msg|] eqn:Ef.
    + cbv [raise mbind M_bind mret M_ret TCPServer.server_close syscall_do].
      eexists. split; [|right; right; split; [reflexivity|]].
      * cbn [globals set_syscalls set_stderr]. exact G.
      * split; [exact I|]. split; [discriminate|]. split.
        -- cbn [stdout set_syscalls set_stderr]. rewrite So. exact Hso.
        -- cbn [syscalls set_syscalls set_stderr]. rewrite Sy. reflexivity.
    + cbv [sys_exit load_global raise mbind M_bind mret M_ret
           TCPServer.server_close syscall_do].
      cbn [globals set_stdout]. rewrite G.
      change (globals w2 !! "sys") with (Some (ObjModule "sys")). cbv beta iota.
      eexists. split; [|right; left; split; [reflexivity|]].
      * cbn [globals set_syscalls set_stdout]. exact G.
      * split; [exact I|]. split; [reflexivity|]. split.
        -- cbn [stdout set_syscalls set_stdout]. rewrite So.
           unfold w2. cbn [stdout]. rewrite Hso. reflexivity.
        -- cbn [syscalls set_syscalls set_stdout]. rewrite Sy. reflexivity.
Qed.

(** The same on a standard output in UTF-8, which takes every text. *)
Lemma run_script_started (env : environment) :
  bind_error env "" PORT = None ->
  exists w',
    globals w' = module_globals "__main__"
    /\ ((run_script env = (Running, w') /\ ~ In Interrupt (events env)
         /\ banner (stdout w')
         /\ syscalls w' = listening (served_clients (events env)))
        \/ (run_script env = (Exited 0, w') /\ In Interrupt (events env)
            /\ banner_and_farewell (stdout w')
            /\ syscalls w' = listening (served_clients (events env)) ++ [SysClose])).
Proof.
  intros B.
  destruct (run_script_on_started utf8 env B eq_refl)
    as (w' & G & [(E & N & So & Sy)|[(E & I & _ & So & Sy)|(_ & _ & F & _)]]).
  - exists w'. split; [exact G|]. left. split; [exact E|]. split; [exact N|].
    split; [|exact Sy]. exists (str_address ("0.0.0.0", 8080)). exact So.
  - exists w'. split; [exact G|]. right. split; [exact E|]. split; [exact I|].
    split; [|exact Sy]. exists (str_address ("0.0.0.0", 8080)).
    rewrite So. unfold banner_out, farewell_arg. rewrite !append_assoc. reflexivity.
  - destruct (F eq_refl).
Qed.

End Loop.

(** ** The shape of [parse_request], whatever the class of the handler *)

Section Reading.
Context `{Platform}.
Variable cls : handler_class.

Lemma reading_refl (w : world) :
  close_connection (self w) = true -> reading w w.
Proof. intros C. split; [apply prepared_refl|exact C]. Qed.

Lemma reading_after (w w1 w2 : world) :
  prepared w w1 -> reading w1 w2 -> reading w w2.
Proof. intros P [P' C]. split; [eapply prepared_trans; eassumption|exact C]. Qed.

Lemma parse_request_headers_shape (r : request_data) (w : world) :
  close_connection (self w) = true ->
  (exists w1, RequestHandling.parse_request_headers cls r w = Ok true w1
              /\ reading w w1 /\ command (self w1) = command (self w))
  \/ (exists code message explain,
        RequestHandling.parse_request_headers cls r w
        = (BaseHTTPRequestHandler.send_error cls code message explain;; mret false) w).
Proof.
  intros C. unfold RequestHandling.parse_request_headers.
  destruct (header_block r) as [hs|err|err].
  2,3: right; eexists _, _, _; reflexivity.
  left. rewrite run_modify_self.
  change RequestHandling.protocol_1_1 with false.
  rewrite !andb_false_r. cbn [andb].
  destruct (String.eqb (Str.lower (SimpleHTTPRequestHandler.get_header "Connection" hs))
              "close").
  - rewrite run_modify_self, run_get_self. rewrite ?self_set_self, ?set_self_twice.
    eexists. split; [reflexivity|].
    split; [split; [repeat split|reflexivity]|reflexivity].
  - rewrite run_bind. cbv [mret M_ret]. rewrite run_get_self.
    eexists. split; [reflexivity|].
    split; [split; [repeat split|exact C]|reflexivity].
Qed.

Lemma parse_request_words_shape (r : request_data) (requestline : string)
    (words : list string) (w : world) :
  close_connection (self w) = true ->
  (exists w1, RequestHandling.parse_request_words cls r requestline words w = Ok true w1
              /\ reading w w1 /\ is_Some (command (self w1)))
  \/ (exists w1 code message explain,
        reading w w1
        /\ RequestHandling.parse_request_words cls r requestline words w
           = (BaseHTTPRequestHandler.send_error cls code message explain;; mret false) w1).
Proof.
  intros C. unfold RequestHandling.parse_request_words.
  destruct words as [|method [|target rest]].
  1,2: right; exists w; eexists _, _, _; split; [apply reading_refl; exact C|reflexivity].
  destruct (1 <? length rest)%nat.
  { right. exists w. eexists _, _, _. split; [apply reading_refl; exact C|reflexivity]. }
  assert (K : forall w2 : world,
             prepared w w2 -> close_connection (self w2) = true ->
             is_Some (command (self w2)) ->
             (exists w1, RequestHandling.parse_request_headers cls r w2 = Ok true w1
                         /\ reading w w1 /\ is_Some (command (self w1)))
             \/ (exists w1 code message explain,
                   reading w w1
                   /\ RequestHandling.parse_request_headers cls r w2
                      = (BaseHTTPRequestHandler.send_error cls code message explain;;
                         mret false) w1)).
  { intros w2 P C2 Cmd.
    destruct (parse_request_headers_shape r w2 C2)
      as [(w1 & E & R & Cm)|(code & message & explain & E)].
    - left. exists w1. split; [exact E|]. split; [eapply reading_after; eassumption|].
      rewrite Cm. exact Cmd.
    - right. exists w2, code, message, explain. split; [split; assumption|exact E]. }
  destruct rest as [|version rest].
  - rewrite run_bind, run_modify_self.
    destruct (String.eqb method "GET"); cbn [negb].
    + cbv [mret M_ret]. rewrite !run_modify_self.
      rewrite ?self_set_self, ?set_self_twice.
      apply K; [repeat split|reflexivity|eexists; reflexivity].
    + right. exists (set_self (set_close_connection true (self w)) w).
      exists 400, (Some ("Bad HTTP/0.9 request type (" +:+ py_repr method +:+ ")")), None.
      split; [split; [repeat split|reflexivity]|].
      unfold mbind, M_bind.
      destruct (BaseHTTPRequestHandler.send_error cls 400 _ None _); reflexivity.
  - rewrite run_bind. cbv [mret M_ret]. rewrite !run_modify_self.
    rewrite ?self_set_self, ?set_self_twice.
    apply K; [repeat split|exact C|eexists; reflexivity].
Qed.

Lemma parse_request_outcome (r : request_data) (w : world) :
  parse_outcome cls r w (RequestHandling.parse_request cls r w).
Proof.
  unfold RequestHandling.parse_request.
  rewrite !run_modify_self. rewrite ?self_set_self, ?set_self_twice.
  match goal with
  | |- parse_outcome _ _ _ (_ (set_self ?h w)) =>
      assert (P : reading w (set_self h w)) by (split; [repeat split|reflexivity]);
      generalize dependent (set_self h w)
  end.
  intros w1 P.
  change (Str.split_ws (Str.rstrip Str.is_crlf (raw_requestline r)))
    with (request_words r).
  destruct (request_words r) as [|wd words] eqn:W.
  { apply parse_drops; [exact P|exact W]. }
  assert (N : request_words r <> []) by (rewrite W; discriminate).
  assert (K : forall w2 : world,
             prepared w1 w2 -> close_connection (self w2) = true ->
             parse_outcome cls r w
               (RequestHandling.parse_request_words cls r
                  (Str.rstrip Str.is_crlf (raw_requestline r)) (wd :: words) w2)).
  { intros w2 P2 C2.
    destruct (parse_request_words_shape r (Str.rstrip Str.is_crlf (raw_requestline r))
                (wd :: words) w2 C2)
      as [(w3 & E & R & Cmd)|(w3 & code & message & explain & R & E)]; rewrite E.
    - apply parse_accepts; [|exact Cmd|exact N].
      eapply reading_after; [|exact R].
      eapply prepared_trans; [apply P|exact P2].
    - apply parse_rejects; [|exact N].
      eapply reading_after; [|exact R].
      eapply prepared_trans; [apply P|exact P2]. }
  destruct (3 <=? length (wd :: words))%nat.
  2:{ apply K; [apply prepared_refl|apply P]. }
  destruct (RequestHandling.parse_version (List.last (wd :: words) ""))
    as [[base_version_number version_number]|].
  2:{ apply parse_rejects; [exact P|exact N]. }
  change RequestHandling.protocol_1_1 with false. rewrite andb_false_r.
  rewrite run_bind. cbv [mret M_ret].
  destruct (RequestHandling.version_ge version_number 2 0).
  { apply parse_rejects; [exact P|exact N]. }
  rewrite run_modify_self.
  apply K; [repeat split|apply P].
Qed.

End Reading.

(** ** What leaves the connection to be closed *)

Section Closing.
Context `{Platform}.










End Closing.

(** ** Requests that are not read as HTTP/0.9 *)

Section Versioned.
Context `{Platform}.
Variable cls : handler_class.




End Versioned.

Section Fresh_connection.
Context `{Platform}.



End Fresh_connection.

(** * The claims *)

(** ** The headers of a response (C1) *)




(** ** The log (C2) *)




(** ** Files that are there and files that are not (C3, C4) *)

(** C3, as the code has it.  A [GET] request on a new connection, with a
    version other than HTTP/0.9, whose path translates to a file that is
    not a directory, has no trailing slash and can be opened, and which
    the [If-Modified-Since] test does not find unchanged, is answered
    with status 200, the content type guessed from the path, and the
    bytes of the file as the body. *)
Theorem get_serves_the_file `{Platform} (r : request_data) (client : string * Z)
    (path version : string) (hs : list (string * string)) (f : file) (w : world) :
  serving client w ->
  reads_as r "GET" path version hs ->
  version <> "HTTP/0.9" ->
  isdir (translate_path (RequestHandling.single_slash path)) = false ->
  Str.endswith (translate_path (RequestHandling.single_slash path)) "/" = false ->
  open_rb (translate_path (RequestHandling.single_slash path)) = Some f ->
  SimpleHTTPRequestHandler.not_modified f hs = false ->
  exists w',
    RequestHandling.handle_one_request NoCacheHTTPRequestHandler.class r w = Ok tt w'
    /\ serves_file (translate_path (RequestHandling.single_slash path)) f
         (wfile (self w')).
Proof.
  intros [G Hself] R V Hd Hs Ho Hn.
  set (fs_path := translate_path (RequestHandling.single_slash path)) in *.
  set (w1 := set_self (read_handler r "GET" path version hs (self w)) w).
  assert (Hsys : globals w1 !! "sys" = Some (ObjModule "sys")).
  { unfold w1. rewrite globals_set_self, G. exact main_has_sys. }
  assert (E : String.eqb (request_version (self w1)) "HTTP/0.9" = false).
  { apply String.eqb_neq. exact V. }
  assert (Hhead : SimpleHTTPRequestHandler.send_head NoCacheHTTPRequestHandler.class w1
                  = Ok (Some (f_bytes f)) (answered 200 "OK" (file_headers fs_path f) w1)).
  { rewrite (send_head_file w1 Hd).
    apply (send_file_head_ok _ w1 Hsys); assumption. }
  assert (Hw : wfile (self (answered 200 "OK" (file_headers fs_path f) w1))
               = [response_head
                    (head_lines 200 "OK" (formatdate_now (S (clock w1)))
                       (file_headers fs_path f))]).
  { rewrite answered_wfile by exact E. unfold w1. rewrite self_set_self.
    cbn [wfile _headers_buffer read_handler]. rewrite Hself. reflexivity. }
  rewrite (handle_one_request_reads r "GET" path version hs w R).
  cbv zeta. fold w1. cbn [String.eqb Ascii.eqb Bool.eqb].
  unfold SimpleHTTPRequestHandler.do_GET.
  rewrite (run_bind_ok _ _ _ _ _ Hhead).
  unfold SimpleHTTPRequestHandler.copyfile.
  destruct (String.eqb (f_bytes f) "") eqn:Eb.
  - eexists. split; [reflexivity|].
    exists (formatdate_now (S (clock w1))), [].
    split; [exact Hw|]. apply String.eqb_eq in Eb. rewrite Eb. reflexivity.
  - eexists. split; [reflexivity|].
    exists (formatdate_now (S (clock w1))), [f_bytes f].
    split.
    + unfold written. rewrite self_set_self. cbn [wfile set_wfile]. rewrite Hw.
      reflexivity.
    + cbn. apply append_empty_r.
Qed.

Lemma get_serves_the_file_witness :
  let r := Example.request "GET /index.html HTTP/1.1" [] in
  serving Example.client (Example.start "__main__")
  /\ @reads_as Example.platform r "GET" "/index.html" "HTTP/1.1" []
  /\ "HTTP/1.1" <> "HTTP/0.9"
  /\ exists w',
       Example.serve r = Ok tt w'
       /\ @serves_file Example.platform "/srv/site/index.html" Example.index_html
            (wfile (self w')).
Proof.
  cbv zeta.
  assert (R : @reads_as Example.platform
                (Example.request "GET /index.html HTTP/1.1" []) "GET" "/index.html"
                "HTTP/1.1" []).
  { split; [vm_compute; discriminate|]. split; [reflexivity|].
    split; [|reflexivity]. exists "1.1", (1, 1). split; reflexivity. }
  split; [split; reflexivity|]. split; [exact R|]. split; [discriminate|].
  apply (@get_serves_the_file Example.platform
           (Example.request "GET /index.html HTTP/1.1" []) Example.client
           "/index.html" "HTTP/1.1" [] Example.index_html (Example.start "__main__"));
    [split; reflexivity|exact R|discriminate|reflexivity..].
Defined.

(** C3 as stated fails: [index.html] is there and can be opened, but a
    [GET] with an [If-Modified-Since] date that is not before the time
    the file was written is answered with 304 and no body. *)
Lemma conditional_get_is_answered_304 :
  let r := Example.request "GET /index.html HTTP/1.1"
             [("If-Modified-Since", Example.http_date)] in
  @open_rb Example.platform (@translate_path Example.platform "/index.html")
    = Some Example.index_html
  /\ ~ exists w',
         Example.serve r = Ok tt w'
         /\ @serves_file Example.platform "/srv/site/index.html" Example.index_html
              (wfile (self w')).
Proof.
  cbv zeta. split; [reflexivity|].
  intros (w' & E & date & body & Eq & _).
  vm_compute in E. injection E as <-. vm_compute in Eq. discriminate Eq.
Qed.




(** ** Starting, serving and stopping (C5, C6, C7, C8) *)

(** C5.  When the operating system refuses to bind port 8080 because it
    is in use, the constructor of the server raises [OSError] out of the
    script: the process ends with status 1, the traceback of the error is
    on standard error, nothing is on standard output, and the socket has
    been closed without ever listening. *)
Theorem port_in_use_ends_the_script `{Platform} (env : environment) :
  bind_error env "" PORT = Some EADDRINUSE ->
  exists w',
    run_script env = (Exited 1, w')
    /\ stdout w' = ""
    /\ stderr w' = format_exc (OSError EADDRINUSE)
    /\ syscalls w' = [SysSocket "AF_INET" "SOCK_STREAM"; SysBind "" 8080; SysClose].
Proof.
  intros B. eexists. split; [apply run_script_refused; exact B|].
  repeat split.
Qed.

Lemma port_in_use_ends_the_script_witness :
  bind_error (Example.env_port_taken []) "" PORT = Some EADDRINUSE
  /\ exists w',
       Example.run (Example.env_port_taken []) = (Exited 1, w')
       /\ stdout w' = ""
       /\ stderr w' = @format_exc Example.platform (OSError EADDRINUSE)
       /\ syscalls w' = [SysSocket "AF_INET" "SOCK_STREAM"; SysBind "" 8080; SysClose].
Proof.
  split; [reflexivity|].
  apply (@port_in_use_ends_the_script Example.platform (Example.env_port_taken [])).
  reflexivity.
Defined.

(** C6.  When the port is free and an interrupt arrives while the
    server is in [serve_forever], the process ends with status 0; the
    banner is followed on standard output by the line that says the server
    has stopped; the connections that came before the interrupt have been
    accepted, none after it, and the listening socket is closed. *)
Theorem interrupt_stops_the_server `{Platform} (env : environment) :
  bind_error env "" PORT = None ->
  In Interrupt (events env) ->
  exists w',
    run_script env = (Exited 0, w')
    /\ banner_and_farewell (stdout w')
    /\ syscalls w' = listening (served_clients (events env)) ++ [SysClose].
Proof.
  intros B I.
  destruct (run_script_started env B) as (w' & _ & [(_ & N & _)|(E & _ & F & Sy)]).
  - destruct (N I).
  - exists w'. repeat split; assumption.
Qed.

Lemma interrupt_stops_the_server_witness :
  let env :=
    Example.env
      [Connection Example.client [Example.request "GET /index.html HTTP/1.1" []];
       Interrupt;
       Connection Example.client [Example.request "GET /index.html HTTP/1.1" []]] in
  bind_error env "" PORT = None
  /\ In Interrupt (events env)
  /\ exists w',
       Example.run env = (Exited 0, w')
       /\ banner_and_farewell (stdout w')
       /\ syscalls w' = listening (served_clients (events env)) ++ [SysClose].
Proof.
  cbv zeta. split; [reflexivity|]. split; [right; left; reflexivity|].
  apply (@interrupt_stops_the_server Example.platform).
  - reflexivity.
  - right. left. reflexivity.
Defined.




(** C8.  [PORT] is 8080, and whatever the command line and the
    surroundings of the run, the first two calls on the socket make a TCP
    socket over IPv4 and bind it to port 8080 on the wildcard address; no
    other socket is made and no other address is bound afterwards; and
    when the bind is not refused, the next call is [listen]. *)
Theorem binds_port_8080_on_all_interfaces `{Platform} (env : environment) :
  PORT = 8080
  /\ exists rest,
       syscalls (snd (run_script env))
       = SysSocket "AF_INET" "SOCK_STREAM" :: SysBind "" 8080 :: rest
       /\ Forall (fun c => c = SysListen 5 \/ c = SysClose
                           \/ exists client, c = SysAccept client) rest
       /\ (bind_error env "" 8080 = None -> exists rest', rest = SysListen 5 :: rest').
Proof.
  split; [reflexivity|].
  assert (A : forall clients,
             Forall (fun c => c = SysListen 5 \/ c = SysClose
                              \/ exists client, c = SysAccept client)
               (map SysAccept clients)).
  { intros clients. induction clients as [|client clients IH]; cbn [map];
      constructor; [|exact IH].
    right. right. exists client. reflexivity. }
  destruct (bind_error env "" PORT) as [errno|] eqn:B.
  - rewrite (run_script_refused env errno B). cbn [snd syscalls].
    exists [SysClose]. split; [reflexivity|]. split.
    + constructor; [right; left; reflexivity|constructor].
    + unfold PORT in B. rewrite B. discriminate.
  - destruct (run_script_started env B)
      as (w' & _ & [(E & _ & _ & Sy)|(E & _ & _ & Sy)]); rewrite E; cbn [snd];
      rewrite Sy; unfold listening.
    + eexists. split; [reflexivity|]. split.
      * constructor; [left; reflexivity|apply A].
      * intros _. eexists. reflexivity.
    + eexists. split; [cbn [app]; reflexivity|]. split.
      * constructor; [left; reflexivity|].
        apply Forall_app. split; [apply A|].
        constructor; [right; left; reflexivity|constructor].
      * intros _. eexists. reflexivity.
Qed.

(** ** The two overrides by themselves (C9, C10) *)

(** C9, as the code has it.  [end_headers] returns, and unless the
    request is an HTTP/0.9 request it transmits one chunk: the lines that
    were prepared, unchanged and in their order, then [Cache-Control],
    [Pragma] and [Expires], then the empty line; the buffer is left empty
    and nothing else in the state changes.  For an HTTP/0.9 request it
    transmits nothing and changes nothing. *)
Theorem end_headers_frame (w : world) :
  NoCacheHTTPRequestHandler.end_headers w
  = Ok tt
      (if String.eqb (request_version (self w)) "HTTP/0.9" then w
       else
         set_self
           (set_headers_buffer (Some [])
              (set_wfile
                 (wfile (self w)
                  ++ [Str.join (default [] (_headers_buffer (self w))
                                ++ [cache_control_line; pragma_line; expires_line]
                                ++ [Str.CRLF])])
                 (self w)))
           w).
Proof.
  rewrite end_headers_run. unfold after_end_headers.
  destruct (String.eqb (request_version (self w)) "HTTP/0.9").
  - destruct w. reflexivity.
  - reflexivity.
Qed.

(** C9 as stated fails for an HTTP/0.9 request: after the request line
    [GET /index.html] has been read, [end_headers] appends nothing. *)
Lemma end_headers_http09_appends_nothing :
  let w :=
    final (@RequestHandling.parse_request Example.platform Example.class
             (Example.request "GET /index.html" []) (Example.start "__main__")) in
  ~ exists w',
      NoCacheHTTPRequestHandler.end_headers w = Ok tt w'
      /\ appended_no_cache_lines w w'.
Proof.
  cbv zeta. intros (w' & E & A).
  vm_compute in E. injection E as <-. vm_compute in A. discriminate A.
Qed.

(** C10.  When the module has run under a name other than [__main__],
    [sys] is not among its globals, and [log_message] raises [NameError]
    before it writes anything: the state is as it was. *)
Theorem log_message_without_sys `{Platform} (name : string) (format : string)
    (args : list pyval) (w : world) :
  name <> "__main__" ->
  globals w = module_globals name ->
  NoCacheHTTPRequestHandler.log_message format args w = Raise (NameError "sys") w.
Proof.
  intros N G. apply String.eqb_neq in N.
  unfold NoCacheHTTPRequestHandler.log_message.
  apply run_bind_raise. unfold load_global. rewrite G.
  unfold module_globals. rewrite N. reflexivity.
Qed.

Lemma log_message_without_sys_witness :
  "dev_server" <> "__main__"
  /\ globals (Example.start "dev_server") = module_globals "dev_server"
  /\ @NoCacheHTTPRequestHandler.log_message Example.platform
       "code %d, message %s" [VInt 404; VStr "File not found"]
       (Example.start "dev_server")
     = Raise (NameError "sys") (Example.start "dev_server").
Proof.
  split; [discriminate|]. split; [reflexivity|].
  apply (@log_message_without_sys Example.platform "dev_server");
    [discriminate|reflexivity].
Defined.

(** * Further properties *)

(** ** The handler in a module that has not run as [__main__] *)

Section Imported.
Context `{Platform}.

Let class := NoCacheHTTPRequestHandler.class.







Lemma blank_end_of_input : blank RequestHandling.end_of_input = true.
Proof. reflexivity. Qed.


End Imported.

(** ** What is sent on a new connection *)

Section Answers.
Context `{Platform}.

Lemma fresh_answered (code : Z) (message : string) (hdrs : list (string * string))
    (w : world) :
  _headers_buffer (self w) = None -> wfile (self w) = [] ->
  request_version (self w) <> "HTTP/0.9" ->
  wfile (self (answered code message hdrs w))
  = [response_head (head_lines code message (formatdate_now (S (clock w))) hdrs)].
Proof.
  intros B W V. apply String.eqb_neq in V.
  rewrite answered_wfile by exact V. rewrite B, W. reflexivity.
Qed.

Lemma errored_wfile (code : Z) (message explain : string) (w : world) :
  wfile (self (errored code message explain w))
  = wfile (self (answered code message (error_headers code message explain)
                   (logged (error_summary code message) w)))
    ++ error_body (command (self w)) code message explain.
Proof.
  unfold errored, error_body.
  destruct (answered_same code message (error_headers code message explain)
              (logged (error_summary code message) w)) as (_ & _ & _ & D).
  rewrite D. change (command (self (logged (error_summary code message) w)))
    with (command (self w)).
  destruct (_ && _ && _)%bool; [reflexivity|rewrite app_nil_r; reflexivity].
Qed.

Lemma fresh_errored (code : Z) (message explain : string) (w : world) :
  _headers_buffer (self w) = None -> wfile (self w) = [] ->
  request_version (self w) <> "HTTP/0.9" ->
  wfile (self (errored code message explain w))
  = response_head
      (head_lines code message (formatdate_now (S (S (clock w))))
         (error_headers code message explain))
    :: error_body (command (self w)) code message explain.
Proof.
  intros B W V. rewrite errored_wfile.
  rewrite (fresh_answered code message (error_headers code message explain)
             (logged (error_summary code message) w) B W V).
  reflexivity.
Qed.

Lemma errored_wfile_09 (code : Z) (message explain : string) (w : world) :
  request_version (self w) = "HTTP/0.9" ->
  wfile (self (errored code message explain w))
  = wfile (self w) ++ error_body (command (self w)) code message explain.
Proof.
  intros V. rewrite errored_wfile. f_equal.
  apply (answered_wfile_09 code message (error_headers code message explain)
           (logged (error_summary code message) w)).
  change (request_version (self (logged (error_summary code message) w)))
    with (request_version (self w)).
  rewrite V. reflexivity.
Qed.

(** The two lines that [send_error] logs. *)
Lemma errored_stderr (code : Z) (message explain : string) (w : world) :
  stderr (errored code message explain w)
  = (stderr w +:+ log_line (fst (client_address (self w))) (log_date (clock w))
                    (error_summary code message))
    +:+ log_line (fst (client_address (self w))) (log_date (S (clock w)))
          (request_summary (requestline (self w)) code).
Proof.
  destruct (errored_cases code message explain w) as [E|E]; rewrite E; reflexivity.
Qed.

Lemma error_body_bare (method : string) (code : Z) (message explain : string) :
  has_error_page code = true -> method <> "HEAD" ->
  error_body (Some method) code message explain
  = bare (error_page code message explain).
Proof.
  intros P N. unfold error_body, bare. rewrite P.
  rewrite bool_decide_eq_false_2 by congruence.
  cbn [andb negb]. destruct (String.eqb _ ""); reflexivity.
Qed.

Section Fresh.
Variable r : request_data.
Variable client : string * Z.
Variables method target version : string.
Variable hs : list (string * string).
Variable w : world.
Hypothesis Hserving : serving client w.
Hypothesis Hreads : reads_as r method target version hs.

Let w1 := set_self (read_handler r method target version hs (self w)) w.

Lemma read_state_sys : globals w1 !! "sys" = Some (ObjModule "sys").
Proof.
  destruct Hserving as [G _]. unfold w1. rewrite globals_set_self, G.
  exact main_has_sys.
Qed.

Lemma read_state_buffer : _headers_buffer (self w1) = None.
Proof. destruct Hserving as [_ S0]. unfold w1. cbn. rewrite S0. reflexivity. Qed.

Lemma read_state_wfile : wfile (self w1) = [].
Proof. destruct Hserving as [_ S0]. unfold w1. cbn. rewrite S0. reflexivity. Qed.

(** [do_GET] and [do_HEAD] after [send_head]. *)
Lemma get_or_head_after_send_head (source : option string) (w' : world) :
  method = "GET" \/ method = "HEAD" ->
  SimpleHTTPRequestHandler.send_head NoCacheHTTPRequestHandler.class w1 = Ok source w' ->
  exists w'',
    RequestHandling.handle_one_request NoCacheHTTPRequestHandler.class r w = Ok tt w''
    /\ wfile (self w'') = wfile (self w') ++ sent_body method source
    /\ stderr w'' = stderr w'
    /\ close_connection (self w'') = close_connection (self w').
Proof.
  intros M E.
  rewrite (handle_one_request_reads r method target version hs w Hreads).
  cbv zeta. fold w1.
  destruct M as [-> | ->]; cbn [String.eqb Ascii.eqb Bool.eqb].
  - unfold SimpleHTTPRequestHandler.do_GET. rewrite (run_bind_ok _ _ _ _ _ E).
    destruct source as [bytes|]; cbn [sent_body String.eqb Ascii.eqb Bool.eqb].
    + unfold SimpleHTTPRequestHandler.copyfile, bare.
      destruct (String.eqb bytes "").
      * exists w'. rewrite app_nil_r. repeat split.
      * eexists. split; [reflexivity|]. repeat split.
    + exists w'. rewrite app_nil_r. repeat split.
  - unfold SimpleHTTPRequestHandler.do_HEAD. rewrite (run_bind_ok _ _ _ _ _ E).
    exists w'. split; [reflexivity|].
    destruct source; cbn [sent_body String.eqb Ascii.eqb Bool.eqb];
      rewrite app_nil_r; repeat split.
Qed.

(** A response of the inherited handler to [GET] or [HEAD]: the header
    block, and the source after it for [GET]. *)
Lemma plain_answer (source : option string) (code : Z) (message : string)
    (hdrs : list (string * string)) :
  method = "GET" \/ method = "HEAD" ->
  version <> "HTTP/0.9" ->
  SimpleHTTPRequestHandler.send_head NoCacheHTTPRequestHandler.class w1
  = Ok source (answered code message hdrs w1) ->
  exists w',
    RequestHandling.handle_one_request NoCacheHTTPRequestHandler.class r w = Ok tt w'
    /\ wfile (self w')
       = response_head (head_lines code message (formatdate_now (S (clock w))) hdrs)
         :: sent_body method source.
Proof.
  intros M V E.
  destruct (get_or_head_after_send_head source _ M E) as (w' & E' & W & _).
  exists w'. split; [exact E'|]. rewrite W.
  rewrite (fresh_answered code message hdrs w1 read_state_buffer read_state_wfile V).
  reflexivity.
Qed.

(** An error response to [GET] or [HEAD]: the header block, and the error
    page after it for [GET]. *)
Lemma error_answer (code : Z) (message explain : string) :
  method = "GET" \/ method = "HEAD" ->
  version <> "HTTP/0.9" ->
  SimpleHTTPRequestHandler.send_head NoCacheHTTPRequestHandler.class w1
  = Ok None (errored code message explain w1) ->
  exists w',
    RequestHandling.handle_one_request NoCacheHTTPRequestHandler.class r w = Ok tt w'
    /\ wfile (self w')
       = response_head
           (head_lines code message (formatdate_now (S (S (clock w))))
              (error_headers code message explain))
         :: error_body (Some method) code message explain
    /\ stderr w' = stderr (errored code message explain w1).
Proof.
  intros M V E.
  destruct (get_or_head_after_send_head None _ M E) as (w' & E' & W & Se & _).
  exists w'. split; [exact E'|]. split; [|exact Se].
  rewrite W. cbn [sent_body]. rewrite app_nil_r.
  rewrite (fresh_errored code message explain w1 read_state_buffer read_state_wfile V).
  reflexivity.
Qed.

End Fresh.






End Answers.

(** X1.  A [GET] or [HEAD] request on a new connection, with a version
    other than HTTP/0.9, for a file that can be opened and that the
    [If-Modified-Since] test does not find unchanged: one header block is
    sent, with status 200, [Server], [Date], [Content-type],
    [Content-Length], [Last-Modified] and the three no-cache headers; the
    bytes of the file follow it for [GET], and nothing follows it for
    [HEAD]. *)
Theorem head_gets_the_headers_of_get `{Platform} (r : request_data)
    (client : string * Z) (method path version : string) (hs : list (string * string))
    (f : file) (w : world) :
  serving client w ->
  reads_as r method path version hs ->
  method = "GET" \/ method = "HEAD" ->
  version <> "HTTP/0.9" ->
  isdir (translate_path (RequestHandling.single_slash path)) = false ->
  Str.endswith (translate_path (RequestHandling.single_slash path)) "/" = false ->
  open_rb (translate_path (RequestHandling.single_slash path)) = Some f ->
  SimpleHTTPRequestHandler.not_modified f hs = false ->
  exists w',
    RequestHandling.handle_one_request NoCacheHTTPRequestHandler.class r w = Ok tt w'
    /\ wfile (self w')
       = response_head
           (head_lines 200 "OK" (formatdate_now (S (clock w)))
              (file_headers (translate_path (RequestHandling.single_slash path)) f))
         :: (if String.eqb method "HEAD" then [] else bare (f_bytes f)).
Proof.
  intros Sv R M V Hd Hs Ho Hn.
  apply (plain_answer r client method path version hs w Sv R (Some (f_bytes f))
           200 "OK" _ M V).
  rewrite send_head_file by exact Hd.
  apply (send_file_head_ok _ _ (read_state_sys r client method path version hs w Sv));
    assumption.
Qed.

Lemma head_gets_the_headers_of_get_witness :
  let r := Example.request "HEAD /index.html HTTP/1.1" [] in
  serving Example.client (Example.start "__main__")
  /\ @reads_as Example.platform r "HEAD" "/index.html" "HTTP/1.1" []
  /\ exists w',
       Example.serve r = Ok tt w'
       /\ wfile (self w')
          = [response_head
               (@head_lines Example.platform 200 "OK" Example.http_date
                  (@file_headers Example.platform "/srv/site/index.html"
                     Example.index_html))].
Proof.
  cbv zeta.
  assert (R : @reads_as Example.platform
                (Example.request "HEAD /index.html HTTP/1.1" []) "HEAD" "/index.html"
                "HTTP/1.1" []).
  { split; [vm_compute; discriminate|]. split; [reflexivity|].
    split; [|reflexivity]. exists "1.1", (1, 1). split; reflexivity. }
  split; [split; reflexivity|]. split; [exact R|].
  apply (@head_gets_the_headers_of_get Example.platform
           (Example.request "HEAD /index.html HTTP/1.1" []) Example.client
           "HEAD" "/index.html" "HTTP/1.1" [] Example.index_html
           (Example.start "__main__"));
    [split; reflexivity|exact R|right; reflexivity|discriminate|reflexivity..].
Defined.

(** X2.  A [GET] or [HEAD] request on a new connection, with a version
    other than HTTP/0.9, for a file that can be opened and that the
    [If-Modified-Since] test finds unchanged: the answer is one header
    block with status 304, [Server], [Date] and the three no-cache
    headers, and no body. *)
Theorem unchanged_file_is_answered_304 `{Platform} (r : request_data)
    (client : string * Z) (method path version : string) (hs : list (string * string))
    (f : file) (w : world) :
  serving client w ->
  reads_as r method path version hs ->
  method = "GET" \/ method = "HEAD" ->
  version <> "HTTP/0.9" ->
  isdir (translate_path (RequestHandling.single_slash path)) = false ->
  Str.endswith (translate_path (RequestHandling.single_slash path)) "/" = false ->
  open_rb (translate_path (RequestHandling.single_slash path)) = Some f ->
  SimpleHTTPRequestHandler.not_modified f hs = true ->
  exists w',
    RequestHandling.handle_one_request NoCacheHTTPRequestHandler.class r w = Ok tt w'
    /\ wfile (self w')
       = [response_head
            (head_lines 304 "Not Modified" (formatdate_now (S (clock w))) [])].
Proof.
  intros Sv R M V Hd Hs Ho Hn.
  apply (plain_answer r client method path version hs w Sv R None
           304 "Not Modified" [] M V).
  rewrite send_head_file by exact Hd.
  apply (send_file_head_not_modified _ _
           (read_state_sys r client method path version hs w Sv) _ f);
    assumption.
Qed.

Lemma unchanged_file_is_answered_304_witness :
  let hs := [("If-Modified-Since", Example.http_date)] in
  let r := Example.request "GET /index.html HTTP/1.1" hs in
  serving Example.client (Example.start "__main__")
  /\ @reads_as Example.platform r "GET" "/index.html" "HTTP/1.1" hs
  /\ @SimpleHTTPRequestHandler.not_modified Example.platform Example.index_html hs = true
  /\ exists w',
       Example.serve r = Ok tt w'
       /\ wfile (self w')
          = [response_head
               (@head_lines Example.platform 304 "Not Modified" Example.http_date [])].
Proof.
  cbv zeta.
  assert (R : @reads_as Example.platform
                (Example.request "GET /index.html HTTP/1.1"
                   [("If-Modified-Since", Example.http_date)])
                "GET" "/index.html" "HTTP/1.1"
                [("If-Modified-Since", Example.http_date)]).
  { split; [vm_compute; discriminate|]. split; [reflexivity|].
    split; [|reflexivity]. exists "1.1", (1, 1). split; reflexivity. }
  split; [split; reflexivity|]. split; [exact R|]. split; [reflexivity|].
  apply (@unchanged_file_is_answered_304 Example.platform
           (Example.request "GET /index.html HTTP/1.1"
              [("If-Modified-Since", Example.http_date)]) Example.client
           "GET" "/index.html" "HTTP/1.1" [("If-Modified-Since", Example.http_date)]
           Example.index_html (Example.start "__main__"));
    [split; reflexivity|exact R|left; reflexivity|discriminate|reflexivity..].
Defined.









(** X7.  A [GET] or [HEAD] request on a new connection, with a version
    other than HTTP/0.9, for a path that is not a directory and that ends
    in a slash or that [open] refuses with an [OSError] (an [open] that
    fails with a [ValueError] is not answered: the exception leaves the
    handler): the header block has status 404 and
    the message [File not found], announces that the connection closes
    and gives the type and the length of the error page; the page follows
    it for [GET] and does not for [HEAD]; the error and the request are
    logged, in this order. *)
Theorem missing_file_error_response `{Platform} (r : request_data)
    (client : string * Z) (method path version : string)
    (hs : list (string * string)) (w : world) :
  serving client w ->
  reads_as r method path version hs ->
  method = "GET" \/ method = "HEAD" ->
  version <> "HTTP/0.9" ->
  isdir (translate_path (RequestHandling.single_slash path)) = false ->
  Str.endswith (translate_path (RequestHandling.single_slash path)) "/" = true
  \/ (open_rb (translate_path (RequestHandling.single_slash path)) = None
      /\ open_failure (translate_path (RequestHandling.single_slash path))
         = OpenOSError) ->
  exists w',
    RequestHandling.handle_one_request NoCacheHTTPRequestHandler.class r w = Ok tt w'
    /\ wfile (self w')
       = response_head
           (head_lines 404 "File not found" (formatdate_now (S (S (clock w))))
              [("Connection", "close");
               ("Content-Type", "text/html;charset=utf-8");
               ("Content-Length",
                pretty (Z.of_nat (String.length
                          (error_page 404 "File not found"
                             "Nothing matches the given URI"))))])
         :: (if String.eqb method "HEAD" then []
             else bare (error_page 404 "File not found" "Nothing matches the given URI"))
    /\ stderr w'
       = (stderr w +:+ log_line (fst client) (log_date (clock w))
                         (error_summary 404 "File not found"))
         +:+ log_line (fst client) (log_date (S (clock w)))
               (request_summary (Str.rstrip Str.is_crlf (raw_requestline r)) 404).
Proof.
  intros Sv R M V Hd Hmiss.
  destruct (error_answer r client method path version hs w Sv R 404
              "File not found" "Nothing matches the given URI" M V)
    as (w' & E & W & Se).
  { rewrite send_head_file by exact Hd.
    apply (send_file_head_missing _ _
             (read_state_sys r client method path version hs w Sv)).
    exact Hmiss. }
  exists w'. split; [exact E|]. split.
  - rewrite W. f_equal. destruct M as [-> | ->].
    + apply error_body_bare; [reflexivity|discriminate].
    + reflexivity.
  - rewrite Se, errored_stderr. destruct Sv as [_ S0]. cbn. rewrite S0. reflexivity.
Qed.

Lemma missing_file_error_response_witness :
  let r := Example.request "HEAD /does-not-exist.png HTTP/1.1" [] in
  serving Example.client (Example.start "__main__")
  /\ @reads_as Example.platform r "HEAD" "/does-not-exist.png" "HTTP/1.1" []
  /\ exists w',
       Example.serve r = Ok tt w'
       /\ wfile (self w')
          = [response_head
               (@head_lines Example.platform 404 "File not found" Example.http_date
                  [("Connection", "close");
                   ("Content-Type", "text/html;charset=utf-8");
                   ("Content-Length", "335")])]
       /\ Str.text_lines (stderr w')
          = ["127.0.0.1 - - [21/Oct/2015 07:28:00] code 404, message File not found";
             "127.0.0.1 - - [21/Oct/2015 07:28:00] " +:+ Str.DQ
             +:+ "HEAD /does-not-exist.png HTTP/1.1" +:+ Str.DQ +:+ " 404 -"].
Proof.
  cbv zeta.
  assert (R : @reads_as Example.platform
                (Example.request "HEAD /does-not-exist.png HTTP/1.1" []) "HEAD"
                "/does-not-exist.png" "HTTP/1.1" []).
  { split; [vm_compute; discriminate|]. split; [reflexivity|].
    split; [|reflexivity]. exists "1.1", (1, 1). split; reflexivity. }
  split; [split; reflexivity|]. split; [exact R|].
  destruct (@missing_file_error_response Example.platform
              (Example.request "HEAD /does-not-exist.png HTTP/1.1" []) Example.client
              "HEAD" "/does-not-exist.png" "HTTP/1.1" [] (Example.start "__main__"))
    as (w' & E & W & Se);
    [split; reflexivity|exact R|right; reflexivity|discriminate|reflexivity
    |right; split; reflexivity|].
  exists w'. split; [exact E|]. split; [exact W|]. rewrite Se. reflexivity.
Defined.

(** X8.  A request on a new connection whose method is neither [GET] nor
    [HEAD], with a version other than HTTP/0.9, is answered with status
    501 whatever its path: the header block announces that the connection
    closes and gives the type and the length of the error page, which
    follows it; the error and the request are logged, in this order. *)
Theorem unsupported_method_is_answered_501 `{Platform} (r : request_data)
    (client : string * Z) (method path version : string)
    (hs : list (string * string)) (w : world) :
  serving client w ->
  reads_as r method path version hs ->
  method <> "GET" -> method <> "HEAD" ->
  version <> "HTTP/0.9" ->
  exists w',
    RequestHandling.handle_one_request NoCacheHTTPRequestHandler.class r w = Ok tt w'
    /\ wfile (self w')
       = response_head
           (head_lines 501 ("Unsupported method (" +:+ py_repr method +:+ ")")
              (formatdate_now (S (S (clock w))))
              [("Connection", "close");
               ("Content-Type", "text/html;charset=utf-8");
               ("Content-Length",
                pretty (Z.of_nat (String.length
                          (error_page 501
                             ("Unsupported method (" +:+ py_repr method +:+ ")")
                             "Server does not support this operation"))))])
         :: bare (error_page 501 ("Unsupported method (" +:+ py_repr method +:+ ")")
                    "Server does not support this operation")
    /\ stderr w'
       = (stderr w +:+ log_line (fst client) (log_date (clock w))
                         (error_summary 501
                            ("Unsupported method (" +:+ py_repr method +:+ ")")))
         +:+ log_line (fst client) (log_date (S (clock w)))
               (request_summary (Str.rstrip Str.is_crlf (raw_requestline r)) 501).
Proof.
  intros Sv R G Hd V.
  rewrite (handle_one_request_reads r method path version hs w R). cbv zeta.
  apply String.eqb_neq in G. rewrite G.
  assert (Hd' := Hd). apply String.eqb_neq in Hd'. rewrite Hd'.
  rewrite (send_error_run 501 _ None _ _
             (read_state_sys r client method path version hs w Sv)).
  eexists. split; [reflexivity|]. split.
  - rewrite (fresh_errored _ _ _ _
               (read_state_buffer r client method path version hs w Sv)
               (read_state_wfile r client method path version hs w Sv) V).
    f_equal. apply error_body_bare; [reflexivity|exact Hd].
  - rewrite errored_stderr. destruct Sv as [_ S0]. cbn. rewrite S0. reflexivity.
Qed.

Lemma unsupported_method_is_answered_501_witness :
  let r := Example.request "POST /index.html HTTP/1.1" [] in
  serving Example.client (Example.start "__main__")
  /\ @reads_as Example.platform r "POST" "/index.html" "HTTP/1.1" []
  /\ exists w',
       Example.serve r = Ok tt w'
       /\ wfile (self w')
          = [response_head
               (@head_lines Example.platform 501 "Unsupported method ('POST')"
                  Example.http_date
                  [("Connection", "close");
                   ("Content-Type", "text/html;charset=utf-8");
                   ("Content-Length", "357")]);
             @error_page Example.platform 501 "Unsupported method ('POST')"
               "Server does not support this operation"].
Proof.
  cbv zeta.
  assert (R : @reads_as Example.platform
                (Example.request "POST /index.html HTTP/1.1" []) "POST"
                "/index.html" "HTTP/1.1" []).
  { split; [vm_compute; discriminate|]. split; [reflexivity|].
    split; [|reflexivity]. exists "1.1", (1, 1). split; reflexivity. }
  split; [split; reflexivity|]. split; [exact R|].
  destruct (@unsupported_method_is_answered_501 Example.platform
              (Example.request "POST /index.html HTTP/1.1" []) Example.client
              "POST" "/index.html" "HTTP/1.1" [] (Example.start "__main__"))
    as (w' & E & W & _);
    [split; reflexivity|exact R|discriminate|discriminate|discriminate|].
  exists w'. split; [exact E|exact W].
Defined.

(** X9.  A request on a new connection whose first line is longer than
    65536 bytes is answered with status 414 without being parsed: the
    header block is followed by the error page, and the log lines show an
    empty request line. *)
Theorem long_request_line_is_answered_414 `{Platform} (r : request_data)
    (client : string * Z) (w : world) :
  serving client w ->
  65536 < Z.of_nat (String.length (raw_requestline r)) ->
  exists w',
    RequestHandling.handle_one_request NoCacheHTTPRequestHandler.class r w = Ok tt w'
    /\ wfile (self w')
       = response_head
           (head_lines 414 "Request-URI Too Long" (formatdate_now (S (S (clock w))))
              [("Connection", "close");
               ("Content-Type", "text/html;charset=utf-8");
               ("Content-Length",
                pretty (Z.of_nat (String.length
                          (error_page 414 "Request-URI Too Long" "URI is too long"))))])
         :: bare (error_page 414 "Request-URI Too Long" "URI is too long")
    /\ stderr w'
       = (stderr w +:+ log_line (fst client) (log_date (clock w))
                         (error_summary 414 "Request-URI Too Long"))
         +:+ log_line (fst client) (log_date (S (clock w))) (request_summary "" 414).
Proof.
  intros [G S0] L. apply Z.ltb_lt in L.
  unfold RequestHandling.handle_one_request. rewrite L.
  rewrite !run_modify_self. rewrite ?self_set_self, ?set_self_twice.
  match goal with
  | |- context [BaseHTTPRequestHandler.send_error _ _ _ _ ?w1] =>
      assert (Hsys : globals w1 !! "sys" = Some (ObjModule "sys"))
        by (cbn; rewrite G; exact main_has_sys);
      rewrite (send_error_run 414 None None _ w1 Hsys)
  end.
  eexists. split; [reflexivity|]. split.
  - rewrite fresh_errored.
    + f_equal. cbn [self set_self command set_command].
      apply (error_body_bare ""); [reflexivity|discriminate].
    + cbn. rewrite S0. reflexivity.
    + cbn. rewrite S0. reflexivity.
    + cbn. discriminate.
  - rewrite errored_stderr. cbn. rewrite S0. reflexivity.
Qed.

Lemma long_request_line_is_answered_414_witness :
  let r := mkRequest (Str.join (replicate (Z.to_nat 65537) "a")) (HeadersOk []) in
  serving Example.client (Example.start "__main__")
  /\ 65536 < Z.of_nat (String.length (raw_requestline r))
  /\ exists w',
       Example.serve r = Ok tt w'
       /\ wfile (self w')
          = [response_head
               (@head_lines Example.platform 414 "Request-URI Too Long"
                  Example.http_date
                  [("Connection", "close");
                   ("Content-Type", "text/html;charset=utf-8");
                   ("Content-Length", "327")]);
             @error_page Example.platform 414 "Request-URI Too Long" "URI is too long"].
Proof.
  cbv zeta.
  assert (L : 65536 < Z.of_nat (String.length
                         (raw_requestline
                            (mkRequest (Str.join (replicate (Z.to_nat 65537) "a"))
                               (HeadersOk []))))).
  { vm_compute. reflexivity. }
  split; [split; reflexivity|]. split; [exact L|].
  destruct (@long_request_line_is_answered_414 Example.platform
              (mkRequest (Str.join (replicate (Z.to_nat 65537) "a")) (HeadersOk []))
              Example.client (Example.start "__main__"))
    as (w' & E & W & _); [split; reflexivity|exact L|].
  exists w'. split; [exact E|exact W].
Defined.

(** ** Requests that are read as HTTP/0.9 *)

Section Simple.
Context `{Platform}.
Variable cls : handler_class.

Lemma parse_request_reads_simple (r : request_data) (target : string)
    (hs : list (string * string)) (w : world) :
  reads_as_simple r target hs ->
  RequestHandling.parse_request cls r w
  = Ok true (set_self (read_handler r "GET" target "HTTP/0.9" hs (self w)) w).
Proof.
  intros (_ & Hw & Hh). unfold request_words in Hw.
  unfold RequestHandling.parse_request.
  rewrite !run_modify_self. rewrite ?self_set_self, ?set_self_twice.
  rewrite Hw. cbn [length Nat.leb].
  unfold RequestHandling.parse_request_words. cbn [length Nat.ltb Nat.leb].
  rewrite run_bind, run_modify_self. cbn [String.eqb Ascii.eqb Bool.eqb negb].
  cbv [mret M_ret]. rewrite !run_modify_self.
  rewrite ?self_set_self, ?set_self_twice.
  unfold RequestHandling.parse_request_headers. rewrite Hh.
  rewrite run_modify_self. rewrite ?self_set_self, ?set_self_twice.
  change RequestHandling.protocol_1_1 with false. rewrite !andb_false_r. cbn [andb].
  destruct w as [h g so se c sc]. destruct h as [ca rl rv cmd p hs' buf cc wf].
  destruct (String.eqb _ "close"); reflexivity.
Qed.

Lemma handle_one_request_reads_simple (r : request_data) (target : string)
    (hs : list (string * string)) (w : world) :
  reads_as_simple r target hs ->
  RequestHandling.handle_one_request cls r w
  = SimpleHTTPRequestHandler.do_GET cls
      (set_self (read_handler r "GET" target "HTTP/0.9" hs (self w)) w).
Proof.
  intros R. unfold RequestHandling.handle_one_request.
  destruct R as (Hlen & Hw & Hh).
  assert (R : reads_as_simple r target hs) by (repeat split; assumption).
  apply Z.ltb_ge in Hlen. rewrite Hlen.
  assert (E0 : String.eqb (raw_requestline r) "" = false).
  { unfold request_words in Hw. destruct (raw_requestline r); [discriminate Hw|reflexivity]. }
  rewrite E0.
  rewrite (run_bind_ok _ _ _ _ _ (parse_request_reads_simple _ _ _ w R)).
  rewrite run_get_self. rewrite self_set_self. cbn [command read_handler].
  reflexivity.
Qed.

End Simple.

(** X10.  A request on a new connection whose first line is the two
    words [GET] and a path is served as HTTP/0.9: for a file that can be
    opened, the bytes of the file are all that is sent, without a status
    line and without any header, the three no-cache headers included; the
    request is logged with status 200. *)
Theorem http09_get_sends_the_bare_file `{Platform} (r : request_data)
    (client : string * Z) (path : string) (hs : list (string * string))
    (f : file) (w : world) :
  serving client w ->
  reads_as_simple r path hs ->
  isdir (translate_path (RequestHandling.single_slash path)) = false ->
  Str.endswith (translate_path (RequestHandling.single_slash path)) "/" = false ->
  open_rb (translate_path (RequestHandling.single_slash path)) = Some f ->
  SimpleHTTPRequestHandler.not_modified f hs = false ->
  exists w',
    RequestHandling.handle_one_request NoCacheHTTPRequestHandler.class r w = Ok tt w'
    /\ wfile (self w') = bare (f_bytes f)
    /\ stderr w'
       = stderr w +:+ log_line (fst client) (log_date (clock w))
                        (request_summary (Str.rstrip Str.is_crlf (raw_requestline r)) 200).
Proof.
  intros [G S0] R Hd Hs Ho Hn.
  rewrite (handle_one_request_reads_simple _ r path hs w R).
  set (w1 := set_self (read_handler r "GET" path "HTTP/0.9" hs (self w)) w).
  assert (Hsys : globals w1 !! "sys" = Some (ObjModule "sys")).
  { unfold w1. rewrite globals_set_self, G. exact main_has_sys. }
  assert (Hhead : SimpleHTTPRequestHandler.send_head NoCacheHTTPRequestHandler.class w1
                  = Ok (Some (f_bytes f))
                      (answered 200 "OK"
                         (file_headers
                            (translate_path (RequestHandling.single_slash path)) f) w1)).
  { rewrite (send_head_file w1 Hd). apply (send_file_head_ok _ w1 Hsys _ f Hs Ho Hn). }
  unfold SimpleHTTPRequestHandler.do_GET.
  rewrite (run_bind_ok _ _ _ _ _ Hhead).
  assert (W : wfile (self (answered 200 "OK"
                             (file_headers
                                (translate_path (RequestHandling.single_slash path)) f)
                             w1)) = []).
  { rewrite answered_wfile_09 by reflexivity. unfold w1. cbn. rewrite S0. reflexivity. }
  assert (Se : stderr (answered 200 "OK"
                         (file_headers
                            (translate_path (RequestHandling.single_slash path)) f) w1)
               = stderr w +:+ log_line (fst client) (log_date (clock w))
                                (request_summary
                                   (Str.rstrip Str.is_crlf (raw_requestline r)) 200)).
  { rewrite answered_stderr. unfold w1. cbn. rewrite S0. reflexivity. }
  unfold SimpleHTTPRequestHandler.copyfile, bare.
  destruct (String.eqb (f_bytes f) "").
  - eexists. split; [reflexivity|]. split; [exact W|exact Se].
  - eexists. split; [reflexivity|]. split; [|exact Se].
    unfold written. rewrite self_set_self. cbn [wfile set_wfile]. rewrite W. reflexivity.
Qed.

Lemma http09_get_sends_the_bare_file_witness :
  let r := Example.request "GET /index.html" [] in
  serving Example.client (Example.start "__main__")
  /\ reads_as_simple r "/index.html" []
  /\ exists w',
       Example.serve r = Ok tt w'
       /\ wfile (self w') = ["<h1>hello</h1>"]
       /\ Str.text_lines (stderr w')
          = ["127.0.0.1 - - [21/Oct/2015 07:28:00] " +:+ Str.DQ
             +:+ "GET /index.html" +:+ Str.DQ +:+ " 200 -"].
Proof.
  cbv zeta.
  assert (R : reads_as_simple
                (Example.request "GET /index.html" []) "/index.html" []).
  { split; [vm_compute; discriminate|]. split; reflexivity. }
  split; [split; reflexivity|]. split; [exact R|].
  destruct (@http09_get_sends_the_bare_file Example.platform
              (Example.request "GET /index.html" []) Example.client
              "/index.html" [] Example.index_html (Example.start "__main__"))
    as (w' & E & W & Se);
    [split; reflexivity|exact R|reflexivity..|].
  exists w'. split; [exact E|]. split; [exact W|]. rewrite Se. reflexivity.
Defined.

(** X11.  A request on a new connection with three or more words whose
    last word is not an accepted version (status 400), or is a version
    from 2.0 on (status 505), is turned down while it still counts as an
    HTTP/0.9 request: the error page is all that is sent, without a
    status line and without any header. *)
Theorem rejected_version_gets_the_bare_error_page `{Platform} (r : request_data)
    (client : string * Z) (code : Z) (message : string) (w : world) :
  serving client w ->
  Z.of_nat (String.length (raw_requestline r)) <= 65536 ->
  (3 <= length (request_words r))%nat ->
  version_error (List.last (request_words r) "") = Some (code, message) ->
  exists w',
    RequestHandling.handle_one_request NoCacheHTTPRequestHandler.class r w = Ok tt w'
    /\ wfile (self w') = bare (error_page code message (error_explain code None))
    /\ request_version (self w') = "HTTP/0.9"
    /\ (code = 400 \/ code = 505).
Proof.
  intros [G S0] Hlen Hn Hv.
  unfold RequestHandling.handle_one_request.
  apply Z.ltb_ge in Hlen. rewrite Hlen.
  assert (E0 : String.eqb (raw_requestline r) "" = false).
  { unfold request_words in Hn.
    destruct (raw_requestline r); [cbn in Hn; lia|reflexivity]. }
  rewrite E0.
  set (w1 := set_self
               (set_requestline (Str.rstrip Str.is_crlf (raw_requestline r))
                  (set_close_connection true
                     (set_request_version "HTTP/0.9" (set_command None (self w))))) w).
  assert (Hsys : globals w1 !! "sys" = Some (ObjModule "sys")).
  { unfold w1. rewrite globals_set_self, G. exact main_has_sys. }
  assert (C : code = 400 \/ code = 505).
  { unfold version_error in Hv.
    destruct (RequestHandling.parse_version _) as [[base number]|].
    - destruct (RequestHandling.version_ge number 2 0); [|discriminate Hv].
      injection Hv as <- _. right. reflexivity.
    - injection Hv as <- _. left. reflexivity. }
  assert (P : RequestHandling.parse_request NoCacheHTTPRequestHandler.class r w
              = Ok false (errored code message (error_explain code None) w1)).
  { unfold RequestHandling.parse_request.
    rewrite !run_modify_self. rewrite ?self_set_self, ?set_self_twice.
    change (Str.split_ws (Str.rstrip Str.is_crlf (raw_requestline r)))
      with (request_words r).
    fold w1.
    destruct (request_words r) as [|wd words] eqn:W; [cbn in Hn; lia|].
    apply Nat.leb_le in Hn. rewrite Hn.
    unfold version_error in Hv.
    destruct (RequestHandling.parse_version (List.last (wd :: words) ""))
      as [[base number]|].
    - change RequestHandling.protocol_1_1 with false. rewrite andb_false_r.
      rewrite run_bind. cbv [mret M_ret].
      destruct (RequestHandling.version_ge number 2 0); [|discriminate Hv].
      injection Hv as <- <-.
      rewrite (run_bind_ok _ _ _ _ _ (send_error_run 505 _ None _ w1 Hsys)).
      reflexivity.
    - injection Hv as <- <-.
      rewrite (run_bind_ok _ _ _ _ _ (send_error_run 400 _ None _ w1 Hsys)).
      reflexivity. }
  rewrite (run_bind_ok _ _ _ _ _ P).
  eexists. split; [reflexivity|]. split; [|split; [|exact C]].
  - rewrite errored_wfile_09 by reflexivity.
    unfold w1. cbn [self set_self wfile set_requestline set_close_connection
                    set_request_version set_command command].
    rewrite S0. cbn [wfile TCPServer.new_handler app].
    unfold error_body, bare.
    assert (Hp : has_error_page code = true) by (destruct C as [-> | ->]; reflexivity).
    rewrite Hp. rewrite bool_decide_eq_false_2 by discriminate.
    cbn [andb negb].
    destruct (String.eqb (error_page code message (error_explain code None)) "");
      reflexivity.
  - destruct (errored_cases code message (error_explain code None) w1) as [E|E];
      rewrite E.
    + destruct (answered_same code message
                  (error_headers code message (error_explain code None))
                  (logged (error_summary code message) w1)) as (_ & _ & V & _).
      rewrite V. reflexivity.
    + unfold written. rewrite self_set_self. cbn [request_version set_wfile].
      destruct (answered_same code message
                  (error_headers code message (error_explain code None))
                  (logged (error_summary code message) w1)) as (_ & _ & V & _).
      rewrite V. reflexivity.
Qed.

Lemma rejected_version_gets_the_bare_error_page_witness :
  let r := Example.request "GET /index.html HTTP/2.0" [] in
  serving Example.client (Example.start "__main__")
  /\ (3 <= length (request_words r))%nat
  /\ @version_error Example.platform (List.last (request_words r) "")
     = Some (505, "Invalid HTTP version (2.0)")
  /\ exists w',
       Example.serve r = Ok tt w'
       /\ wfile (self w')
          = [@error_page Example.platform 505 "Invalid HTTP version (2.0)"
               "Cannot fulfill request"].
Proof.
  cbv zeta.
  split; [split; reflexivity|]. split; [vm_compute; lia|]. split; [reflexivity|].
  destruct (@rejected_version_gets_the_bare_error_page Example.platform
              (Example.request "GET /index.html HTTP/2.0" []) Example.client
              505 "Invalid HTTP version (2.0)" (Example.start "__main__"))
    as (w' & E & W & _);
    [split; reflexivity|vm_compute; discriminate|vm_compute; lia|reflexivity|].
  exists w'. split; [exact E|exact W].
Defined.

(** ** The class used from a module that imports the script *)





(** ** The log line of the override and the inherited one *)

Section Logging.
Context `{Platform}.

Lemma length_append (a b : string) :
  String.length (a +:+ b) = (String.length a + String.length b)%nat.
Proof.
  induction a as [|c a IH]; [reflexivity|].
  change (S (String.length (a +:+ b)) = S (String.length a + String.length b)).
  rewrite IH. reflexivity.
Qed.

Lemma append_cancel_l (a b c : string) : a +:+ b = a +:+ c -> b = c.
Proof.
  induction a as [|x a IH]; intros E; [exact E|].
  change (String x (a +:+ b) = String x (a +:+ c)) in E.
  injection E as E. apply IH. exact E.
Qed.

Lemma append_cancel_last (a b : string) (c : ascii) :
  a +:+ String c "" = b +:+ String c "" -> a = b.
Proof.
  revert b. induction a as [|x a IH]; intros [|y b] E.
  - reflexivity.
  - change (String c "" = String y (b +:+ String c "")) in E.
    injection E as _ E. destruct b; discriminate E.
  - change (String x (a +:+ String c "") = String c "") in E.
    injection E as _ E. destruct a; discriminate E.
  - change (String x (a +:+ String c "") = String y (b +:+ String c "")) in E.
    injection E as -> E. f_equal. apply IH. exact E.
Qed.

Lemma translate_char_length (c : ascii) :
  (1 <= String.length (Inherited.translate_char c))%nat.
Proof.
  unfold Inherited.translate_char.
  destruct (Inherited.is_control c); [cbn; lia|].
  destruct (Inherited.is_backslash c); cbn; lia.
Qed.

Lemma translate_length (s : string) :
  (String.length s <= String.length (Inherited.translate s))%nat.
Proof.
  induction s as [|c s IH]; [reflexivity|].
  cbn [Inherited.translate String.length]. rewrite length_append.
  pose proof (translate_char_length c). lia.
Qed.

(** The translation leaves a message as it is exactly when the message
    has no control character and no backslash. *)
Lemma translate_plain (s : string) :
  Inherited.translate s = s <-> plain_text s = true.
Proof.
  induction s as [|c s IH]; [split; reflexivity|].
  cbn [Inherited.translate plain_text]. unfold Inherited.translate_char.
  destruct (Inherited.is_control c) eqn:Ec.
  { cbn [negb andb]. split; [|discriminate].
    intros E.
    change (String Inherited.backslash
              (String "x"
                 (String (Inherited.hex_digit (nat_of_ascii c / 16))
                    (String (Inherited.hex_digit (nat_of_ascii c mod 16))
                       (Inherited.translate s))))
            = String c s) in E.
    injection E as E _. subst c. discriminate Ec. }
  destruct (Inherited.is_backslash c) eqn:Eb.
  { cbn [negb andb]. split; [|discriminate].
    intros E.
    change (String Inherited.backslash (String Inherited.backslash (Inherited.translate s))
            = String c s) in E.
    injection E as _ E.
    pose proof (translate_length s) as L. rewrite <- E in L at 1.
    cbn [String.length] in L. lia. }
  cbn [negb andb].
  change (String c "" +:+ Inherited.translate s) with (String c (Inherited.translate s)).
  rewrite <- IH. split; [intros E; injection E as E; exact E|intros ->; reflexivity].
Qed.

Lemma inherited_log_message_run (fmt : string) (args : list pyval) (message : string)
    (w : world) :
  percent_format format_other fmt args = inr message ->
  Inherited.log_message fmt args w = Ok tt (logged (Inherited.translate message) w).
Proof.
  intros Hfmt. unfold Inherited.log_message. rewrite Hfmt.
  cbv [mbind M_bind mret M_ret BaseHTTPRequestHandler.address_string get_self
       BaseHTTPRequestHandler.log_date_time_string time_time raise stderr_write].
  cbn [self clock set_clock]. rewrite outer_format. reflexivity.
Qed.

Lemma logged_inj (m m' : string) (w : world) : logged m w = logged m' w -> m = m'.
Proof.
  intros E. apply (f_equal stderr) in E. unfold logged in E. cbn [stderr set_stderr] in E.
  apply append_cancel_l in E. unfold log_line in E.
  do 4 apply append_cancel_l in E.
  apply (append_cancel_last m m' (ascii_of_nat 10)). exact E.
Qed.

End Logging.

(** X14.  Where the inherited [log_message] escapes the control
    characters and the backslashes of the message, the override writes the
    message as it is: with [sys] at hand and a format that fits its
    arguments, the override logs the message, the inherited method would
    log its translation, and the two leave the same state exactly when the
    message has no control character and no backslash. *)
Theorem override_logs_the_message_raw `{Platform} (format : string)
    (args : list pyval) (message : string) (o : pyobj) (w : world) :
  globals w !! "sys" = Some o ->
  percent_format format_other format args = inr message ->
  NoCacheHTTPRequestHandler.log_message format args w = Ok tt (logged message w)
  /\ Inherited.log_message format args w
     = Ok tt (logged (Inherited.translate message) w)
  /\ (NoCacheHTTPRequestHandler.log_message format args w
      = Inherited.log_message format args w
      <-> plain_text message = true).
Proof.
  intros Hsys Hfmt.
  rewrite (log_message_run format args message o w Hsys Hfmt).
  rewrite (inherited_log_message_run format args message w Hfmt).
  split; [reflexivity|]. split; [reflexivity|].
  rewrite <- translate_plain. split.
  - intros E. apply (f_equal final) in E. cbn [final] in E.
    symmetry. apply (logged_inj _ _ w). exact E.
  - intros ->. reflexivity.
Qed.

Lemma override_logs_the_message_raw_witness :
  let w := Example.start "__main__" in
  let line := "GET /a\b" +:+ String (ascii_of_nat 27) "[2J HTTP/1.0" in
  let fmt := Str.DQ +:+ "%s" +:+ Str.DQ +:+ " %s %s" in
  let args := [VStr line; VStr "404"; VStr "-"] in
  globals w !! "sys" = Some (ObjModule "sys")
  /\ stderr (final (@NoCacheHTTPRequestHandler.log_message Example.platform fmt args w))
     = "127.0.0.1 - - [21/Oct/2015 07:28:00] " +:+ Str.DQ +:+ line +:+ Str.DQ
       +:+ " 404 -" +:+ Str.LF
  /\ stderr (final (@Inherited.log_message Example.platform fmt args w))
     = "127.0.0.1 - - [21/Oct/2015 07:28:00] " +:+ Str.DQ
       +:+ "GET /a\\b\x1b[2J HTTP/1.0" +:+ Str.DQ +:+ " 404 -" +:+ Str.LF
  /\ @NoCacheHTTPRequestHandler.log_message Example.platform fmt args w
     <> @Inherited.log_message Example.platform fmt args w.
Proof.
  cbv zeta.
  destruct (@override_logs_the_message_raw Example.platform
              (Str.DQ +:+ "%s" +:+ Str.DQ +:+ " %s %s")
              [VStr ("GET /a\b" +:+ String (ascii_of_nat 27) "[2J HTTP/1.0");
               VStr "404"; VStr "-"]
              (Str.DQ +:+ ("GET /a\b" +:+ String (ascii_of_nat 27) "[2J HTTP/1.0")
               +:+ Str.DQ +:+ " 404 -")
              (ObjModule "sys") (Example.start "__main__"))
    as (E1 & E2 & I); [reflexivity|reflexivity|].
  split; [reflexivity|]. split; [rewrite E1; reflexivity|].
  split; [rewrite E2; reflexivity|].
  intros E. apply I in E. discriminate E.
Defined.

(** ** One request on each connection *)



(** ** How the script ends *)

Section Ending.
Context `{Platform}.


End Ending.


(** ** Requests without a word, and what a request leaves alone *)

(** X17.  A request without a word in its first line (the end of the
    input, an empty line, white space) gets no answer and no log line,
    whether or not [sys] is bound: the handler returns with nothing
    written, nothing logged, and the connection to be closed. *)
Theorem blank_request_is_dropped `{Platform} (r : request_data) (w : world) :
  blank r = true ->
  exists w1,
    RequestHandling.handle_one_request NoCacheHTTPRequestHandler.class r w = Ok tt w1
    /\ wfile (self w1) = wfile (self w)
    /\ stderr w1 = stderr w
    /\ close_connection (self w1) = true.
Proof.
  intros B. unfold blank in B. unfold RequestHandling.handle_one_request.
  destruct (65536 <? Z.of_nat (String.length (raw_requestline r))); [discriminate B|].
  cbn [negb andb] in B.
  destruct (String.eqb (raw_requestline r) "").
  { eexists. split; [reflexivity|]. repeat split. }
  assert (W0 : request_words r = []) by (destruct (request_words r); [reflexivity|discriminate B]).
  pose proof (parse_request_outcome NoCacheHTTPRequestHandler.class r w) as O.
  remember (RequestHandling.parse_request NoCacheHTTPRequestHandler.class r w)
    as out eqn:E.
  destruct O as [w1 [P C] Cmd W|w1 [P C] W|w1 code message explain [P C] W].
  - destruct (W W0).
  - rewrite (run_bind_ok _ _ _ _ _ (eq_sym E)).
    exists w1. split; [reflexivity|].
    destruct P as (_ & _ & Se & _ & _ & _ & _ & Wf). repeat split; assumption.
  - destruct (W W0).
Qed.

Lemma blank_request_is_dropped_witness :
  let r := Example.request "  " [] in
  blank r = true
  /\ exists w1,
       Example.serve r = Ok tt w1
       /\ wfile (self w1) = [] /\ stderr w1 = "" /\ close_connection (self w1) = true.
Proof.
  cbv zeta. split; [reflexivity|].
  apply (@blank_request_is_dropped Example.platform (Example.request "  " [])
           (Example.start "__main__")).
  reflexivity.
Defined.



(** ** [end_headers] before any header *)

(** X19.  When no header has been prepared and the request is not an
    HTTP/0.9 request, the inherited [end_headers] raises [AttributeError],
    for there is no header buffer; the override does not: its
    [send_header] calls make the buffer, and it transmits its three
    headers and the empty line. *)
Theorem end_headers_makes_the_buffer (w : world) :
  _headers_buffer (self w) = None ->
  request_version (self w) <> "HTTP/0.9" ->
  BaseHTTPRequestHandler.end_headers w = Raise (AttributeError "_headers_buffer") w
  /\ NoCacheHTTPRequestHandler.end_headers w
     = Ok tt
         (set_self
            (set_headers_buffer (Some [])
               (set_wfile (wfile (self w) ++ [Str.join (no_cache_lines ++ [Str.CRLF])])
                  (self w)))
            w).
Proof.
  intros B V. apply String.eqb_neq in V. split.
  - cbv [BaseHTTPRequestHandler.end_headers mbind M_bind get_self].
    rewrite V, B. reflexivity.
  - rewrite end_headers_run. unfold after_end_headers. rewrite V, B. reflexivity.
Qed.

Lemma end_headers_makes_the_buffer_witness :
  let w := Example.start "__main__" in
  _headers_buffer (self w) = None
  /\ request_version (self w) <> "HTTP/0.9"
  /\ BaseHTTPRequestHandler.end_headers w
     = Raise (AttributeError "_headers_buffer") w
  /\ wfile (self (final (NoCacheHTTPRequestHandler.end_headers w)))
     = [cache_control_line +:+ pragma_line +:+ expires_line +:+ Str.CRLF].
Proof.
  cbv zeta.
  destruct (end_headers_makes_the_buffer (Example.start "__main__"))
    as [E1 E2]; [reflexivity|discriminate|].
  split; [reflexivity|]. split; [discriminate|]. split; [exact E1|].
  rewrite E2. reflexivity.
Defined.

(** ** Paths that begin with two slashes *)

Section Slashes.
Context `{Platform}.

Lemma lstrip_slash_no_slash (s : string) :
  String.prefix "/" (Str.lstrip Str.is_slash s) = false.
Proof.
  induction s as [|c s IH]; [reflexivity|].
  cbn [Str.lstrip]. destruct (Str.is_slash c) eqn:E; [exact IH|].
  cbn [String.prefix]. destruct (ascii_dec "/" c) as [<-|_]; [discriminate E|reflexivity].
Qed.

Lemma single_slash_no_double (p : string) :
  Str.startswith (RequestHandling.single_slash p) "//" = false.
Proof.
  unfold RequestHandling.single_slash.
  destruct (Str.startswith p "//") eqn:E; [|exact E].
  unfold Str.startswith.
  change ("/" +:+ Str.lstrip Str.is_slash p) with (String "/" (Str.lstrip Str.is_slash p)).
  change (String.prefix "//" (String "/" (Str.lstrip Str.is_slash p)))
    with (String.prefix "/" (Str.lstrip Str.is_slash p)).
  apply lstrip_slash_no_slash.
Qed.

End Slashes.

(** X20.  The path that the handler works on never begins with two
    slashes: once a request has been read, its path is the path of the
    request line with the slashes at its beginning collapsed into one when
    there are two or more. *)
Theorem request_path_has_no_double_slash `{Platform} (r : request_data)
    (method target version : string) (hs : list (string * string)) (w : world) :
  reads_as r method target version hs ->
  exists w1,
    RequestHandling.parse_request NoCacheHTTPRequestHandler.class r w = Ok true w1
    /\ path (self w1)
       = (if Str.startswith target "//" then "/" +:+ Str.lstrip Str.is_slash target
          else target)
    /\ Str.startswith (path (self w1)) "//" = false.
Proof.
  intros R. eexists. split; [apply (parse_request_reads r method target version hs w R)|].
  rewrite self_set_self. cbn [path read_handler].
  split; [reflexivity|apply single_slash_no_double].
Qed.

Lemma request_path_has_no_double_slash_witness :
  let r := Example.request "GET //example.org/%2e%2e HTTP/1.1" [] in
  @reads_as Example.platform r "GET" "//example.org/%2e%2e" "HTTP/1.1" []
  /\ exists w1,
       @RequestHandling.parse_request Example.platform Example.class r
         (Example.start "__main__") = Ok true w1
       /\ path (self w1) = "/example.org/%2e%2e".
Proof.
  cbv zeta.
  assert (R : @reads_as Example.platform
                (Example.request "GET //example.org/%2e%2e HTTP/1.1" []) "GET"
                "//example.org/%2e%2e" "HTTP/1.1" []).
  { split; [vm_compute; discriminate|]. split; [reflexivity|].
    split; [|reflexivity]. exists "1.1", (1, 1). split; reflexivity. }
  split; [exact R|].
  destruct (@request_path_has_no_double_slash Example.platform
              (Example.request "GET //example.org/%2e%2e HTTP/1.1" []) "GET"
              "//example.org/%2e%2e" "HTTP/1.1" [] (Example.start "__main__") R)
    as (w1 & E & P & _).
  exists w1. split; [exact E|]. rewrite P. reflexivity.
Defined.

(** ** Request lines of one or two words *)

(** X21.  A request on a new connection whose first line is a single
    word, or two words of which the first is not [GET] (also [HEAD]), is
    turned down with status 400 as an HTTP/0.9 request: the error page is
    all that is sent, without a status line and without any header. *)
Theorem short_request_gets_the_bare_error_page `{Platform} (r : request_data)
    (client : string * Z) (message : string) (w : world) :
  serving client w ->
  Z.of_nat (String.length (raw_requestline r)) <= 65536 ->
  short_request_error r = Some message ->
  exists w',
    RequestHandling.handle_one_request NoCacheHTTPRequestHandler.class r w = Ok tt w'
    /\ wfile (self w')
       = bare (error_page 400 message "Bad request syntax or unsupported method")
    /\ request_version (self w') = "HTTP/0.9".
Proof.
  intros [G S0] Hlen Hm.
  unfold RequestHandling.handle_one_request.
  apply Z.ltb_ge in Hlen. rewrite Hlen.
  assert (E0 : String.eqb (raw_requestline r) "" = false).
  { unfold short_request_error, request_words in Hm.
    destruct (raw_requestline r); [discriminate Hm|reflexivity]. }
  rewrite E0.
  assert (K : forall w1 : world,
             globals w1 = globals w -> wfile (self w1) = [] ->
             request_version (self w1) = "HTTP/0.9" -> command (self w1) = None ->
             exists w',
               BaseHTTPRequestHandler.send_error NoCacheHTTPRequestHandler.class 400
                 (Some message) None w1 = Ok tt w'
               /\ wfile (self w')
                  = bare (error_page 400 message "Bad request syntax or unsupported method")
               /\ request_version (self w') = "HTTP/0.9").
  { intros w1 G1 W1 V1 C1.
    assert (Hsys : globals w1 !! "sys" = Some (ObjModule "sys")).
    { rewrite G1, G. exact main_has_sys. }
    rewrite (send_error_run 400 (Some message) None _ w1 Hsys).
    change (error_message 400 (Some message)) with message.
    change (error_explain 400 None) with "Bad request syntax or unsupported method".
    eexists. split; [reflexivity|]. split.
    - rewrite errored_wfile_09 by exact V1. rewrite W1, C1.
      unfold error_body, bare. cbn [app].
      change (has_error_page 400) with true.
      rewrite bool_decide_eq_false_2 by discriminate. cbn [andb negb].
      destruct (String.eqb
                  (error_page 400 message "Bad request syntax or unsupported method")
                  ""); reflexivity.
    - destruct (errored_cases 400 message "Bad request syntax or unsupported method" w1)
        as [E|E]; rewrite E;
        [|unfold written; rewrite self_set_self; cbn [request_version set_wfile]];
        destruct (answered_same 400 message
                    (error_headers 400 message "Bad request syntax or unsupported method")
                    (logged (error_summary 400 message) w1))
          as (_ & _ & V & _);
        rewrite V; exact V1. }
  assert (P : exists w',
             RequestHandling.parse_request NoCacheHTTPRequestHandler.class r w
             = Ok false w'
             /\ wfile (self w')
                = bare (error_page 400 message "Bad request syntax or unsupported method")
             /\ request_version (self w') = "HTTP/0.9").
  { unfold RequestHandling.parse_request.
    rewrite !run_modify_self. rewrite ?self_set_self, ?set_self_twice.
    change (Str.split_ws (Str.rstrip Str.is_crlf (raw_requestline r)))
      with (request_words r).
    unfold short_request_error in Hm.
    destruct (request_words r) as [|method [|target [|version rest]]];
      try discriminate Hm.
    - injection Hm as <-. cbn [length Nat.leb].
      unfold RequestHandling.parse_request_words. cbv beta iota.
      match goal with
      | |- context [(_ ≫= _) ?w1] =>
          destruct (K w1) as (w' & E & W & V);
            [reflexivity|cbn; rewrite S0; reflexivity|reflexivity|reflexivity|]
      end.
      rewrite (run_bind_ok _ _ _ _ _ E). exists w'. split; [reflexivity|].
      split; assumption.
    - destruct (String.eqb method "GET") eqn:Eg; [discriminate Hm|].
      injection Hm as <-. cbn [length Nat.leb].
      unfold RequestHandling.parse_request_words. cbn [length Nat.ltb Nat.leb].
      rewrite Eg. cbn [negb].
      rewrite run_bind, run_modify_self.
      rewrite ?self_set_self, ?set_self_twice.
      match goal with
      | |- context [(_ ≫= _) ?w1] =>
          destruct (K w1) as (w' & E & W & V);
            [reflexivity|cbn; rewrite S0; reflexivity|reflexivity|reflexivity|]
      end.
      rewrite (run_bind_ok _ _ _ _ _ E). exists w'. split; [reflexivity|].
      split; assumption. }
  destruct P as (w' & P & W & V).
  rewrite (run_bind_ok _ _ _ _ _ P). exists w'. split; [reflexivity|].
  split; assumption.
Qed.

Lemma short_request_gets_the_bare_error_page_witness :
  let r := Example.request "HEAD /index.html" [] in
  serving Example.client (Example.start "__main__")
  /\ @short_request_error Example.platform r
     = Some "Bad HTTP/0.9 request type ('HEAD')"
  /\ exists w',
       Example.serve r = Ok tt w'
       /\ wfile (self w')
          = [@error_page Example.platform 400 "Bad HTTP/0.9 request type ('HEAD')"
               "Bad request syntax or unsupported method"].
Proof.
  cbv zeta. split; [split; reflexivity|]. split; [reflexivity|].
  destruct (@short_request_gets_the_bare_error_page Example.platform
              (Example.request "HEAD /index.html" []) Example.client
              "Bad HTTP/0.9 request type ('HEAD')" (Example.start "__main__"))
    as (w' & E & W & _);
    [split; reflexivity|vm_compute; discriminate|reflexivity|].
  exists w'. split; [exact E|exact W].
Defined.

(** ** Exceptions that [send_head] does not catch *)

Section Uncaught.
Context `{Platform}.

(** The handler once a request has been read has sent and logged
    nothing. *)
Lemma read_handler_prepared (r : request_data) (method target version : string)
    (hs : list (string * string)) (w : world) :
  prepared w (set_self (read_handler r method target version hs (self w)) w).
Proof. repeat split. Qed.

(** A connection whose first request ends in an exception: the server
    writes its report and returns to its loop, and the client has got no
    byte. *)
Lemma connection_reports (client : string * Z) (r : request_data)
    (rest : list request_data) (e : exn) (w : world) :
  is_Exception e = true ->
  (forall w0, exists w1,
      prepared w0 w1
      /\ RequestHandling.handle_one_request NoCacheHTTPRequestHandler.class r w0
         = Raise e w1) ->
  exists w',
    TCPServer._handle_request_noblock NoCacheHTTPRequestHandler.class client
      (r :: rest) w = Ok tt w'
    /\ wfile (self w') = []
    /\ stdout w' = stdout w
    /\ syscalls w' = syscalls w ++ [SysAccept client]
    /\ stderr w' = stderr w +:+ error_report client e.
Proof.
  intros Ex Hr.
  unfold TCPServer._handle_request_noblock.
  rewrite run_bind. unfold syscall_do at 1.
  unfold try_except, TCPServer.finish_request, RequestHandling.handle.
  rewrite !run_modify_self. rewrite ?self_set_self, ?set_self_twice.
  cbn [RequestHandling.handle_loop].
  match goal with
  | |- context [(_ ≫= _) ?w0] => destruct (Hr w0) as (w1 & P & E)
  end.
  rewrite (run_bind_raise _ _ _ _ _ E), Ex.
  destruct P as (_ & So & Se & _ & Sy & _ & _ & W).
  eexists. split; [reflexivity|].
  cbn [self wfile syscalls stdout stderr set_stderr]. rewrite W, Sy, So, Se.
  do 3 (split; [reflexivity|]).
  unfold error_report. cbn [stderr set_self set_syscalls].
  rewrite !append_assoc. reflexivity.
Qed.

Lemma handle_one_request_open_raises (r : request_data)
    (method target version : string) (hs : list (string * string)) (msg : string)
    (w : world) :
  reads_as r method target version hs ->
  method = "GET" \/ method = "HEAD" ->
  isdir (translate_path (RequestHandling.single_slash target)) = false ->
  Str.endswith (translate_path (RequestHandling.single_slash target)) "/" = false ->
  open_rb (translate_path (RequestHandling.single_slash target)) = None ->
  open_failure (translate_path (RequestHandling.single_slash target))
  = OpenValueError msg ->
  RequestHandling.handle_one_request NoCacheHTTPRequestHandler.class r w
  = Raise (ValueError msg)
      (set_self (read_handler r method target version hs (self w)) w).
Proof.
  intros R M Hd Hs Ho Hf.
  rewrite (handle_one_request_reads r method target version hs w R). cbv zeta.
  assert (Hhead : SimpleHTTPRequestHandler.send_head NoCacheHTTPRequestHandler.class
                    (set_self (read_handler r method target version hs (self w)) w)
                  = Raise (ValueError msg)
                      (set_self (read_handler r method target version hs (self w)) w)).
  { rewrite (send_head_file
               (set_self (read_handler r method target version hs (self w)) w) Hd).
    unfold SimpleHTTPRequestHandler.send_file_head.
    rewrite self_set_self. cbn [path read_handler]. rewrite Hs, Ho, Hf. reflexivity. }
  destruct M as [-> | ->]; cbn [String.eqb Ascii.eqb Bool.eqb].
  - unfold SimpleHTTPRequestHandler.do_GET. apply (run_bind_raise _ _ _ _ _ Hhead).
  - unfold SimpleHTTPRequestHandler.do_HEAD. apply (run_bind_raise _ _ _ _ _ Hhead).
Qed.


End Uncaught.

(** X22.  A [GET] or [HEAD] request for a path that is not a directory,
    has no slash at its end, and on which [open] fails with [ValueError]
    (a path with an embedded null byte) is not answered: [send_head]
    catches [OSError] only, the exception leaves the handler before
    anything is sent or logged, and the server, which catches it, writes
    its report on standard error and returns to its loop; the client gets
    no byte. *)
Theorem open_value_error_is_not_answered `{Platform} (r : request_data)
    (client : string * Z) (method target version : string)
    (hs : list (string * string)) (msg : string) (w : world) :
  reads_as r method target version hs ->
  method = "GET" \/ method = "HEAD" ->
  isdir (translate_path (RequestHandling.single_slash target)) = false ->
  Str.endswith (translate_path (RequestHandling.single_slash target)) "/" = false ->
  open_rb (translate_path (RequestHandling.single_slash target)) = None ->
  open_failure (translate_path (RequestHandling.single_slash target))
  = OpenValueError msg ->
  RequestHandling.handle_one_request NoCacheHTTPRequestHandler.class r w
  = Raise (ValueError msg)
      (set_self (read_handler r method target version hs (self w)) w)
  /\ (forall rest : list request_data,
        exists w',
          TCPServer._handle_request_noblock NoCacheHTTPRequestHandler.class client
            (r :: rest) w = Ok tt w'
          /\ wfile (self w') = []
          /\ stdout w' = stdout w
          /\ syscalls w' = syscalls w ++ [SysAccept client]
          /\ stderr w' = stderr w +:+ error_report client (ValueError msg)).
Proof.
  intros R M Hd Hs Ho Hf. split.
  - apply handle_one_request_open_raises; assumption.
  - intros rest. apply connection_reports; [reflexivity|].
    intros w0. eexists. split; [|apply (handle_one_request_open_raises r method target
                                          version hs msg w0); assumption].
    apply read_handler_prepared.
Qed.

Lemma open_value_error_is_not_answered_witness :
  let target := "/a" +:+ String Ascii.zero "b" in
  let r := Example.request ("GET " +:+ target +:+ " HTTP/1.1") [] in
  @reads_as Example.platform r "GET" target "HTTP/1.1" []
  /\ @open_failure Example.platform (@translate_path Example.platform target)
     = OpenValueError "embedded null byte"
  /\ (exists w1, Example.serve r = Raise (ValueError "embedded null byte") w1
                 /\ wfile (self w1) = [] /\ stderr w1 = "")
  /\ exists w',
       @TCPServer._handle_request_noblock Example.platform Example.class
         Example.client [r] (initial_world "__main__") = Ok tt w'
       /\ wfile (self w') = []
       /\ Str.text_lines (stderr w')
          = ["----------------------------------------";
             "Exception occurred during processing of request from ('127.0.0.1', 50000)";
             "Traceback (most recent call last):";
             "ValueError: embedded null byte";
             "----------------------------------------"].
Proof.
  cbv zeta.
  assert (R : @reads_as Example.platform
                (Example.request ("GET " +:+ ("/a" +:+ String Ascii.zero "b")
                                  +:+ " HTTP/1.1") [])
                "GET" ("/a" +:+ String Ascii.zero "b") "HTTP/1.1" []).
  { split; [vm_compute; discriminate|]. split; [reflexivity|].
    split; [|reflexivity]. exists "1.1", (1, 1). split; reflexivity. }
  split; [exact R|]. split; [reflexivity|].
  split.
  - destruct (@open_value_error_is_not_answered Example.platform
                (Example.request ("GET " +:+ ("/a" +:+ String Ascii.zero "b")
                                  +:+ " HTTP/1.1") [])
                Example.client "GET" ("/a" +:+ String Ascii.zero "b") "HTTP/1.1" []
                "embedded null byte" (Example.start "__main__") R)
      as [E _]; [left; reflexivity|reflexivity..|].
    eexists. split; [exact E|]. split; reflexivity.
  - destruct (@open_value_error_is_not_answered Example.platform
                (Example.request ("GET " +:+ ("/a" +:+ String Ascii.zero "b")
                                  +:+ " HTTP/1.1") [])
                Example.client "GET" ("/a" +:+ String Ascii.zero "b") "HTTP/1.1" []
                "embedded null byte" (initial_world "__main__") R)
      as [_ T]; [left; reflexivity|reflexivity..|].
    destruct (T []) as (w' & E & W & _ & _ & Se).
    exists w'. split; [exact E|]. split; [exact W|]. rewrite Se. vm_compute. reflexivity.
Defined.


